(** * NMPolicy: a shallow embedding of [src/nm-policy.c]

    The policy object keeps a handful of private fields and otherwise reads
    and writes objects owned by its collaborators (devices, active
    connections, settings connections, the DNS manager).  The embedding keeps
    that shape: objects live in stores indexed by handle (the C pointers),
    every handler is a state transformer over the [World], and each call
    into a collaborator that the policy cannot observe afterwards is recorded
    in an effect trace. *)

From stdpp Require Import gmap strings list fin_maps.
From Stdlib Require Import ZArith Lia.

Local Open Scope Z_scope.

(** ** Handles

    [NMDevice *], [NMActiveConnection *] and [NMSettingsConnection *] are
    handles into the stores of the [World]; a nullable pointer is an
    [option]. *)
Abbreviation NMDevice := nat (only parsing).
Abbreviation NMActiveConnection := nat (only parsing).
Abbreviation NMSettingsConnection := nat (only parsing).

(** ** Enumerations of the public API used by the policy *)

Inductive NMDeviceState :=
| NM_DEVICE_STATE_UNKNOWN
| NM_DEVICE_STATE_UNMANAGED
| NM_DEVICE_STATE_UNAVAILABLE
| NM_DEVICE_STATE_DISCONNECTED
| NM_DEVICE_STATE_PREPARE
| NM_DEVICE_STATE_CONFIG
| NM_DEVICE_STATE_NEED_AUTH
| NM_DEVICE_STATE_IP_CONFIG
| NM_DEVICE_STATE_IP_CHECK
| NM_DEVICE_STATE_SECONDARIES
| NM_DEVICE_STATE_ACTIVATED
| NM_DEVICE_STATE_DEACTIVATING
| NM_DEVICE_STATE_FAILED.

(** The integer behind each enumerator; the source compares device states
    with [>=], [<=] and [>]. *)
Definition device_state_value (s : NMDeviceState) : Z :=
  match s with
  | NM_DEVICE_STATE_UNKNOWN => 0
  | NM_DEVICE_STATE_UNMANAGED => 10
  | NM_DEVICE_STATE_UNAVAILABLE => 20
  | NM_DEVICE_STATE_DISCONNECTED => 30
  | NM_DEVICE_STATE_PREPARE => 40
  | NM_DEVICE_STATE_CONFIG => 50
  | NM_DEVICE_STATE_NEED_AUTH => 60
  | NM_DEVICE_STATE_IP_CONFIG => 70
  | NM_DEVICE_STATE_IP_CHECK => 80
  | NM_DEVICE_STATE_SECONDARIES => 90
  | NM_DEVICE_STATE_ACTIVATED => 100
  | NM_DEVICE_STATE_DEACTIVATING => 110
  | NM_DEVICE_STATE_FAILED => 120
  end.

(** Only the reasons the policy names are spelled out; every other reason
    code is carried as [NM_DEVICE_STATE_REASON_OTHER]. *)
Inductive NMDeviceStateReason :=
| NM_DEVICE_STATE_REASON_NONE
| NM_DEVICE_STATE_REASON_NO_SECRETS
| NM_DEVICE_STATE_REASON_USER_REQUESTED
| NM_DEVICE_STATE_REASON_CARRIER
| NM_DEVICE_STATE_REASON_SECONDARY_CONNECTION_FAILED
| NM_DEVICE_STATE_REASON_CONNECTION_REMOVED
| NM_DEVICE_STATE_REASON_OTHER (code : Z).

Inductive NMActiveConnectionState :=
| NM_ACTIVE_CONNECTION_STATE_UNKNOWN
| NM_ACTIVE_CONNECTION_STATE_ACTIVATING
| NM_ACTIVE_CONNECTION_STATE_ACTIVATED
| NM_ACTIVE_CONNECTION_STATE_DEACTIVATING
| NM_ACTIVE_CONNECTION_STATE_DEACTIVATED.

Definition active_connection_state_value (s : NMActiveConnectionState) : Z :=
  match s with
  | NM_ACTIVE_CONNECTION_STATE_UNKNOWN => 0
  | NM_ACTIVE_CONNECTION_STATE_ACTIVATING => 1
  | NM_ACTIVE_CONNECTION_STATE_ACTIVATED => 2
  | NM_ACTIVE_CONNECTION_STATE_DEACTIVATING => 3
  | NM_ACTIVE_CONNECTION_STATE_DEACTIVATED => 4
  end.

Inductive NMDnsIPConfigType :=
| NM_DNS_IP_CONFIG_TYPE_DEFAULT
| NM_DNS_IP_CONFIG_TYPE_BEST_DEVICE
| NM_DNS_IP_CONFIG_TYPE_VPN.

Inductive NMActivationType :=
| NM_ACTIVATION_TYPE_FULL
| NM_ACTIVATION_TYPE_ASSUME.

(** The two address families; the source has one copy of the routing, DNS
    and best-device code per family, identical up to the family. *)
Inductive Family := AF_INET | AF_INET6.

Inductive PolicyProperty :=
| PROP_DEFAULT_IP4_DEVICE
| PROP_DEFAULT_IP6_DEVICE
| PROP_ACTIVATING_IP4_DEVICE
| PROP_ACTIVATING_IP6_DEVICE.

#[global] Instance NMDeviceState_eq_dec : EqDecision NMDeviceState.
Proof. solve_decision. Defined.
#[global] Instance NMDeviceStateReason_eq_dec : EqDecision NMDeviceStateReason.
Proof. solve_decision. Defined.
#[global] Instance NMActiveConnectionState_eq_dec : EqDecision NMActiveConnectionState.
Proof. solve_decision. Defined.
#[global] Instance Family_eq_dec : EqDecision Family.
Proof. solve_decision. Defined.

(** ** Objects *)

(** An [NMIP4Config] or [NMIP6Config]: its identity and its addresses. *)
Record NMIPConfig := {
  ipcfg_id : nat;
  ipcfg_addresses : list Z;
}.

(** A DHCP configuration object, reduced to the one option the policy
    reads, [host_name]. *)
Record NMDhcpConfig := {
  dhcp_host_name : option string;
}.

Record DeviceObj := {
  dev_state : NMDeviceState;
  dev_iface : option string;
  dev_ip_iface : string;
  dev_settings_connection : option NMSettingsConnection;
  dev_act_request : option NMActiveConnection;
  dev_ip4_config : option NMIPConfig;
  dev_ip6_config : option NMIPConfig;
  dev_dhcp4_config : option NMDhcpConfig;
  dev_dhcp6_config : option NMDhcpConfig;
  dev_enabled : bool;
  dev_autoconnect : bool;
  dev_autoconnect_allowed : bool;
  dev_is_software : bool;
  dev_pending_actions : list string;
}.

(** The applied connection of an active connection: a private copy of the
    profile, of which the policy reads the id and the uuid. *)
Record NMConnection := {
  nmc_id : string;
  nmc_uuid : string;
}.

Record ActiveObj := {
  ac_state : NMActiveConnectionState;
  ac_device : option NMDevice;
  ac_settings_connection : option NMSettingsConnection;
  ac_applied_connection : option NMConnection;
  ac_path : string;
  ac_subject_internal : bool;
  ac_is_vpn : bool;
  ac_vpn_ip4_config : option NMIPConfig;
  ac_vpn_ip6_config : option NMIPConfig;
  ac_default : bool;
  ac_default6 : bool;
}.

Record ConnectionObj := {
  con_id : string;
  con_uuid : string;
  con_is_vpn : bool;
  con_master : option string;
  con_secondaries : list string;
  con_visible : bool;
  con_secrets : list string;
  autoconnect_retries : Z;
  autoconnect_retry_time : Z;
  autoconnect_blocked_reason : NMDeviceStateReason;
}.

(** ** The policy's private state *)

Record ActivateData := {
  ad_device : NMDevice;
  ad_autoactivate_id : bool;
}.

Record PendingSecondaryData := {
  psd_device : NMDevice;
  psd_secondaries : list NMActiveConnection;
}.

(** [reset_retries_id] is a GLib source id in the source, zero when no
    timer is armed.  Here an armed timer is identified with the interval in
    seconds it was armed with, and [None] is the zero id.
    [schedule_activate_all_id] and [lookup_cancellable] only record whether
    the idle source, respectively the cancellable, exists. *)
Record NMPolicyPrivate := {
  pending_activation_checks : list ActivateData;
  devices : gset nat;
  pending_secondaries : list PendingSecondaryData;
  default_device4 : option NMDevice;
  activating_device4 : option NMDevice;
  default_device6 : option NMDevice;
  activating_device6 : option NMDevice;
  lookup_addr : option (Family * Z);
  lookup_cancellable : bool;
  reset_retries_id : option Z;
  schedule_activate_all_id : bool;
  orig_hostname : option string;
  cur_hostname : option string;
  hostname_changed : bool;
}.

(** ** Calls into collaborators *)

Inductive LogLevel := LOGL_DEBUG | LOGL_INFO | LOGL_WARN.
Inductive LogDomain := LOGD_DEVICE | LOGD_DNS | LOGD_CORE.
Inductive LogArg := LogStr (s : option string) | LogInt (n : Z).

Inductive Effect :=
| Notify (p : PolicyProperty)
| NMLog (l : LogLevel) (d : LogDomain) (fmt : string) (args : list LogArg)
| GWarning (what : string)
| DnsBeginUpdates (func : string)
| DnsEndUpdates (func : string)
| DnsAddIPConfig (f : Family) (iface : option string) (cfg : NMIPConfig) (t : NMDnsIPConfigType)
| DnsRemoveIPConfig (f : Family) (cfg : NMIPConfig)
| DnsSetHostname (name : option string)
| SettingsSetTransientHostname (name : string)
| ResolverLookupByAddress (addr : Family * Z)
| CancellableCancel
| DeviceStateChanged (d : NMDevice) (s : NMDeviceState) (r : NMDeviceStateReason)
| DeviceQueueState (d : NMDevice) (s : NMDeviceState) (r : NMDeviceStateReason)
| DeviceReapplySettings (d : NMDevice)
| ManagerActivateConnection (c : NMSettingsConnection) (specific_object : option string)
    (d : option NMDevice) (internal_subject : bool) (t : NMActivationType)
| ManagerDeactivateConnection (path : string) (r : NMDeviceStateReason)
| GIdleAdd (callback : string)
| GSourceRemove (callback : string)
| GTimeoutAddSeconds (interval : Z) (callback : string).

(** ** The world a handler runs in *)

Record World := {
  priv : NMPolicyPrivate;
  device_objs : gmap nat DeviceObj;
  active_objs : gmap nat ActiveObj;
  connection_objs : gmap nat ConnectionObj;
  (* NMManager *)
  manager_devices : list NMDevice;
  manager_active_connections : list NMActiveConnection;
  manager_asleep : bool;
  manager_hostname : option string;
  (* NMSettings *)
  settings_connections_sorted : list NMSettingsConnection;
  (* the system *)
  kernel_hostname : option string;
  monotonic_timestamp_s : Z;
  (* calls made so far, oldest first *)
  effects : list Effect;
}.

(** ** Field updates *)

Definition with_priv (f : NMPolicyPrivate → NMPolicyPrivate) (w : World) : World :=
  {| priv := f (priv w);
     device_objs := device_objs w;
     active_objs := active_objs w;
     connection_objs := connection_objs w;
     manager_devices := manager_devices w;
     manager_active_connections := manager_active_connections w;
     manager_asleep := manager_asleep w;
     manager_hostname := manager_hostname w;
     settings_connections_sorted := settings_connections_sorted w;
     kernel_hostname := kernel_hostname w;
     monotonic_timestamp_s := monotonic_timestamp_s w;
     effects := effects w |}.

Definition with_device_objs (f : gmap nat DeviceObj → gmap nat DeviceObj) (w : World) : World :=
  {| priv := priv w;
     device_objs := f (device_objs w);
     active_objs := active_objs w;
     connection_objs := connection_objs w;
     manager_devices := manager_devices w;
     manager_active_connections := manager_active_connections w;
     manager_asleep := manager_asleep w;
     manager_hostname := manager_hostname w;
     settings_connections_sorted := settings_connections_sorted w;
     kernel_hostname := kernel_hostname w;
     monotonic_timestamp_s := monotonic_timestamp_s w;
     effects := effects w |}.

Definition with_active_objs (f : gmap nat ActiveObj → gmap nat ActiveObj) (w : World) : World :=
  {| priv := priv w;
     device_objs := device_objs w;
     active_objs := f (active_objs w);
     connection_objs := connection_objs w;
     manager_devices := manager_devices w;
     manager_active_connections := manager_active_connections w;
     manager_asleep := manager_asleep w;
     manager_hostname := manager_hostname w;
     settings_connections_sorted := settings_connections_sorted w;
     kernel_hostname := kernel_hostname w;
     monotonic_timestamp_s := monotonic_timestamp_s w;
     effects := effects w |}.

Definition with_connection_objs (f : gmap nat ConnectionObj → gmap nat ConnectionObj) (w : World) : World :=
  {| priv := priv w;
     device_objs := device_objs w;
     active_objs := active_objs w;
     connection_objs := f (connection_objs w);
     manager_devices := manager_devices w;
     manager_active_connections := manager_active_connections w;
     manager_asleep := manager_asleep w;
     manager_hostname := manager_hostname w;
     settings_connections_sorted := settings_connections_sorted w;
     kernel_hostname := kernel_hostname w;
     monotonic_timestamp_s := monotonic_timestamp_s w;
     effects := effects w |}.

Definition with_effects (f : list Effect → list Effect) (w : World) : World :=
  {| priv := priv w;
     device_objs := device_objs w;
     active_objs := active_objs w;
     connection_objs := connection_objs w;
     manager_devices := manager_devices w;
     manager_active_connections := manager_active_connections w;
     manager_asleep := manager_asleep w;
     manager_hostname := manager_hostname w;
     settings_connections_sorted := settings_connections_sorted w;
     kernel_hostname := kernel_hostname w;
     monotonic_timestamp_s := monotonic_timestamp_s w;
     effects := f (effects w) |}.

Definition set_default_device (fam : Family) (d : option NMDevice) (p : NMPolicyPrivate)
  : NMPolicyPrivate :=
  {| pending_activation_checks := pending_activation_checks p;
     devices := devices p;
     pending_secondaries := pending_secondaries p;
     default_device4 := match fam with AF_INET => d | AF_INET6 => default_device4 p end;
     activating_device4 := activating_device4 p;
     default_device6 := match fam with AF_INET => default_device6 p | AF_INET6 => d end;
     activating_device6 := activating_device6 p;
     lookup_addr := lookup_addr p;
     lookup_cancellable := lookup_cancellable p;
     reset_retries_id := reset_retries_id p;
     schedule_activate_all_id := schedule_activate_all_id p;
     orig_hostname := orig_hostname p;
     cur_hostname := cur_hostname p;
     hostname_changed := hostname_changed p |}.

Definition set_activating_device (fam : Family) (d : option NMDevice) (p : NMPolicyPrivate)
  : NMPolicyPrivate :=
  {| pending_activation_checks := pending_activation_checks p;
     devices := devices p;
     pending_secondaries := pending_secondaries p;
     default_device4 := default_device4 p;
     activating_device4 := match fam with AF_INET => d | AF_INET6 => activating_device4 p end;
     default_device6 := default_device6 p;
     activating_device6 := match fam with AF_INET => activating_device6 p | AF_INET6 => d end;
     lookup_addr := lookup_addr p;
     lookup_cancellable := lookup_cancellable p;
     reset_retries_id := reset_retries_id p;
     schedule_activate_all_id := schedule_activate_all_id p;
     orig_hostname := orig_hostname p;
     cur_hostname := cur_hostname p;
     hostname_changed := hostname_changed p |}.

Definition set_pending_activation_checks (l : list ActivateData) (p : NMPolicyPrivate)
  : NMPolicyPrivate :=
  {| pending_activation_checks := l;
     devices := devices p;
     pending_secondaries := pending_secondaries p;
     default_device4 := default_device4 p;
     activating_device4 := activating_device4 p;
     default_device6 := default_device6 p;
     activating_device6 := activating_device6 p;
     lookup_addr := lookup_addr p;
     lookup_cancellable := lookup_cancellable p;
     reset_retries_id := reset_retries_id p;
     schedule_activate_all_id := schedule_activate_all_id p;
     orig_hostname := orig_hostname p;
     cur_hostname := cur_hostname p;
     hostname_changed := hostname_changed p |}.

Definition set_pending_secondaries (l : list PendingSecondaryData) (p : NMPolicyPrivate)
  : NMPolicyPrivate :=
  {| pending_activation_checks := pending_activation_checks p;
     devices := devices p;
     pending_secondaries := l;
     default_device4 := default_device4 p;
     activating_device4 := activating_device4 p;
     default_device6 := default_device6 p;
     activating_device6 := activating_device6 p;
     lookup_addr := lookup_addr p;
     lookup_cancellable := lookup_cancellable p;
     reset_retries_id := reset_retries_id p;
     schedule_activate_all_id := schedule_activate_all_id p;
     orig_hostname := orig_hostname p;
     cur_hostname := cur_hostname p;
     hostname_changed := hostname_changed p |}.

Definition set_lookup_addr (a : option (Family * Z)) (p : NMPolicyPrivate) : NMPolicyPrivate :=
  {| pending_activation_checks := pending_activation_checks p;
     devices := devices p;
     pending_secondaries := pending_secondaries p;
     default_device4 := default_device4 p;
     activating_device4 := activating_device4 p;
     default_device6 := default_device6 p;
     activating_device6 := activating_device6 p;
     lookup_addr := a;
     lookup_cancellable := lookup_cancellable p;
     reset_retries_id := reset_retries_id p;
     schedule_activate_all_id := schedule_activate_all_id p;
     orig_hostname := orig_hostname p;
     cur_hostname := cur_hostname p;
     hostname_changed := hostname_changed p |}.

Definition set_lookup_cancellable (c : bool) (p : NMPolicyPrivate) : NMPolicyPrivate :=
  {| pending_activation_checks := pending_activation_checks p;
     devices := devices p;
     pending_secondaries := pending_secondaries p;
     default_device4 := default_device4 p;
     activating_device4 := activating_device4 p;
     default_device6 := default_device6 p;
     activating_device6 := activating_device6 p;
     lookup_addr := lookup_addr p;
     lookup_cancellable := c;
     reset_retries_id := reset_retries_id p;
     schedule_activate_all_id := schedule_activate_all_id p;
     orig_hostname := orig_hostname p;
     cur_hostname := cur_hostname p;
     hostname_changed := hostname_changed p |}.

Definition set_reset_retries_id (t : option Z) (p : NMPolicyPrivate) : NMPolicyPrivate :=
  {| pending_activation_checks := pending_activation_checks p;
     devices := devices p;
     pending_secondaries := pending_secondaries p;
     default_device4 := default_device4 p;
     activating_device4 := activating_device4 p;
     default_device6 := default_device6 p;
     activating_device6 := activating_device6 p;
     lookup_addr := lookup_addr p;
     lookup_cancellable := lookup_cancellable p;
     reset_retries_id := t;
     schedule_activate_all_id := schedule_activate_all_id p;
     orig_hostname := orig_hostname p;
     cur_hostname := cur_hostname p;
     hostname_changed := hostname_changed p |}.

Definition set_schedule_activate_all_id (b : bool) (p : NMPolicyPrivate) : NMPolicyPrivate :=
  {| pending_activation_checks := pending_activation_checks p;
     devices := devices p;
     pending_secondaries := pending_secondaries p;
     default_device4 := default_device4 p;
     activating_device4 := activating_device4 p;
     default_device6 := default_device6 p;
     activating_device6 := activating_device6 p;
     lookup_addr := lookup_addr p;
     lookup_cancellable := lookup_cancellable p;
     reset_retries_id := reset_retries_id p;
     schedule_activate_all_id := b;
     orig_hostname := orig_hostname p;
     cur_hostname := cur_hostname p;
     hostname_changed := hostname_changed p |}.

(** [priv->cur_hostname = g_strdup (new_hostname); priv->hostname_changed = TRUE] *)
Definition set_cur_hostname (h : option string) (p : NMPolicyPrivate) : NMPolicyPrivate :=
  {| pending_activation_checks := pending_activation_checks p;
     devices := devices p;
     pending_secondaries := pending_secondaries p;
     default_device4 := default_device4 p;
     activating_device4 := activating_device4 p;
     default_device6 := default_device6 p;
     activating_device6 := activating_device6 p;
     lookup_addr := lookup_addr p;
     lookup_cancellable := lookup_cancellable p;
     reset_retries_id := reset_retries_id p;
     schedule_activate_all_id := schedule_activate_all_id p;
     orig_hostname := orig_hostname p;
     cur_hostname := h;
     hostname_changed := true |}.

(** ** Reading and writing objects through handles

    Every getter of the collaborators starts with a [g_return_val_if_fail]
    on the object's type and then returns NULL, zero or FALSE; a handle
    that is not in its store reads as such an object, and writing through
    it does nothing. *)

Definition null_device : DeviceObj :=
  {| dev_state := NM_DEVICE_STATE_UNKNOWN; dev_iface := None; dev_ip_iface := "";
     dev_settings_connection := None; dev_act_request := None;
     dev_ip4_config := None; dev_ip6_config := None;
     dev_dhcp4_config := None; dev_dhcp6_config := None;
     dev_enabled := false; dev_autoconnect := false;
     dev_autoconnect_allowed := false; dev_is_software := false;
     dev_pending_actions := [] |}.

Definition null_active : ActiveObj :=
  {| ac_state := NM_ACTIVE_CONNECTION_STATE_UNKNOWN; ac_device := None;
     ac_settings_connection := None; ac_applied_connection := None;
     ac_path := ""; ac_subject_internal := false; ac_is_vpn := false;
     ac_vpn_ip4_config := None; ac_vpn_ip6_config := None;
     ac_default := false; ac_default6 := false |}.

Definition null_connection : ConnectionObj :=
  {| con_id := ""; con_uuid := ""; con_is_vpn := false; con_master := None;
     con_secondaries := []; con_visible := false; con_secrets := [];
     autoconnect_retries := 0; autoconnect_retry_time := 0;
     autoconnect_blocked_reason := NM_DEVICE_STATE_REASON_NONE |}.

Definition device (w : World) (d : NMDevice) : DeviceObj :=
  default null_device (device_objs w !! d).
Definition active (w : World) (a : NMActiveConnection) : ActiveObj :=
  default null_active (active_objs w !! a).
Definition connection (w : World) (c : NMSettingsConnection) : ConnectionObj :=
  default null_connection (connection_objs w !! c).

(** [nm_connection_get_setting_connection]: the cell of a configuration
    holds the fields of its [connection] setting (id, UUID, master,
    secondaries); a handle that is not in the store has no such setting
    and the getter returns NULL. *)
Definition nm_connection_get_setting_connection (w : World) (c : NMSettingsConnection)
  : option ConnectionObj :=
  connection_objs w !! c.

Definition default_device (fam : Family) (p : NMPolicyPrivate) : option NMDevice :=
  match fam with AF_INET => default_device4 p | AF_INET6 => default_device6 p end.
Definition activating_device (fam : Family) (p : NMPolicyPrivate) : option NMDevice :=
  match fam with AF_INET => activating_device4 p | AF_INET6 => activating_device6 p end.

(** ** Handlers: state passing with [g_assert] *)

Inductive Outcome (A : Type) : Type :=
| Returned (a : A) (w : World)
| Aborted (assertion : string).
Arguments Returned {A} a w.
Arguments Aborted {A} assertion.

Definition Handler (A : Type) : Type := World → Outcome A.

Definition ret {A} (a : A) : Handler A := λ w, Returned a w.
Definition bind {A B} (m : Handler A) (k : A → Handler B) : Handler B :=
  λ w, match m w with
       | Returned a w' => k a w'
       | Aborted s => Aborted s
       end.
Definition gets {A} (f : World → A) : Handler A := λ w, Returned (f w) w.
Definition modify (f : World → World) : Handler unit := λ w, Returned tt (f w).
Definition g_assert (b : bool) (what : string) : Handler unit :=
  λ w, if b then Returned tt w else Aborted what.
Definition emit (e : Effect) : Handler unit :=
  modify (with_effects (λ l, l ++ [e])).
Definition when (b : bool) (m : Handler unit) : Handler unit :=
  if b then m else ret tt.

Declare Scope handler_scope.
Delimit Scope handler_scope with handler.
Notation "'let!' x ':=' m 'in' k" := (bind m (λ x, k))
  (at level 10, x name, m at level 100, k at level 200) : handler_scope.
Notation "m >> k" := (bind m (λ _, k))
  (at level 100, k at level 200, right associativity) : handler_scope.
Bind Scope handler_scope with Handler.
Local Open Scope handler_scope.

(** [for (iter = list; iter; iter = g_slist_next (iter)) body (iter->data);] *)
Fixpoint for_each {A} (l : list A) (body : A → Handler unit) : Handler unit :=
  match l with
  | [] => ret tt
  | x :: l' => body x >> for_each l' body
  end.

(** The world a handler leaves behind, when it returns. *)
Definition final_world {A} (o : Outcome A) : option World :=
  match o with
  | Returned _ w => Some w
  | Aborted _ => None
  end.

(** ** 32-bit arithmetic of the timestamps and counters *)

Definition wrap_gint32 (z : Z) : Z := (z + 2 ^ 31) mod 2 ^ 32 - 2 ^ 31.
Definition wrap_guint32 (z : Z) : Z := z mod 2 ^ 32.

(** ** GLib helpers *)

(** [g_strcmp0 (a, b) == 0]; NULL compares equal to NULL only. *)
Definition g_strcmp0_eq (a b : option string) : bool := bool_decide (a = b).

(** [g_slist_remove]: drops the first node that holds [x]. *)
Fixpoint g_slist_remove {A} `{EqDecision A} (l : list A) (x : A) : list A :=
  match l with
  | [] => []
  | y :: l' => if decide (y = x) then l' else y :: g_slist_remove l' x
  end.

(** [g_ascii_isspace]: space, horizontal tab, line feed, form feed and
    carriage return (GLib's table leaves the vertical tab out). *)
Definition g_ascii_isspace (c : Ascii.ascii) : bool :=
  let n := Ascii.nat_of_ascii c in
  ((n =? 32) || (n =? 9) || (n =? 10) || (n =? 12) || (n =? 13))%nat.

(** ** Collaborators

    What the policy asks of the default-route manager, of the manager, of
    the devices and of the settings layer, for the questions whose answers
    are computed outside [nm-policy.c].  Each answer may depend on the
    world at the time of the call. *)

(** The out-parameters of [nm_default_route_manager_ip4_get_best_config];
    the function's return value is [bc_config]. *)
Record BestConfig := {
  bc_config : NMIPConfig;
  bc_ip_iface : option string;
  bc_ac : option NMActiveConnection;
  bc_device : option NMDevice;
  bc_vpn : option NMActiveConnection;
}.

Record Collaborators := {
  (* nm_default_route_manager_ip{4,6}_get_best_device
       (devices, fully_activated, preferred_device) *)
  drm_get_best_device : Family → World → bool → option NMDevice → option NMDevice;
  (* nm_default_route_manager_ip{4,6}_get_best_config (ignore_never_default, ...) *)
  drm_get_best_config : Family → World → bool → option BestConfig;
  nm_utils_is_specific_hostname : string → bool;
  nm_device_check_connection_compatible : World → NMDevice → NMSettingsConnection → bool;
  (* the active connection nm_manager_activate_connection returns, NULL on error *)
  nm_manager_activate_connection_result :
    World → NMSettingsConnection → option NMDevice → option NMActiveConnection;
  (* whether nm_manager_deactivate_connection succeeds *)
  nm_manager_deactivate_connection_result : World → string → bool;
  (* the counter nm_settings_connection_reset_autoconnect_retries installs *)
  AUTOCONNECT_RETRIES_DEFAULT : Z;
  (* the retry deadline the settings object keeps next to the counter,
     from the clock and the counter just stored *)
  autoconnect_retry_deadline : Z → Z → Z;
}.

Section Policy.

Context (E : Collaborators).

(** *** Operations of the collaborators on their own objects *)

(** Modelled from the spec: the family-default flag setters of an active
    session ([nm_active_connection_set_default] and
    [nm_active_connection_set_default6] are not in [nm-policy.c]); each
    stores the flag. *)
Definition set_default_flag (fam : Family) (v : bool) (o : ActiveObj) : ActiveObj :=
  {| ac_state := ac_state o; ac_device := ac_device o;
     ac_settings_connection := ac_settings_connection o;
     ac_applied_connection := ac_applied_connection o;
     ac_path := ac_path o; ac_subject_internal := ac_subject_internal o;
     ac_is_vpn := ac_is_vpn o;
     ac_vpn_ip4_config := ac_vpn_ip4_config o;
     ac_vpn_ip6_config := ac_vpn_ip6_config o;
     ac_default := match fam with AF_INET => v | AF_INET6 => ac_default o end;
     ac_default6 := match fam with AF_INET => ac_default6 o | AF_INET6 => v end |}.

Definition nm_active_connection_set_default_for (fam : Family)
    (a : NMActiveConnection) (v : bool) : Handler unit :=
  modify (with_active_objs (alter (set_default_flag fam v) a)).

Definition nm_active_connection_set_default := nm_active_connection_set_default_for AF_INET.
Definition nm_active_connection_set_default6 := nm_active_connection_set_default_for AF_INET6.

Definition nm_active_connection_get_default_for (fam : Family) (w : World)
    (a : NMActiveConnection) : bool :=
  match fam with
  | AF_INET => ac_default (active w a)
  | AF_INET6 => ac_default6 (active w a)
  end.

(** Modelled from the spec: the device attribution of an active session
    ([nm_active_connection_set_device] is not in [nm-policy.c]). *)
Definition set_ac_device (d : option NMDevice) (o : ActiveObj) : ActiveObj :=
  {| ac_state := ac_state o; ac_device := d;
     ac_settings_connection := ac_settings_connection o;
     ac_applied_connection := ac_applied_connection o;
     ac_path := ac_path o; ac_subject_internal := ac_subject_internal o;
     ac_is_vpn := ac_is_vpn o;
     ac_vpn_ip4_config := ac_vpn_ip4_config o;
     ac_vpn_ip6_config := ac_vpn_ip6_config o;
     ac_default := ac_default o; ac_default6 := ac_default6 o |}.

Definition nm_active_connection_set_device (a : NMActiveConnection) (d : NMDevice)
  : Handler unit :=
  modify (with_active_objs (alter (set_ac_device (Some d)) a)).

Definition nm_vpn_connection_get_ip_config (fam : Family) (o : ActiveObj) : option NMIPConfig :=
  match fam with AF_INET => ac_vpn_ip4_config o | AF_INET6 => ac_vpn_ip6_config o end.

Definition nm_device_get_ip_config (fam : Family) (o : DeviceObj) : option NMIPConfig :=
  match fam with AF_INET => dev_ip4_config o | AF_INET6 => dev_ip6_config o end.

Definition nm_device_get_dhcp_config (fam : Family) (o : DeviceObj) : option NMDhcpConfig :=
  match fam with AF_INET => dev_dhcp4_config o | AF_INET6 => dev_dhcp6_config o end.

Definition set_dev_state (s : NMDeviceState) (o : DeviceObj) : DeviceObj :=
  {| dev_state := s; dev_iface := dev_iface o; dev_ip_iface := dev_ip_iface o;
     dev_settings_connection := dev_settings_connection o;
     dev_act_request := dev_act_request o;
     dev_ip4_config := dev_ip4_config o; dev_ip6_config := dev_ip6_config o;
     dev_dhcp4_config := dev_dhcp4_config o; dev_dhcp6_config := dev_dhcp6_config o;
     dev_enabled := dev_enabled o; dev_autoconnect := dev_autoconnect o;
     dev_autoconnect_allowed := dev_autoconnect_allowed o;
     dev_is_software := dev_is_software o;
     dev_pending_actions := dev_pending_actions o |}.

Definition add_pending_action (a : string) (o : DeviceObj) : DeviceObj :=
  {| dev_state := dev_state o; dev_iface := dev_iface o; dev_ip_iface := dev_ip_iface o;
     dev_settings_connection := dev_settings_connection o;
     dev_act_request := dev_act_request o;
     dev_ip4_config := dev_ip4_config o; dev_ip6_config := dev_ip6_config o;
     dev_dhcp4_config := dev_dhcp4_config o; dev_dhcp6_config := dev_dhcp6_config o;
     dev_enabled := dev_enabled o; dev_autoconnect := dev_autoconnect o;
     dev_autoconnect_allowed := dev_autoconnect_allowed o;
     dev_is_software := dev_is_software o;
     dev_pending_actions := dev_pending_actions o ++ [a] |}.

(** Modelled from the spec: the device's immediate state transition
    ([nm_device_state_changed] is not in [nm-policy.c]).  The device takes
    the new state at once; the signal handlers the transition runs are not
    part of the model, the call is recorded. *)
Definition nm_device_state_changed (d : NMDevice) (s : NMDeviceState)
    (r : NMDeviceStateReason) : Handler unit :=
  modify (with_device_objs (alter (set_dev_state s) d)) >>
  emit (DeviceStateChanged d s r).

(** Modelled from the spec: the device's [queue_state] operation
    ([nm_device_queue_state] is not in [nm-policy.c]): the transition
    happens later, the request is recorded. *)
Definition nm_device_queue_state (d : NMDevice) (s : NMDeviceState)
    (r : NMDeviceStateReason) : Handler unit :=
  emit (DeviceQueueState d s r).

Definition nm_device_add_pending_action (d : NMDevice) (a : string) : Handler unit :=
  modify (with_device_objs (alter (add_pending_action a) d)).

(** Modelled from the spec: the retry ledger cells of a configuration
    ([nm-settings-connection.c] is not under [src/]).  The settable cells
    are the counter, the blocked reason and the cached secrets; the
    deadline is the settings object's own and follows the counter. *)
Definition set_retries (r deadline : Z) (o : ConnectionObj) : ConnectionObj :=
  {| con_id := con_id o; con_uuid := con_uuid o; con_is_vpn := con_is_vpn o;
     con_master := con_master o; con_secondaries := con_secondaries o;
     con_visible := con_visible o; con_secrets := con_secrets o;
     autoconnect_retries := r;
     autoconnect_retry_time := deadline;
     autoconnect_blocked_reason := autoconnect_blocked_reason o |}.

Definition set_blocked_reason (r : NMDeviceStateReason) (o : ConnectionObj) : ConnectionObj :=
  {| con_id := con_id o; con_uuid := con_uuid o; con_is_vpn := con_is_vpn o;
     con_master := con_master o; con_secondaries := con_secondaries o;
     con_visible := con_visible o; con_secrets := con_secrets o;
     autoconnect_retries := autoconnect_retries o;
     autoconnect_retry_time := autoconnect_retry_time o;
     autoconnect_blocked_reason := r |}.

Definition clear_secrets (o : ConnectionObj) : ConnectionObj :=
  {| con_id := con_id o; con_uuid := con_uuid o; con_is_vpn := con_is_vpn o;
     con_master := con_master o; con_secondaries := con_secondaries o;
     con_visible := con_visible o; con_secrets := [];
     autoconnect_retries := autoconnect_retries o;
     autoconnect_retry_time := autoconnect_retry_time o;
     autoconnect_blocked_reason := autoconnect_blocked_reason o |}.

Definition nm_settings_connection_get_autoconnect_retries (c : NMSettingsConnection)
  : Handler Z := gets (λ w, autoconnect_retries (connection w c)).

Definition nm_settings_connection_get_autoconnect_retry_time (c : NMSettingsConnection)
  : Handler Z := gets (λ w, autoconnect_retry_time (connection w c)).

Definition nm_settings_connection_get_autoconnect_blocked_reason (c : NMSettingsConnection)
  : Handler NMDeviceStateReason := gets (λ w, autoconnect_blocked_reason (connection w c)).

Definition nm_settings_connection_set_autoconnect_retries (c : NMSettingsConnection)
    (retries : Z) : Handler unit :=
  modify (λ w, with_connection_objs
    (alter (set_retries retries
              (autoconnect_retry_deadline E (monotonic_timestamp_s w) retries)) c) w).

Definition nm_settings_connection_reset_autoconnect_retries (c : NMSettingsConnection)
  : Handler unit :=
  nm_settings_connection_set_autoconnect_retries c (AUTOCONNECT_RETRIES_DEFAULT E).

Definition nm_settings_connection_set_autoconnect_blocked_reason
    (c : NMSettingsConnection) (r : NMDeviceStateReason) : Handler unit :=
  modify (with_connection_objs (alter (set_blocked_reason r) c)).

Definition nm_connection_clear_secrets (c : NMSettingsConnection) : Handler unit :=
  modify (with_connection_objs (alter clear_secrets c)).

(** Modelled from the spec: the settings store's lookup by UUID. *)
Definition nm_settings_get_connection_by_uuid (w : World) (uuid : string)
  : option NMSettingsConnection :=
  find (λ c, String.eqb (con_uuid (connection w c)) uuid) (settings_connections_sorted w).

Definition nm_active_connection_get_settings_connection_id (w : World)
    (a : NMActiveConnection) : option string :=
  (λ c, con_id (connection w c)) <$> ac_settings_connection (active w a).

Definition nm_settings_connection_get_id (w : World) (c : NMSettingsConnection) : string :=
  con_id (connection w c).

Definition _notify (p : PolicyProperty) : Handler unit := emit (Notify p).

Definition nm_utils_get_monotonic_timestamp_s : Handler Z := gets monotonic_timestamp_s.

(** *** Best devices *)

Definition get_best_ip_device (fam : Family) (fully_activated : bool)
  : Handler (option NMDevice) :=
  gets (λ w, drm_get_best_device E fam w fully_activated (default_device fam (priv w))).

Definition get_best_ip4_device := get_best_ip_device AF_INET.
Definition get_best_ip6_device := get_best_ip_device AF_INET6.

(** *** The hostname controller *)

Definition FALLBACK_HOSTNAME4 : string := "localhost.localdomain".

(** The second half of [_set_hostname], from the comment "Finally, set
    kernel hostname" on.  [kernel_hostname] is what [gethostname] stores in
    [old_hostname]; [None] when the call fails. *)
Definition set_kernel_hostname (new_hostname : option string) (msg : string) : Handler unit :=
  let! name :=
    match new_hostname with
    | None => ret FALLBACK_HOSTNAME4
    | Some EmptyString => emit (GWarning "g_warn_if_reached") >> ret FALLBACK_HOSTNAME4
    | Some h => ret h
    end in
  let set_transient :=
    emit (NMLog LOGL_INFO LOGD_DNS "setting system hostname to '%s' (%s)"
            [LogStr (Some name); LogStr (Some msg)]) >>
    emit (SettingsSetTransientHostname name) in
  let! old := gets kernel_hostname in
  match old with
  | None =>
      emit (NMLog LOGL_WARN LOGD_DNS "couldn't get the system hostname: (%d) %s" []) >>
      set_transient
  | Some old_hostname =>
      if String.eqb name old_hostname then ret tt else set_transient
  end.

Definition _set_hostname (new_hostname : option string) (msg : string) : Handler unit :=
  when (bool_decide (is_Some new_hostname))
       (modify (with_priv (set_lookup_addr None))) >>
  let! p := gets priv in
  (if bool_decide (is_Some (orig_hostname p))
      && negb (hostname_changed p)
      && g_strcmp0_eq (orig_hostname p) new_hostname
   then ret tt
   else if g_strcmp0_eq (cur_hostname p) new_hostname
   then ret tt
   else
     modify (with_priv (set_cur_hostname new_hostname)) >>
     emit (DnsSetHostname new_hostname)) >>
  set_kernel_hostname new_hostname msg.

(** What [g_resolver_lookup_by_address_finish] hands to [lookup_callback]. *)
Inductive LookupResult :=
| LookupCancelled
| LookupHostname (hostname : string)
| LookupError (message : string).

Definition lookup_callback (result : LookupResult) : Handler unit :=
  match result with
  | LookupCancelled => ret tt
  | LookupHostname hostname =>
      _set_hostname (Some hostname) "from address lookup" >>
      modify (with_priv (set_lookup_cancellable false))
  | LookupError message =>
      _set_hostname None message >>
      modify (with_priv (set_lookup_cancellable false))
  end.

(** The scan [while ( *p) if (!g_ascii_isspace ( *p++)) ... p-1 ...]: the
    suffix that starts at the first character that is not a space, if
    there is one. *)
Fixpoint skip_leading_spaces (p : string) : option string :=
  match p with
  | EmptyString => None
  | String c rest =>
      if g_ascii_isspace c then skip_leading_spaces rest else Some (String c rest)
  end.

(** The body of [if (dhcp4_config)] / [if (dhcp6_config)]: the hostname to
    apply, if the option holds one; the warning is logged when the scan
    runs off the end of a non-empty value. *)
Definition dhcp_hostname_of (fam : Family) (d : NMDevice) : Handler (option string) :=
  let! cfg := gets (λ w, nm_device_get_dhcp_config fam (device w d)) in
  match cfg with
  | None => ret None
  | Some dhcp_config =>
      match dhcp_host_name dhcp_config with
      | None => ret None
      | Some dhcp_hostname =>
          if (0 <? String.length dhcp_hostname)%nat then
            match skip_leading_spaces dhcp_hostname with
            | Some p => ret (Some p)
            | None =>
                emit (NMLog LOGL_WARN LOGD_DNS
                        match fam with
                        | AF_INET => "DHCPv4-provided hostname '%s' looks invalid; ignoring it"
                        | AF_INET6 => "DHCPv6-provided hostname '%s' looks invalid; ignoring it"
                        end
                        [LogStr (Some dhcp_hostname)]) >>
                ret None
            end
          else ret None
      end
  end.

(** Steps 3 and 4 of the precedence order, the part of
    [update_system_hostname] after the DHCP blocks. *)
Definition hostname_from_startup_or_lookup (best4 best6 : option NMDevice) : Handler unit :=
  let! orig := gets (λ w, orig_hostname (priv w)) in
  match orig with
  | Some h => _set_hostname (Some h) "from system startup"
  | None =>
      let! ip4_config := gets (λ w, best4 ≫= λ d, dev_ip4_config (device w d)) in
      let! ip6_config := gets (λ w, best6 ≫= λ d, dev_ip6_config (device w d)) in
      let start_lookup (addr : Family * Z) :=
        modify (with_priv (set_lookup_addr (Some addr))) >>
        modify (with_priv (set_lookup_cancellable true)) >>
        emit (ResolverLookupByAddress addr) in
      match ip4_config ≫= λ c, head (ipcfg_addresses c) with
      | Some addr4 => start_lookup (AF_INET, addr4)
      | None =>
          match ip6_config ≫= λ c, head (ipcfg_addresses c) with
          | Some addr6 => start_lookup (AF_INET6, addr6)
          | None => _set_hostname None "no IP config"
          end
      end
  end.

(** Step 2 of the precedence order, for the best devices as resolved:
    the DHCPv4 option of [best4], or else (without a [best4]) the DHCPv6
    option of [best6]; steps 3 and 4 when that yields nothing. *)
Definition hostname_from_devices (best4 best6 : option NMDevice) : Handler unit :=
  match best4, best6 with
  | None, None =>
      let! orig := gets (λ w, orig_hostname (priv w)) in
      _set_hostname orig "no default device"
  | Some d4, _ =>
      let! found := dhcp_hostname_of AF_INET d4 in
      match found with
      | Some p => _set_hostname (Some p) "from DHCPv4"
      | None => hostname_from_startup_or_lookup best4 best6
      end
  | None, Some d6 =>
      let! found := dhcp_hostname_of AF_INET6 d6 in
      match found with
      | Some p => _set_hostname (Some p) "from DHCPv6"
      | None => hostname_from_startup_or_lookup best4 best6
      end
  end.

(** [if (priv->lookup_cancellable) { g_cancellable_cancel (...); g_clear_object (...); }] *)
Definition cancel_lookup : Handler unit :=
  let! cancellable := gets (λ w, lookup_cancellable (priv w)) in
  when cancellable
       (emit CancellableCancel >> modify (with_priv (set_lookup_cancellable false))).

Definition update_system_hostname (best4 best6 : option NMDevice) : Handler unit :=
  cancel_lookup >>
  let automatic : Handler unit :=
    let! best4 := match best4 with
                  | Some d => ret (Some d)
                  | None => get_best_ip4_device true
                  end in
    let! best6 := match best6 with
                  | Some d => ret (Some d)
                  | None => get_best_ip6_device true
                  end in
    hostname_from_devices best4 best6 in
  let! configured_hostname := gets manager_hostname in
  match configured_hostname with
  | Some h =>
      if nm_utils_is_specific_hostname E h
      then _set_hostname (Some h) "from system configuration"
      else automatic
  | None => automatic
  end.

(** *** Default routes and DNS *)

(** The loop clears the flag of every active connection that is not
    [best]; [set_active_func] is the family's flag setter. *)
Definition update_default_ac (best : option NMActiveConnection)
    (set_active_func : NMActiveConnection → bool → Handler unit) : Handler unit :=
  let! connections := gets manager_active_connections in
  for_each connections (λ a,
    when (bool_decide (Some a ≠ best)) (set_active_func a false)) >>
  match best with
  | Some b => set_active_func b true
  | None => ret tt
  end.

(** The run of [update_default_ac] stopped after the first [k] iterations
    of its loop: the intermediate points of the clearing phase. *)
Definition update_default_ac_after (k : nat) (best : option NMActiveConnection)
    (set_active_func : NMActiveConnection → bool → Handler unit) : Handler unit :=
  let! connections := gets manager_active_connections in
  for_each (take k connections) (λ a,
    when (bool_decide (Some a ≠ best)) (set_active_func a false)).

Definition get_best_ip_config (fam : Family) (ignore_never_default : bool)
  : Handler (option BestConfig) :=
  gets (λ w, drm_get_best_config E fam w ignore_never_default).

Definition get_best_ip4_config := get_best_ip_config AF_INET.
Definition get_best_ip6_config := get_best_ip_config AF_INET6.

Definition update_ip_dns (fam : Family) : Handler unit :=
  let! best := get_best_ip_config fam true in
  match best with
  | Some bc =>
      let dns_type := if bool_decide (is_Some (bc_vpn bc))
                      then NM_DNS_IP_CONFIG_TYPE_VPN
                      else NM_DNS_IP_CONFIG_TYPE_BEST_DEVICE in
      emit (DnsAddIPConfig fam (bc_ip_iface bc) (bc_config bc) dns_type)
  | None => ret tt
  end.

Definition update_ip4_dns := update_ip_dns AF_INET.
Definition update_ip6_dns := update_ip_dns AF_INET6.

Definition PROP_DEFAULT_IP_DEVICE (fam : Family) : PolicyProperty :=
  match fam with
  | AF_INET => PROP_DEFAULT_IP4_DEVICE
  | AF_INET6 => PROP_DEFAULT_IP6_DEVICE
  end.

Definition PROP_ACTIVATING_IP_DEVICE (fam : Family) : PolicyProperty :=
  match fam with
  | AF_INET => PROP_ACTIVATING_IP4_DEVICE
  | AF_INET6 => PROP_ACTIVATING_IP6_DEVICE
  end.

(** The loop under [if (best)] of the routing update: every VPN session of
    the family that has no device yet is attributed to [best]. *)
Definition attribute_vpn_connections (fam : Family) (best : NMDevice) : Handler unit :=
  let! connections := gets manager_active_connections in
  for_each connections (λ a,
    let! o := gets (λ w, active w a) in
    when (ac_is_vpn o
          && bool_decide (is_Some (nm_vpn_connection_get_ip_config fam o))
          && negb (bool_decide (is_Some (ac_device o))))
         (nm_active_connection_set_device a best)).

(** [update_ip4_routing] and [update_ip6_routing]. *)
Definition update_ip_routing (fam : Family) (force_update : bool) : Handler unit :=
  let! best_config := get_best_ip_config fam false in
  match best_config with
  | None =>
      let! changed := gets (λ w, bool_decide (is_Some (default_device fam (priv w)))) in
      modify (with_priv (set_default_device fam None)) >>
      when changed (_notify (PROP_DEFAULT_IP_DEVICE fam))
  | Some bc =>
      let best := bc_device bc in
      let vpn := bc_vpn bc in
      let best_ac := bc_ac bc in
      g_assert (bool_decide ((is_Some best ∨ is_Some vpn) ∧ is_Some best_ac))
               "(best || vpn) && best_ac" >>
      let! current := gets (λ w, default_device fam (priv w)) in
      if negb force_update && bool_decide (is_Some best) && bool_decide (best = current)
      then ret tt
      else
        match best with
        | Some b => attribute_vpn_connections fam b
        | None => ret tt
        end >>
        let! default_dev :=
          match vpn with
          | Some v => gets (λ w, ac_device (active w v))
          | None => ret best
          end in
        update_default_ac best_ac (nm_active_connection_set_default_for fam) >>
        let! current := gets (λ w, default_device fam (priv w)) in
        if bool_decide (default_dev = current)
        then ret tt
        else
          modify (with_priv (set_default_device fam default_dev)) >>
          let! id := gets (λ w, nmc_id <$> (best_ac ≫= λ a, ac_applied_connection (active w a))) in
          emit (NMLog LOGL_INFO LOGD_CORE
                  match fam with
                  | AF_INET => "set '%s' (%s) as default for IPv4 routing and DNS"
                  | AF_INET6 => "set '%s' (%s) as default for IPv6 routing and DNS"
                  end
                  [LogStr id; LogStr (bc_ip_iface bc)]) >>
          _notify (PROP_DEFAULT_IP_DEVICE fam)
  end.

Definition update_ip4_routing := update_ip_routing AF_INET.
Definition update_ip6_routing := update_ip_routing AF_INET6.

Definition update_routing_and_dns (force_update : bool) : Handler unit :=
  emit (DnsBeginUpdates "update_routing_and_dns") >>
  update_ip4_dns >>
  update_ip6_dns >>
  update_ip4_routing force_update >>
  update_ip6_routing force_update >>
  let! p := gets priv in
  update_system_hostname (default_device4 p) (default_device6 p) >>
  emit (DnsEndUpdates "update_routing_and_dns").

(** The notifications are frozen and thawed around the two updates; they
    reach the listeners in the order recorded here. *)
Definition check_activating_devices : Handler unit :=
  let! best4 := get_best_ip4_device false in
  let! best6 := get_best_ip6_device false in
  let! p := gets priv in
  when (bool_decide (best4 ≠ activating_device4 p))
       (modify (with_priv (set_activating_device AF_INET best4)) >>
        _notify PROP_ACTIVATING_IP4_DEVICE) >>
  let! p := gets priv in
  when (bool_decide (best6 ≠ activating_device6 p))
       (modify (with_priv (set_activating_device AF_INET6 best6)) >>
        _notify PROP_ACTIVATING_IP6_DEVICE).

(** *** Pending activation checks *)

Fixpoint find_pending_activation (l : list ActivateData) (d : NMDevice) : option ActivateData :=
  match l with
  | [] => None
  | data :: rest =>
      if bool_decide (ad_device data = d) then Some data
      else find_pending_activation rest d
  end.

Definition schedule_activate_check (d : NMDevice) : Handler unit :=
  let! w := gets (λ w, w) in
  if manager_asleep w then ret tt
  else if negb (dev_enabled (device w d)) then ret tt
  else if negb (dev_autoconnect_allowed (device w d)) then ret tt
  else if bool_decide (is_Some (find_pending_activation (pending_activation_checks (priv w)) d))
  then ret tt
  else if existsb (λ a, bool_decide (ac_device (active w a) = Some d))
                  (manager_active_connections w)
  then ret tt
  else
    nm_device_add_pending_action d "autoactivate" >>
    emit (GIdleAdd "auto_activate_device_cb") >>
    modify (with_priv (λ p,
      set_pending_activation_checks
        (pending_activation_checks p ++ [{| ad_device := d; ad_autoactivate_id := true |}]) p)).

Definition schedule_activate_all_cb : Handler unit :=
  modify (with_priv (set_schedule_activate_all_id false)) >>
  let! devs := gets manager_devices in
  for_each devs schedule_activate_check.

(** [nm_clear_g_source] removes the pending idle source, if there is one,
    before the new one is added. *)
Definition schedule_activate_all : Handler unit :=
  let! pending := gets (λ w, schedule_activate_all_id (priv w)) in
  when pending
       (emit (GSourceRemove "schedule_activate_all_cb") >>
        modify (with_priv (set_schedule_activate_all_id false))) >>
  emit (GIdleAdd "schedule_activate_all_cb") >>
  modify (with_priv (set_schedule_activate_all_id true)).

(** *** Secondary connections *)

(** The inner loop of [process_secondaries] over one wait record, which
    sits in [priv->pending_secondaries] between the records [kept] (already
    visited) and [next] (still to visit).  [visit] is the chain of nodes
    the loop has not reached yet and [current] is the record's list as it
    stands.  The result is the record as the loop leaves it, [None] when it
    was removed and freed. *)
Fixpoint process_secondaries_record (act : NMActiveConnection) (connected : bool)
    (kept next : list PendingSecondaryData) (item_device : NMDevice)
    (visit current : list NMActiveConnection)
  : Handler (option PendingSecondaryData) :=
  match visit with
  | [] => ret (Some {| psd_device := item_device; psd_secondaries := current |})
  | secondary_active :: next2 =>
      if bool_decide (act ≠ secondary_active)
      then process_secondaries_record act connected kept next item_device next2 current
      else
        if connected then
          (let! w := gets (λ w, w) in
           emit (NMLog LOGL_DEBUG LOGD_DEVICE
                   "secondary connection '%s' succeeded; active path '%s'"
                   [LogStr (nm_active_connection_get_settings_connection_id w act);
                    LogStr (Some (ac_path (active w act)))])) >>
          let current' := g_slist_remove current secondary_active in
          modify (with_priv (set_pending_secondaries
            (kept ++ {| psd_device := item_device; psd_secondaries := current' |} :: next))) >>
          match current' with
          | [] =>
              modify (with_priv (set_pending_secondaries (kept ++ next))) >>
              let! st := gets (λ w, dev_state (device w item_device)) in
              when (bool_decide (st = NM_DEVICE_STATE_SECONDARIES))
                   (nm_device_state_changed item_device NM_DEVICE_STATE_ACTIVATED
                                            NM_DEVICE_STATE_REASON_NONE) >>
              ret None
          | _ :: _ =>
              process_secondaries_record act connected kept next item_device next2 current'
          end
        else
          (let! w := gets (λ w, w) in
           emit (NMLog LOGL_DEBUG LOGD_DEVICE
                   "secondary connection '%s' failed; active path '%s'"
                   [LogStr (nm_active_connection_get_settings_connection_id w act);
                    LogStr (Some (ac_path (active w act)))])) >>
          modify (with_priv (set_pending_secondaries (kept ++ next))) >>
          let! st := gets (λ w, dev_state (device w item_device)) in
          when (bool_decide (st = NM_DEVICE_STATE_SECONDARIES)
                || bool_decide (st = NM_DEVICE_STATE_ACTIVATED))
               (nm_device_state_changed item_device NM_DEVICE_STATE_FAILED
                                        NM_DEVICE_STATE_REASON_SECONDARY_CONNECTION_FAILED) >>
          ret None
  end.

(** The outer loop; [priv->pending_secondaries] is [kept ++ rest]. *)
Fixpoint process_secondaries_from (act : NMActiveConnection) (connected : bool)
    (kept rest : list PendingSecondaryData) : Handler unit :=
  match rest with
  | [] => ret tt
  | secondary_data :: next =>
      let! r := process_secondaries_record act connected kept next
                  (psd_device secondary_data)
                  (psd_secondaries secondary_data) (psd_secondaries secondary_data) in
      match r with
      | Some data' => process_secondaries_from act connected (kept ++ [data']) next
      | None => process_secondaries_from act connected kept next
      end
  end.

Definition process_secondaries (act : NMActiveConnection) (connected : bool) : Handler unit :=
  let! pending := gets (λ w, pending_secondaries (priv w)) in
  process_secondaries_from act connected [] pending.

Definition active_connection_state_changed (act : NMActiveConnection) : Handler unit :=
  let! state := gets (λ w, ac_state (active w act)) in
  if bool_decide (state = NM_ACTIVE_CONNECTION_STATE_ACTIVATED)
  then process_secondaries act true
  else if bool_decide (state = NM_ACTIVE_CONNECTION_STATE_DEACTIVATED)
  then process_secondaries act false
  else ret tt.

(** *** The retry ledger *)

Definition reset_autoconnect_all (d : option NMDevice) : Handler unit :=
  (let! w := gets (λ w, w) in
   match d with
   | Some dev =>
       emit (NMLog LOGL_DEBUG LOGD_DEVICE "re-enabling autoconnect for all connections on %s"
               [LogStr (dev_iface (device w dev))])
   | None =>
       emit (NMLog LOGL_DEBUG LOGD_DEVICE "re-enabling autoconnect for all connections" [])
   end) >>
  let! connections := gets settings_connections_sorted in
  for_each connections (λ c,
    let! compatible :=
      gets (λ w, match d with
                 | None => true
                 | Some dev => nm_device_check_connection_compatible E w dev c
                 end) in
    when compatible
         (nm_settings_connection_reset_autoconnect_retries c >>
          nm_settings_connection_set_autoconnect_blocked_reason c NM_DEVICE_STATE_REASON_NONE)).

Definition reset_autoconnect_for_failed_secrets : Handler unit :=
  emit (NMLog LOGL_DEBUG LOGD_DEVICE
          "re-enabling autoconnect for all connections with failed secrets" []) >>
  let! connections := gets settings_connections_sorted in
  for_each connections (λ c,
    let! blocked := nm_settings_connection_get_autoconnect_blocked_reason c in
    when (bool_decide (blocked = NM_DEVICE_STATE_REASON_NO_SECRETS))
         (nm_settings_connection_reset_autoconnect_retries c >>
          nm_settings_connection_set_autoconnect_blocked_reason c NM_DEVICE_STATE_REASON_NONE)).

Definition block_autoconnect_for_device (d : NMDevice) : Handler unit :=
  (let! w := gets (λ w, w) in
   emit (NMLog LOGL_DEBUG LOGD_DEVICE "blocking autoconnect for all connections on %s"
           [LogStr (dev_iface (device w d))])) >>
  let! software := gets (λ w, dev_is_software (device w d)) in
  if negb software then ret tt
  else
    let! connections := gets settings_connections_sorted in
    for_each connections (λ c,
      let! compatible := gets (λ w, nm_device_check_connection_compatible E w d c) in
      when compatible
           (nm_settings_connection_set_autoconnect_blocked_reason
              c NM_DEVICE_STATE_REASON_USER_REQUESTED)).



Definition sleeping_changed (sleeping enabled : bool) : Handler unit :=
  when (sleeping || negb enabled) (reset_autoconnect_all None).

(** *** Slaves and secondaries of a device *)

(** [g_assert (slave)] holds of every node of the list: the list holds
    handles, and a handle is never NULL. *)
Definition activate_slave_connections (d : NMDevice) : Handler unit :=
  let! w := gets (λ w, w) in
  let master_device := dev_iface (device w d) in
  g_assert (bool_decide (is_Some master_device)) "master_device" >>
  let req := dev_act_request (device w d) in
  let master_uuid_applied :=
    req ≫= λ r, nmc_uuid <$> ac_applied_connection (active w r) in
  let master_uuid_settings :=
    match req ≫= λ r, ac_settings_connection (active w r) with
    | Some con =>
        let uuid := Some (con_uuid (connection w con)) in
        if g_strcmp0_eq uuid master_uuid_applied then None else uuid
    | None => None
    end in
  let internal_activation :=
    match req with
    | Some r => ac_subject_internal (active w r)
    | None => false
    end in
  let connections :=
    if negb internal_activation then settings_connections_sorted w else [] in
  for_each connections (λ slave,
    let! s_slave_con := gets (λ w, nm_connection_get_setting_connection w slave) in
    g_assert (bool_decide (is_Some s_slave_con)) "s_slave_con" >>
    let! slave_master := gets (λ w, con_master (connection w slave)) in
    match slave_master with
    | None => ret tt
    | Some m =>
        when (g_strcmp0_eq (Some m) master_device
              || g_strcmp0_eq (Some m) master_uuid_applied
              || g_strcmp0_eq (Some m) master_uuid_settings)
             (nm_settings_connection_reset_autoconnect_retries slave)
    end) >>
  schedule_activate_all.

(** Modelled from the spec: the manager's [activate_connection] operation;
    the call is recorded and its result is the collaborator's. *)
Definition nm_manager_activate_connection (c : NMSettingsConnection)
    (specific_object : option string) (d : option NMDevice) (internal_subject : bool)
    (t : NMActivationType) : Handler (option NMActiveConnection) :=
  let! r := gets (λ w, nm_manager_activate_connection_result E w c d) in
  emit (ManagerActivateConnection c specific_object d internal_subject t) >>
  ret r.

(** Modelled from the spec: the manager's [deactivate_connection]
    operation; the call is recorded and its success is the collaborator's. *)
Definition nm_manager_deactivate_connection (path : string) (r : NMDeviceStateReason)
  : Handler bool :=
  let! ok := gets (λ w, nm_manager_deactivate_connection_result E w path) in
  emit (ManagerDeactivateConnection path r) >>
  ret ok.

(** The loop of [activate_secondary_connections] over the secondary UUIDs
    still to activate; the result is [success] and [secondary_ac_list]. *)
Fixpoint activate_secondaries_loop (con : NMSettingsConnection) (d : NMDevice)
    (uuids : list string) (secondary_ac_list : list NMActiveConnection)
  : Handler (bool * list NMActiveConnection) :=
  match uuids with
  | [] => ret (true, secondary_ac_list)
  | sec_uuid :: rest =>
      let! w := gets (λ w, w) in
      match nm_settings_get_connection_by_uuid w sec_uuid with
      | None =>
          emit (NMLog LOGL_WARN LOGD_DEVICE
                  "secondary connection '%s' auto-activation failed: The connection doesn't exist."
                  [LogStr (Some sec_uuid)]) >>
          ret (false, secondary_ac_list)
      | Some settings_con =>
          if negb (con_is_vpn (connection w settings_con)) then
            emit (NMLog LOGL_WARN LOGD_DEVICE
                    "secondary connection '%s (%s)' auto-activation failed: The connection is not a VPN."
                    [LogStr (Some (nm_settings_connection_get_id w settings_con));
                     LogStr (Some sec_uuid)]) >>
            ret (false, secondary_ac_list)
          else
            let req := dev_act_request (device w d) in
            g_assert (bool_decide (is_Some req)) "req" >>
            emit (NMLog LOGL_DEBUG LOGD_DEVICE
                    "activating secondary connection '%s (%s)' for base connection '%s (%s)'"
                    [LogStr (Some (nm_settings_connection_get_id w settings_con));
                     LogStr (Some sec_uuid);
                     LogStr (Some (con_id (connection w con)));
                     LogStr (Some (con_uuid (connection w con)))]) >>
            let! ac := nm_manager_activate_connection settings_con
                         ((λ r, ac_path (active w r)) <$> req) (Some d)
                         (match req with
                          | Some r => ac_subject_internal (active w r)
                          | None => false
                          end)
                         NM_ACTIVATION_TYPE_FULL in
            match ac with
            | Some a => activate_secondaries_loop con d rest (secondary_ac_list ++ [a])
            | None =>
                emit (NMLog LOGL_WARN LOGD_DEVICE
                        "secondary connection '%s (%s)' auto-activation failed: (%d) %s"
                        [LogStr (Some (nm_settings_connection_get_id w settings_con));
                         LogStr (Some sec_uuid)]) >>
                ret (false, secondary_ac_list)
            end
      end
  end.

Definition activate_secondary_connections (con : NMSettingsConnection) (d : NMDevice)
  : Handler bool :=
  let! s_con := gets (λ w, nm_connection_get_setting_connection w con) in
  g_assert (bool_decide (is_Some s_con)) "s_con" >>
  let! uuids := gets (λ w, con_secondaries (connection w con)) in
  let! r := activate_secondaries_loop con d uuids [] in
  let success := r.1 in
  let secondary_ac_list := r.2 in
  when (success && negb (bool_decide (secondary_ac_list = [])))
       (modify (with_priv (λ p,
          set_pending_secondaries
            (pending_secondaries p
               ++ [{| psd_device := d; psd_secondaries := secondary_ac_list |}]) p))) >>
  ret success.

(** *** The device state-machine observer *)

(** [case NM_DEVICE_STATE_FAILED:] for a device with a settings connection.
    [tries] is a [guint32]; the [%d] of the log line prints it as a signed
    integer. *)
Definition device_state_changed_failed (con : NMSettingsConnection)
    (reason : NMDeviceStateReason) : Handler unit :=
  let! retries := nm_settings_connection_get_autoconnect_retries con in
  let tries := wrap_guint32 retries in
  (if bool_decide (reason = NM_DEVICE_STATE_REASON_NO_SECRETS) then
     (let! w := gets (λ w, w) in
      emit (NMLog LOGL_DEBUG LOGD_DEVICE
              "connection '%s' now blocked from autoconnect due to no secrets"
              [LogStr (Some (nm_settings_connection_get_id w con))])) >>
     nm_settings_connection_set_autoconnect_blocked_reason con NM_DEVICE_STATE_REASON_NO_SECRETS
   else if 0 <? tries then
     (let! w := gets (λ w, w) in
      emit (NMLog LOGL_DEBUG LOGD_DEVICE
              "connection '%s' failed to autoconnect; %d tries left"
              [LogStr (Some (nm_settings_connection_get_id w con));
               LogInt (wrap_gint32 tries)])) >>
     nm_settings_connection_set_autoconnect_retries con (wrap_gint32 (tries - 1))
   else ret tt) >>
  let! left := nm_settings_connection_get_autoconnect_retries con in
  when (left =? 0)
       ((let! w := gets (λ w, w) in
         emit (NMLog LOGL_INFO LOGD_DEVICE "disabling autoconnect for connection '%s'."
                 [LogStr (Some (nm_settings_connection_get_id w con))])) >>
        let! armed := gets (λ w, reset_retries_id (priv w)) in
        when (negb (bool_decide (is_Some armed)))
             (let! retry_time := nm_settings_connection_get_autoconnect_retry_time con in
              when (retry_time =? 0) (emit (GWarning "retry_time != 0")) >>
              let! now := nm_utils_get_monotonic_timestamp_s in
              let interval := wrap_guint32 (Z.max 0 (wrap_gint32 (retry_time - now))) in
              emit (GTimeoutAddSeconds interval "reset_connections_retries") >>
              modify (with_priv (set_reset_retries_id (Some interval))))) >>
  nm_connection_clear_secrets con.

(** [case NM_DEVICE_STATE_SECONDARIES:] *)
Definition device_state_changed_secondaries (d : NMDevice)
    (con : option NMSettingsConnection) : Handler unit :=
  let! num_secondaries :=
    gets (λ w, match con with
               | Some c => length (con_secondaries (connection w c))
               | None => 0%nat
               end) in
  match con with
  | Some c =>
      if (0 <? num_secondaries)%nat then
        update_routing_and_dns false >>
        let! ok := activate_secondary_connections c d in
        when (negb ok)
             (nm_device_queue_state d NM_DEVICE_STATE_FAILED
                                    NM_DEVICE_STATE_REASON_SECONDARY_CONNECTION_FAILED)
      else
        nm_device_queue_state d NM_DEVICE_STATE_ACTIVATED NM_DEVICE_STATE_REASON_NONE
  | None =>
      nm_device_queue_state d NM_DEVICE_STATE_ACTIVATED NM_DEVICE_STATE_REASON_NONE
  end.

Definition device_state_changed (d : NMDevice) (new_state old_state : NMDeviceState)
    (reason : NMDeviceStateReason) : Handler unit :=
  let! con := gets (λ w, dev_settings_connection (device w d)) in
  let! ip_iface := gets (λ w, dev_ip_iface (device w d)) in
  match new_state with
  | NM_DEVICE_STATE_FAILED =>
      match con with
      | Some c =>
          when ((device_state_value NM_DEVICE_STATE_PREPARE <=? device_state_value old_state)
                && (device_state_value old_state <=? device_state_value NM_DEVICE_STATE_ACTIVATED))
               (device_state_changed_failed c reason)
      | None => ret tt
      end
  | NM_DEVICE_STATE_ACTIVATED =>
      match con with
      | Some c =>
          nm_settings_connection_reset_autoconnect_retries c >>
          nm_connection_clear_secrets c
      | None => ret tt
      end >>
      emit (DnsBeginUpdates "device_state_changed") >>
      (let! ip4_config := gets (λ w, dev_ip4_config (device w d)) in
       match ip4_config with
       | Some cfg =>
           emit (DnsAddIPConfig AF_INET (Some ip_iface) cfg NM_DNS_IP_CONFIG_TYPE_DEFAULT)
       | None => ret tt
       end) >>
      (let! ip6_config := gets (λ w, dev_ip6_config (device w d)) in
       match ip6_config with
       | Some cfg =>
           emit (DnsAddIPConfig AF_INET6 (Some ip_iface) cfg NM_DNS_IP_CONFIG_TYPE_DEFAULT)
       | None => ret tt
       end) >>
      update_routing_and_dns false >>
      emit (DnsEndUpdates "device_state_changed")
  | NM_DEVICE_STATE_UNMANAGED
  | NM_DEVICE_STATE_UNAVAILABLE =>
      when (device_state_value NM_DEVICE_STATE_DISCONNECTED <? device_state_value old_state)
           (update_routing_and_dns false)
  | NM_DEVICE_STATE_DEACTIVATING =>
      when (bool_decide (reason = NM_DEVICE_STATE_REASON_USER_REQUESTED))
           (let! autoconnect := gets (λ w, dev_autoconnect (device w d)) in
            if negb autoconnect then block_autoconnect_for_device d
            else
              match con with
              | Some c =>
                  (let! w := gets (λ w, w) in
                   emit (NMLog LOGL_DEBUG LOGD_DEVICE
                           "blocking autoconnect of connection '%s' by user request"
                           [LogStr (Some (nm_settings_connection_get_id w c))])) >>
                  nm_settings_connection_set_autoconnect_blocked_reason
                    c NM_DEVICE_STATE_REASON_USER_REQUESTED
              | None => ret tt
              end)
  | NM_DEVICE_STATE_DISCONNECTED =>
      when (bool_decide (reason = NM_DEVICE_STATE_REASON_CARRIER)
            && bool_decide (old_state = NM_DEVICE_STATE_UNAVAILABLE))
           (reset_autoconnect_all (Some d)) >>
      when (device_state_value NM_DEVICE_STATE_DISCONNECTED <? device_state_value old_state)
           (update_routing_and_dns false) >>
      schedule_activate_check d
  | NM_DEVICE_STATE_PREPARE =>
      activate_slave_connections d
  | NM_DEVICE_STATE_IP_CONFIG =>
      match con with
      | Some c =>
          nm_settings_connection_set_autoconnect_blocked_reason c NM_DEVICE_STATE_REASON_NONE
      | None => ret tt
      end
  | NM_DEVICE_STATE_SECONDARIES =>
      device_state_changed_secondaries d con
  | _ => ret tt
  end >>
  check_activating_devices.

(** *** Settings events *)

Definition connection_added : Handler unit := schedule_activate_all.

Definition _deactivate_if_active (con : NMSettingsConnection) : Handler unit :=
  let! active_list := gets manager_active_connections in
  for_each active_list (λ ac,
    let! o := gets (λ w, active w ac) in
    let state := ac_state o in
    when (bool_decide (ac_settings_connection o = Some con)
          && (active_connection_state_value state
                <=? active_connection_state_value NM_ACTIVE_CONNECTION_STATE_ACTIVATED))
         (let! ok := nm_manager_deactivate_connection (ac_path o)
                       NM_DEVICE_STATE_REASON_CONNECTION_REMOVED in
          when (negb ok)
               (let! w := gets (λ w, w) in
                emit (NMLog LOGL_WARN LOGD_DEVICE
                        "connection '%s' disappeared, but error deactivating it: (%d) %s"
                        [LogStr (Some (nm_settings_connection_get_id w con))])))).

Definition connection_removed (con : NMSettingsConnection) : Handler unit :=
  _deactivate_if_active con.

Definition connection_visibility_changed (con : NMSettingsConnection) : Handler unit :=
  let! visible := gets (λ w, con_visible (connection w con)) in
  if visible then schedule_activate_all
  else _deactivate_if_active con.

Definition secret_agent_registered : Handler unit :=
  reset_autoconnect_for_failed_secrets >>
  schedule_activate_all.

End Policy.

(** ** The remaining observers of [nm-policy.c]

    The signal handlers and helpers that the routing, hostname and retry
    code above is reached from. *)

(** [NMVpnConnectionState], the state a VPN session reports to its
    observers; the source compares these states with [>=] and [<=]. *)
Inductive NMVpnConnectionState :=
| NM_VPN_CONNECTION_STATE_UNKNOWN
| NM_VPN_CONNECTION_STATE_PREPARE
| NM_VPN_CONNECTION_STATE_NEED_AUTH
| NM_VPN_CONNECTION_STATE_CONNECT
| NM_VPN_CONNECTION_STATE_IP_CONFIG_GET
| NM_VPN_CONNECTION_STATE_ACTIVATED
| NM_VPN_CONNECTION_STATE_FAILED
| NM_VPN_CONNECTION_STATE_DISCONNECTED.

Definition vpn_connection_state_value (s : NMVpnConnectionState) : Z :=
  match s with
  | NM_VPN_CONNECTION_STATE_UNKNOWN => 0
  | NM_VPN_CONNECTION_STATE_PREPARE => 1
  | NM_VPN_CONNECTION_STATE_NEED_AUTH => 2
  | NM_VPN_CONNECTION_STATE_CONNECT => 3
  | NM_VPN_CONNECTION_STATE_IP_CONFIG_GET => 4
  | NM_VPN_CONNECTION_STATE_ACTIVATED => 5
  | NM_VPN_CONNECTION_STATE_FAILED => 6
  | NM_VPN_CONNECTION_STATE_DISCONNECTED => 7
  end.

#[global] Instance NMVpnConnectionState_eq_dec : EqDecision NMVpnConnectionState.
Proof. solve_decision. Defined.
#[global] Instance ActivateData_eq_dec : EqDecision ActivateData.
Proof. solve_decision. Defined.

(** Two more questions the observers ask of objects they do not own. *)
Record DeviceQueries := {
  (* nm_device_is_activating (device) *)
  nm_device_is_activating : World → NMDevice → bool;
  (* nm_vpn_connection_get_ip_iface (vpn, TRUE) *)
  nm_vpn_connection_get_ip_iface : World → NMActiveConnection → option string;
}.

Section Observers.

Context (E : Collaborators) (Q : DeviceQueries).

(** *** Hostname and DNS events *)

(** The manager's hostname property changed ([hostname_changed] in the
    source, a name the private record already uses for its flag). *)
Definition manager_hostname_changed : Handler unit :=
  update_system_hostname E None None.

(** The DNS manager reports a new configuration: a reverse lookup in
    flight is stopped, and one is started again for the address that is
    still to be resolved. *)
Definition dns_config_changed : Handler unit :=
  cancel_lookup >>
  let! addr := gets (λ w, lookup_addr (priv w)) in
  match addr with
  | Some a =>
      emit (NMLog LOGL_DEBUG LOGD_DNS "restarting reverse-lookup thread for address %s"
              [LogInt a.2]) >>
      modify (with_priv (set_lookup_cancellable true)) >>
      emit (ResolverLookupByAddress a)
  | None => ret tt
  end.

(** *** IP configuration changes of a device *)

(** [old_config != new_config] compares two objects; a configuration
    object is identified by its [ipcfg_id]. *)
Definition same_ip_config (a b : option NMIPConfig) : bool :=
  bool_decide (ipcfg_id <$> a = ipcfg_id <$> b).

Definition dns_remove_ip_config (fam : Family) (config : option NMIPConfig) : Handler unit :=
  match config with
  | Some c => emit (DnsRemoveIPConfig fam c)
  | None => ret tt
  end.

Definition dns_add_ip_config (fam : Family) (ip_iface : option string)
    (config : option NMIPConfig) (t : NMDnsIPConfigType) : Handler unit :=
  match config with
  | Some c => emit (DnsAddIPConfig fam ip_iface c t)
  | None => ret tt
  end.

(** [device_ip4_config_changed] and [device_ip6_config_changed]. *)
Definition device_ip_config_changed (fam : Family) (d : NMDevice)
    (new_config old_config : option NMIPConfig) : Handler unit :=
  let func := match fam with
              | AF_INET => "device_ip4_config_changed"
              | AF_INET6 => "device_ip6_config_changed"
              end in
  let! ip_iface := gets (λ w, dev_ip_iface (device w d)) in
  emit (DnsBeginUpdates func) >>
  let! activating := gets (λ w, nm_device_is_activating Q w d) in
  (if negb activating then
     when (negb (same_ip_config old_config new_config))
          (dns_remove_ip_config fam old_config >>
           dns_add_ip_config fam (Some ip_iface) new_config NM_DNS_IP_CONFIG_TYPE_DEFAULT) >>
     update_ip_dns E fam >>
     update_ip_routing E fam true >>
     let! p := gets priv in
     update_system_hostname E (default_device4 p) (default_device6 p)
   else
     dns_remove_ip_config fam old_config) >>
  emit (DnsEndUpdates func).

Definition device_ip4_config_changed := device_ip_config_changed AF_INET.
Definition device_ip6_config_changed := device_ip_config_changed AF_INET6.

(** *** VPN sessions *)

Definition vpn_connection_activated (vpn : NMActiveConnection) : Handler unit :=
  emit (DnsBeginUpdates "vpn_connection_activated") >>
  let! ip_iface := gets (λ w, nm_vpn_connection_get_ip_iface Q w vpn) in
  (let! ip4_config := gets (λ w, ac_vpn_ip4_config (active w vpn)) in
   dns_add_ip_config AF_INET ip_iface ip4_config NM_DNS_IP_CONFIG_TYPE_VPN) >>
  (let! ip6_config := gets (λ w, ac_vpn_ip6_config (active w vpn)) in
   dns_add_ip_config AF_INET6 ip_iface ip6_config NM_DNS_IP_CONFIG_TYPE_VPN) >>
  update_routing_and_dns E true >>
  emit (DnsEndUpdates "vpn_connection_activated").

Definition vpn_connection_deactivated (vpn : NMActiveConnection) : Handler unit :=
  emit (DnsBeginUpdates "vpn_connection_deactivated") >>
  (let! ip4_config := gets (λ w, ac_vpn_ip4_config (active w vpn)) in
   dns_remove_ip_config AF_INET ip4_config) >>
  (let! ip6_config := gets (λ w, ac_vpn_ip6_config (active w vpn)) in
   dns_remove_ip_config AF_INET6 ip6_config) >>
  update_routing_and_dns E true >>
  emit (DnsEndUpdates "vpn_connection_deactivated").

Definition vpn_connection_state_changed (vpn : NMActiveConnection)
    (new_state old_state : NMVpnConnectionState) : Handler unit :=
  if bool_decide (new_state = NM_VPN_CONNECTION_STATE_ACTIVATED)
  then vpn_connection_activated vpn
  else if vpn_connection_state_value NM_VPN_CONNECTION_STATE_FAILED
            <=? vpn_connection_state_value new_state
  then
    when ((vpn_connection_state_value NM_VPN_CONNECTION_STATE_IP_CONFIG_GET
             <=? vpn_connection_state_value old_state)
          && (vpn_connection_state_value old_state
                <=? vpn_connection_state_value NM_VPN_CONNECTION_STATE_ACTIVATED))
         (vpn_connection_deactivated vpn)
  else ret tt.

(** *** Pending activation checks, continued *)

Definition remove_pending_action (a : string) (o : DeviceObj) : DeviceObj :=
  {| dev_state := dev_state o; dev_iface := dev_iface o; dev_ip_iface := dev_ip_iface o;
     dev_settings_connection := dev_settings_connection o;
     dev_act_request := dev_act_request o;
     dev_ip4_config := dev_ip4_config o; dev_ip6_config := dev_ip6_config o;
     dev_dhcp4_config := dev_dhcp4_config o; dev_dhcp6_config := dev_dhcp6_config o;
     dev_enabled := dev_enabled o; dev_autoconnect := dev_autoconnect o;
     dev_autoconnect_allowed := dev_autoconnect_allowed o;
     dev_is_software := dev_is_software o;
     dev_pending_actions := g_slist_remove (dev_pending_actions o) a |}.

(** Modelled from the spec: the device's pending-action slot keyed by
    string ([nm_device_remove_pending_action] is not in [nm-policy.c]); the
    action leaves the slot. *)
Definition nm_device_remove_pending_action (d : NMDevice) (a : string) : Handler unit :=
  modify (with_device_objs (alter (remove_pending_action a) d)).

(** [g_slist_remove (priv->pending_activation_checks, data)] removes the
    node that holds the pointer [data]; a record stands for its pointer,
    which it does as long as no two pending checks are for one device. *)
Definition activate_data_free (data : ActivateData) : Handler unit :=
  nm_device_remove_pending_action (ad_device data) "autoactivate" >>
  modify (with_priv (λ p,
    set_pending_activation_checks (g_slist_remove (pending_activation_checks p) data) p)) >>
  when (ad_autoactivate_id data) (emit (GSourceRemove "auto_activate_device_cb")).

Definition clear_pending_activate_check (d : NMDevice) : Handler unit :=
  let! data := gets (λ w, find_pending_activation (pending_activation_checks (priv w)) d) in
  match data with
  | Some data => when (ad_autoactivate_id data) (activate_data_free data)
  | None => ret tt
  end.

Definition device_autoconnect_changed (d : NMDevice) : Handler unit :=
  let! allowed := gets (λ w, dev_autoconnect_allowed (device w d)) in
  when allowed (schedule_activate_check d).

Definition device_recheck_auto_activate (d : NMDevice) : Handler unit :=
  schedule_activate_check d.

(** *** Settings events, continued *)

Definition connection_updated (con : NMSettingsConnection) (by_user : bool) : Handler unit :=
  when by_user
       ((let! dev :=
           gets (λ w, find (λ d, bool_decide (dev_settings_connection (device w d) = Some con))
                           (manager_devices w)) in
         match dev with
         | Some d => emit (DeviceReapplySettings d)
         | None => ret tt
         end) >>
        nm_settings_connection_reset_autoconnect_retries E con) >>
  schedule_activate_all.

(** *** The published slots *)

Definition nm_policy_get_default_ip4_device (w : World) : option NMDevice :=
  default_device4 (priv w).
Definition nm_policy_get_default_ip6_device (w : World) : option NMDevice :=
  default_device6 (priv w).
Definition nm_policy_get_activating_ip4_device (w : World) : option NMDevice :=
  activating_device4 (priv w).
Definition nm_policy_get_activating_ip6_device (w : World) : option NMDevice :=
  activating_device6 (priv w).

(** [get_property] for the readable properties. *)
Definition get_property (w : World) (prop_id : PolicyProperty) : option NMDevice :=
  match prop_id with
  | PROP_DEFAULT_IP4_DEVICE => default_device4 (priv w)
  | PROP_DEFAULT_IP6_DEVICE => default_device6 (priv w)
  | PROP_ACTIVATING_IP4_DEVICE => activating_device4 (priv w)
  | PROP_ACTIVATING_IP6_DEVICE => activating_device6 (priv w)
  end.

End Observers.

(** * Properties *)

(** ** Vocabulary *)

(** I1 for one family: no two active sessions of the manager's list carry
    the family's default flag. *)
Definition at_most_one_default (fam : Family) (w : World) : Prop :=
  ∀ a b : nat,
    a ∈ manager_active_connections w → b ∈ manager_active_connections w →
    nm_active_connection_get_default_for fam w a = true →
    nm_active_connection_get_default_for fam w b = true →
    a = b.

(** The device transitions, the deactivation requests and the warnings
    among some effects, in order. *)
Definition device_transitions (l : list Effect)
  : list (nat * NMDeviceState * NMDeviceStateReason) :=
  omap (λ e, match e with
             | DeviceStateChanged d s r => Some (d, s, r)
             | _ => None
             end) l.

(** The timers armed among some effects, in order: the interval and the
    callback of every [g_timeout_add_seconds]. *)
Definition timer_calls (l : list Effect) : list (Z * string) :=
  omap (λ e, match e with
             | GTimeoutAddSeconds interval callback => Some (interval, callback)
             | _ => None
             end) l.

Definition is_dns_effect (e : Effect) : bool :=
  match e with
  | DnsBeginUpdates _ | DnsEndUpdates _ | DnsAddIPConfig _ _ _ _
  | DnsRemoveIPConfig _ _ | DnsSetHostname _ => true
  | _ => false
  end.

Definition is_warning (e : Effect) : bool :=
  match e with
  | NMLog LOGL_WARN _ _ _ => true
  | _ => false
  end.


(** [w'] differs from [w] at most in the policy's private state and in
    the calls recorded: no object of a collaborator was written. *)
Definition only_policy_changed (w w' : World) : Prop :=
  device_objs w' = device_objs w
  ∧ active_objs w' = active_objs w
  ∧ connection_objs w' = connection_objs w
  ∧ manager_devices w' = manager_devices w
  ∧ manager_active_connections w' = manager_active_connections w
  ∧ manager_asleep w' = manager_asleep w
  ∧ manager_hostname w' = manager_hostname w
  ∧ settings_connections_sorted w' = settings_connections_sorted w
  ∧ kernel_hostname w' = kernel_hostname w
  ∧ monotonic_timestamp_s w' = monotonic_timestamp_s w.

(** Case analysis on membership in an explicit list. *)
Ltac elem_cases H :=
  repeat (apply elem_of_cons in H as [H|H]; [try subst|]);
  try (by apply elem_of_nil in H).

(** *** Hostnames *)

(** The name [_set_hostname] hands to the system for a candidate: the
    local [name] of the source. *)
Definition effective_hostname (new_hostname : option string) : string :=
  match new_hostname with
  | None => FALLBACK_HOSTNAME4
  | Some EmptyString => FALLBACK_HOSTNAME4
  | Some h => h
  end.

(** The world once [update_system_hostname] has cancelled a pending
    reverse lookup. *)
Definition after_cancel_lookup (w : World) : World :=
  if lookup_cancellable (priv w)
  then with_priv (set_lookup_cancellable false)
         (with_effects (λ l, l ++ [CancellableCancel]) w)
  else w.

(** The best device [update_system_hostname] works with: the one it was
    given or else the default-route manager's. *)
Definition resolved_best_device (E : Collaborators) (fam : Family)
    (best : option nat) (w : World) : option nat :=
  match best with
  | Some d => Some d
  | None => drm_get_best_device E fam w true (default_device fam (priv w))
  end.

Fixpoint all_spaces (s : string) : bool :=
  match s with
  | EmptyString => true
  | String c rest => g_ascii_isspace c && all_spaces rest
  end.

Fixpoint trim_leading_spaces (s : string) : string :=
  match s with
  | EmptyString => EmptyString
  | String c rest => if g_ascii_isspace c then trim_leading_spaces rest else s
  end.

Definition dhcp_hostname_warning (fam : Family) (dhcp_hostname : string) : Effect :=
  NMLog LOGL_WARN LOGD_DNS
    match fam with
    | AF_INET => "DHCPv4-provided hostname '%s' looks invalid; ignoring it"
    | AF_INET6 => "DHCPv6-provided hostname '%s' looks invalid; ignoring it"
    end
    [LogStr (Some dhcp_hostname)].

Definition dhcp_hostname_msg (fam : Family) : string :=
  match fam with
  | AF_INET => "from DHCPv4"
  | AF_INET6 => "from DHCPv6"
  end.

(** What a handler did to the world when all it did was to make the
    calls [added]. *)
Definition only_calls (w w' : World) (added : list Effect) : Prop :=
  priv w' = priv w ∧ only_policy_changed w w' ∧ effects w' = effects w ++ added.

(** *** The reset timer *)



(** The cell [nm_settings_connection_reset_autoconnect_retries] leaves. *)
Definition reset_cell (E : Collaborators) (now : Z) (o : ConnectionObj) : ConnectionObj :=
  set_retries (AUTOCONNECT_RETRIES_DEFAULT E)
    (autoconnect_retry_deadline E now (AUTOCONNECT_RETRIES_DEFAULT E)) o.


(** *** Deactivation requests *)

(** The active sessions [_deactivate_if_active] asks the manager to
    deactivate for the configuration [con]. *)
Definition deactivation_target (w : World) (con : nat) (a : nat) : bool :=
  bool_decide (ac_settings_connection (active w a) = Some con)
  && (active_connection_state_value (ac_state (active w a))
        <=? active_connection_state_value NM_ACTIVE_CONNECTION_STATE_ACTIVATED).

Definition deactivation_failed_warning (w : World) (con : nat) : Effect :=
  NMLog LOGL_WARN LOGD_DEVICE
    "connection '%s' disappeared, but error deactivating it: (%d) %s"
    [LogStr (Some (nm_settings_connection_get_id w con))].

(** [w'] is [w] with more calls recorded. *)
Definition same_but_effects (w w' : World) : Prop :=
  priv w' = priv w ∧ only_policy_changed w w'.

(** The calls made for one target [a]: the deactivation request with
    reason CONNECTION_REMOVED, followed by the warning when the manager
    (asked in some world [w2] that is [w] with more calls recorded) reports
    a failure. *)
Definition deactivation_calls (E : Collaborators) (w : World) (con : nat) (a : nat)
    (calls : list Effect) : Prop :=
  ∃ w2, same_but_effects w w2
    ∧ calls =
        ManagerDeactivateConnection (ac_path (active w a))
          NM_DEVICE_STATE_REASON_CONNECTION_REMOVED
        :: (if nm_manager_deactivate_connection_result E w2 (ac_path (active w a))
            then [] else [deactivation_failed_warning w con]).

(** *** Wait records of secondary connections *)

(** What becomes of a wait record when the session [act] is reported
    ACTIVATED ([connected]) or DEACTIVATED: the record without [act], or
    nothing when the record goes. *)
Definition record_after (connected : bool) (act : nat) (r : PendingSecondaryData)
  : option PendingSecondaryData :=
  if bool_decide (act ∈ psd_secondaries r) then
    if connected then
      match filter (λ a, a ≠ act) (psd_secondaries r) with
      | [] => None
      | l => Some {| psd_device := psd_device r; psd_secondaries := l |}
      end
    else None
  else Some r.

(** The transition the device of a wait record is put through, from the
    state [st] the device is in. *)
Definition transition_from (connected removed : bool) (st : NMDeviceState)
  : option (NMDeviceState * NMDeviceStateReason) :=
  if connected then
    if removed && bool_decide (st = NM_DEVICE_STATE_SECONDARIES)
    then Some (NM_DEVICE_STATE_ACTIVATED, NM_DEVICE_STATE_REASON_NONE)
    else None
  else
    if bool_decide (st = NM_DEVICE_STATE_SECONDARIES)
       || bool_decide (st = NM_DEVICE_STATE_ACTIVATED)
    then Some (NM_DEVICE_STATE_FAILED, NM_DEVICE_STATE_REASON_SECONDARY_CONNECTION_FAILED)
    else None.

Definition secondary_transition (connected : bool) (act : nat) (w : World)
    (r : PendingSecondaryData) : option (NMDeviceState * NMDeviceStateReason) :=
  if bool_decide (act ∈ psd_secondaries r) then
    transition_from connected
      (bool_decide (filter (λ a, a ≠ act) (psd_secondaries r) = []))
      (dev_state (device w (psd_device r)))
  else None.

(** [w'] differs from [w] at most in the policy's private state, in the
    devices and in the calls recorded. *)
Definition same_sessions_and_settings (w w' : World) : Prop :=
  active_objs w' = active_objs w
  ∧ connection_objs w' = connection_objs w
  ∧ manager_devices w' = manager_devices w
  ∧ manager_active_connections w' = manager_active_connections w
  ∧ manager_asleep w' = manager_asleep w
  ∧ manager_hostname w' = manager_hostname w
  ∧ settings_connections_sorted w' = settings_connections_sorted w
  ∧ kernel_hostname w' = kernel_hostname w
  ∧ monotonic_timestamp_s w' = monotonic_timestamp_s w.

(** The world after the device of a record went through [tr]. *)
Definition device_objs_after (tr : option (NMDeviceState * NMDeviceStateReason))
    (d : nat) (m : gmap nat DeviceObj) : gmap nat DeviceObj :=
  match tr with
  | Some (s, _) => alter (set_dev_state s) d m
  | None => m
  end.

Definition transitions_of (tr : option (NMDeviceState * NMDeviceStateReason)) (d : nat)
  : list (nat * NMDeviceState * NMDeviceStateReason) :=
  match tr with
  | Some (s, r) => [(d, s, r)]
  | None => []
  end.

(** The transitions [process_secondaries] puts the devices of the wait
    records [l] through, in order. *)
Definition expected_transitions (connected : bool) (act : nat) (w : World)
    (l : list PendingSecondaryData) : list (nat * NMDeviceState * NMDeviceStateReason) :=
  concat (map (λ r, transitions_of (secondary_transition connected act w r) (psd_device r)) l).

(** *** Runs of a handler *)

(** [m] returns from every world, and [R] relates the world it started in
    to the world it returns. *)
Definition always_returns {A} (R : relation World) (m : Handler A) : Prop :=
  ∀ w, ∃ a w', m w = Returned a w' ∧ R w w'.

Definition keeps {B} (f : World → B) : relation World := λ w w', f w' = f w.

(** The calls recorded between [w] and [w'] all satisfy [P]. *)
Definition calls_only (P : Effect → Prop) : relation World :=
  λ w w', ∃ added, effects w' = effects w ++ added ∧ Forall P added.

Definition both (R1 R2 : relation World) : relation World := λ w w', R1 w w' ∧ R2 w w'.

(** What [update_ip4_routing] and [update_ip6_routing] assert of a best
    configuration, and the default-route manager that always meets it. *)
Definition best_config_well_formed (bc : BestConfig) : Prop :=
  (is_Some (bc_device bc) ∨ is_Some (bc_vpn bc)) ∧ is_Some (bc_ac bc).

Definition route_manager_contract (E : Collaborators) : Prop :=
  ∀ fam w bc, drm_get_best_config E fam w false = Some bc → best_config_well_formed bc.

(** *** Activation checks *)

(** No two pending activation checks are for one device. *)
Definition no_duplicate_checks (w : World) : Prop :=
  NoDup (ad_device <$> pending_activation_checks (priv w)).

(** The guards of [schedule_activate_check] that do not look at the
    pending checks: the manager is awake, the device is enabled and allows
    autoconnect, and no active session is on the device. *)
Definition activation_check_allowed (w : World) (d : nat) : bool :=
  negb (manager_asleep w)
  && dev_enabled (device w d)
  && dev_autoconnect_allowed (device w d)
  && negb (existsb (λ a, bool_decide (ac_device (active w a) = Some d))
             (manager_active_connections w)).

(** The world once a check for [d] is queued. *)
Definition queue_activation_check (d : nat) (w : World) : World :=
  with_priv
    (λ p, set_pending_activation_checks
            (pending_activation_checks p
               ++ [{| ad_device := d; ad_autoactivate_id := true |}]) p)
    (with_effects (λ l, l ++ [GIdleAdd "auto_activate_device_cb"])
       (with_device_objs (alter (add_pending_action "autoactivate") d) w)).

(** *** The hostname controller, continued *)

(** The calls the hostname controller makes: its log lines, the warning
    of [g_warn_if_reached], the hostname setters of the DNS manager and of
    the settings layer, and the start and the cancellation of a reverse
    lookup. *)
Definition is_hostname_call (e : Effect) : Prop :=
  match e with
  | NMLog _ LOGD_DNS _ _ | GWarning _ | DnsSetHostname _ | SettingsSetTransientHostname _
  | ResolverLookupByAddress _ | CancellableCancel => True
  | _ => False
  end.

(** Everything in the world that is not a field of the hostname
    controller ([lookup_addr], [lookup_cancellable], [cur_hostname],
    [hostname_changed]) or the record of calls. *)
Definition outside_hostname_controller (w : World) :=
  (device_objs w, active_objs w, connection_objs w,
   manager_devices w, manager_active_connections w, manager_asleep w, manager_hostname w,
   settings_connections_sorted w, kernel_hostname w, monotonic_timestamp_s w,
   (pending_activation_checks (priv w), devices (priv w), pending_secondaries (priv w),
    default_device4 (priv w), default_device6 (priv w),
    activating_device4 (priv w), activating_device6 (priv w),
    reset_retries_id (priv w), schedule_activate_all_id (priv w), orig_hostname (priv w))).

(** [hostname_changed] is a latch: once set it stays set. *)
Definition hostname_changed_latch : relation World :=
  λ w w', hostname_changed (priv w) = true → hostname_changed (priv w') = true.

Definition hostname_step : relation World :=
  both (keeps outside_hostname_controller)
       (both hostname_changed_latch (calls_only is_hostname_call)).

(** The candidates that [_set_hostname] takes for no change: the current
    hostname, and the original hostname as long as the hostname was never
    changed. *)
Definition hostname_unchanged (p : NMPolicyPrivate) (new_hostname : option string) : Prop :=
  cur_hostname p = new_hostname
  ∨ (is_Some (orig_hostname p) ∧ hostname_changed p = false
     ∧ orig_hostname p = new_hostname).

(** The test of [_set_hostname] for "the hostname is not going to
    change", as the source evaluates it. *)
Definition hostname_unchangedb (p : NMPolicyPrivate) (new_hostname : option string) : bool :=
  bool_decide (is_Some (orig_hostname p)) && negb (hostname_changed p)
    && g_strcmp0_eq (orig_hostname p) new_hostname
  || g_strcmp0_eq (cur_hostname p) new_hostname.

(** The policy's private state once [_set_hostname] has taken the
    candidate. *)
Definition after_set_hostname (new_hostname : option string) (p : NMPolicyPrivate)
  : NMPolicyPrivate :=
  let p1 := if bool_decide (is_Some new_hostname) then set_lookup_addr None p else p in
  if hostname_unchangedb p new_hostname then p1 else set_cur_hostname new_hostname p1.

(** The calls by which [dns_config_changed] starts the reverse lookup of
    the address [a] again. *)
Definition restart_lookup_calls (a : Family * Z) : list Effect :=
  [NMLog LOGL_DEBUG LOGD_DNS "restarting reverse-lookup thread for address %s" [LogInt a.2];
   ResolverLookupByAddress a].

(** *** Default routes, continued *)

Definition other_family (fam : Family) : Family :=
  match fam with AF_INET => AF_INET6 | AF_INET6 => AF_INET end.

(** Everything in the world but the active sessions. *)
Definition outside_sessions (w : World) :=
  (priv w, device_objs w, connection_objs w,
   manager_devices w, manager_active_connections w, manager_asleep w, manager_hostname w,
   settings_connections_sorted w, kernel_hostname w, monotonic_timestamp_s w, effects w).

(** What the routing update of the family [fam] never writes of an
    active session: everything but the family's default flag and the
    device the session is attributed to. *)
Definition session_view (fam : Family) (o : ActiveObj) :=
  (ac_state o, ac_settings_connection o, ac_applied_connection o, ac_path o,
   ac_subject_internal o, ac_is_vpn o, ac_vpn_ip4_config o, ac_vpn_ip6_config o,
   match fam with AF_INET => ac_default6 o | AF_INET6 => ac_default o end).

Definition sessions_keep (fam : Family) : relation World :=
  λ w w', ∀ a, session_view fam (active w' a) = session_view fam (active w a).

(** Everything in the world that is not an active session, a default
    device slot or the record of calls. *)
Definition outside_routing (w : World) :=
  (device_objs w, connection_objs w,
   manager_devices w, manager_active_connections w, manager_asleep w, manager_hostname w,
   settings_connections_sorted w, kernel_hostname w, monotonic_timestamp_s w,
   (pending_activation_checks (priv w), devices (priv w), pending_secondaries (priv w),
    activating_device4 (priv w), activating_device6 (priv w),
    lookup_addr (priv w), lookup_cancellable (priv w),
    reset_retries_id (priv w), schedule_activate_all_id (priv w),
    orig_hostname (priv w), cur_hostname (priv w), hostname_changed (priv w))).

(** The calls of the routing update of the family [fam]: the notification
    of the family's default device and the log line that goes with it. *)
Definition is_routing_call (fam : Family) (e : Effect) : Prop :=
  match e with
  | Notify p => p = PROP_DEFAULT_IP_DEVICE fam
  | NMLog LOGL_INFO LOGD_CORE _ _ => True
  | _ => False
  end.

Definition routing_step (fam : Family) : relation World :=
  both (keeps outside_routing)
       (both (keeps (λ w, default_device (other_family fam) (priv w)))
             (both (sessions_keep fam) (calls_only (is_routing_call fam)))).

(** *** The routing and DNS update *)

(** Everything in the world that is neither an active session, nor a
    default device slot, nor a field of the hostname controller, nor the
    record of calls. *)
Definition outside_routing_and_hostname (w : World) :=
  (device_objs w, connection_objs w,
   manager_devices w, manager_active_connections w, manager_asleep w, manager_hostname w,
   settings_connections_sorted w, kernel_hostname w, monotonic_timestamp_s w,
   (pending_activation_checks (priv w), devices (priv w), pending_secondaries (priv w),
    activating_device4 (priv w), activating_device6 (priv w),
    reset_retries_id (priv w), schedule_activate_all_id (priv w), orig_hostname (priv w))).

(** The calls made between the brackets of [update_routing_and_dns]: the
    preferred configurations handed to the DNS manager (never with the
    type DEFAULT), the calls of the two routing updates and the calls of
    the hostname controller. *)
Definition is_update_call (e : Effect) : Prop :=
  match e with
  | DnsAddIPConfig _ _ _ t => t ≠ NM_DNS_IP_CONFIG_TYPE_DEFAULT
  | Notify p => p = PROP_DEFAULT_IP4_DEVICE ∨ p = PROP_DEFAULT_IP6_DEVICE
  | NMLog LOGL_INFO LOGD_CORE _ _ => True
  | _ => is_hostname_call e
  end.

Definition update_step : relation World :=
  both (keeps outside_routing_and_hostname)
       (both hostname_changed_latch (calls_only is_update_call)).

(** The calls [mid] between a pair of brackets of the DNS manager. *)
Definition bracketed (func : string) (mid : list Effect) : list Effect :=
  DnsBeginUpdates func :: mid ++ [DnsEndUpdates func].

(** *** IP configuration changes and VPN sessions *)

Definition device_ip_config_changed_func (fam : Family) : string :=
  match fam with
  | AF_INET => "device_ip4_config_changed"
  | AF_INET6 => "device_ip6_config_changed"
  end.

(** The DNS manager is told to drop the configuration [config], if there
    is one. *)
Definition dns_removal (fam : Family) (config : option NMIPConfig) : list Effect :=
  match config with
  | Some c => [DnsRemoveIPConfig fam c]
  | None => []
  end.

(** The DNS manager is handed the configuration [config], if there is
    one, with the type [t]. *)
Definition dns_addition (fam : Family) (ip_iface : option string)
    (config : option NMIPConfig) (t : NMDnsIPConfigType) : list Effect :=
  match config with
  | Some c => [DnsAddIPConfig fam ip_iface c t]
  | None => []
  end.

(** *** The retry ledger, continued *)

(** Everything in the world but the settings connections. *)
Definition outside_ledger (w : World) :=
  (priv w, device_objs w, active_objs w,
   manager_devices w, manager_active_connections w, manager_asleep w, manager_hostname w,
   settings_connections_sorted w, kernel_hostname w, monotonic_timestamp_s w, effects w).

(** The cell of a configuration that is enabled for autoconnect again:
    the counter at its default, no blocked reason. *)
Definition reenabled_cell (E : Collaborators) (now : Z) (o : ConnectionObj) : ConnectionObj :=
  set_blocked_reason NM_DEVICE_STATE_REASON_NONE (reset_cell E now o).

(** From [w] to [w'], [f] was applied to the cell of every configuration
    of [conns] that [sel] selects, and no other cell changed. *)
Definition cells_updated (sel : nat → ConnectionObj → bool)
    (f : ConnectionObj → ConnectionObj) (conns : list nat) (w w' : World) : Prop :=
  ∀ c, connection_objs w' !! c =
       if bool_decide (c ∈ conns) && sel c (connection w c)
       then f <$> connection_objs w !! c
       else connection_objs w !! c.

(** [w'] differs from [w] at most in the policy's private state, in the
    settings connections and in the calls recorded. *)
Definition only_policy_changed_but_ledger (w w' : World) : Prop :=
  device_objs w' = device_objs w
  ∧ active_objs w' = active_objs w
  ∧ manager_devices w' = manager_devices w
  ∧ manager_active_connections w' = manager_active_connections w
  ∧ manager_asleep w' = manager_asleep w
  ∧ manager_hostname w' = manager_hostname w
  ∧ settings_connections_sorted w' = settings_connections_sorted w
  ∧ kernel_hostname w' = kernel_hostname w
  ∧ monotonic_timestamp_s w' = monotonic_timestamp_s w.

(** The configurations that a device entering DEACTIVATING blocks from
    autoconnect: none unless the user asked for the deactivation; then the
    device's own configuration while the device still autoconnects, and
    otherwise every configuration of the store that is compatible with the
    device, if the device is a software device. *)
Definition blocked_by_user_request (w : World) (d : nat) (reason : NMDeviceStateReason)
    (compatible : nat → bool) (c : nat) : bool :=
  bool_decide (reason = NM_DEVICE_STATE_REASON_USER_REQUESTED)
  && (if dev_autoconnect (device w d)
      then bool_decide (dev_settings_connection (device w d) = Some c)
      else dev_is_software (device w d)
           && bool_decide (c ∈ settings_connections_sorted w) && compatible c).

(** The cell of the configuration of a device that reached ACTIVATED:
    the counter at its default, the cached secrets dropped. *)
Definition activated_cell (E : Collaborators) (now : Z) (o : ConnectionObj) : ConnectionObj :=
  clear_secrets (reset_cell E now o).

(** [f] applied to the cell of the configuration [con], if there is one. *)
Definition alter_cell (f : ConnectionObj → ConnectionObj) (con : option nat)
    (m : gmap nat ConnectionObj) : gmap nat ConnectionObj :=
  match con with
  | Some c => alter f c m
  | None => m
  end.

Definition is_activating_notification (e : Effect) : Prop :=
  e = Notify PROP_ACTIVATING_IP4_DEVICE ∨ e = Notify PROP_ACTIVATING_IP6_DEVICE.


(** *** Settings events *)

(** [dev] is the first device of the manager's list whose settings
    connection is [con], or nothing when no device of the list uses it. *)
Definition first_device_using (w : World) (con : nat) (dev : option nat) : Prop :=
  match dev with
  | Some d =>
      ∃ before after,
        manager_devices w = before ++ d :: after
        ∧ dev_settings_connection (device w d) = Some con
        ∧ Forall (λ d', dev_settings_connection (device w d') ≠ Some con) before
  | None =>
      Forall (λ d', dev_settings_connection (device w d') ≠ Some con) (manager_devices w)
  end.

(** The settings of [dev] are applied again at once, if there is one. *)
Definition reapplied (dev : option nat) : list Effect :=
  match dev with
  | Some d => [DeviceReapplySettings d]
  | None => []
  end.

Definition is_activate_all_idle_call (e : Effect) : Prop :=
  e = GIdleAdd "schedule_activate_all_cb" ∨ e = GSourceRemove "schedule_activate_all_cb".

(** *** Device states *)




Definition calls_if (b : bool) (l : list Effect) : list Effect := if b then l else [].

(** *** Secondary connections, continued *)

(** The configuration a secondary UUID stands for: the configuration of
    the store with that UUID, if it is a VPN. *)
Definition secondary_connection (w : World) (sec_uuid : string) : option nat :=
  match nm_settings_get_connection_by_uuid w sec_uuid with
  | Some settings_con =>
      if con_is_vpn (connection w settings_con) then Some settings_con else None
  | None => None
  end.

(** The session the manager starts for a secondary UUID on the device
    [d], if the UUID stands for a configuration and the manager starts
    it. *)
Definition secondary_session (E : Collaborators) (w : World) (d : nat) (sec_uuid : string)
  : option nat :=
  secondary_connection w sec_uuid
    ≫= λ settings_con, nm_manager_activate_connection_result E w settings_con (Some d).

(** The calls by which the secondary [sec_uuid] of the base configuration
    [con] is started on the device [d]: the log line, then the request to
    the manager, for the device's activation request, with the type
    FULL. *)
Definition activation_calls (w : World) (con d : nat) (sec_uuid : string) : list Effect :=
  let req := dev_act_request (device w d) in
  match secondary_connection w sec_uuid with
  | Some settings_con =>
      [NMLog LOGL_DEBUG LOGD_DEVICE
         "activating secondary connection '%s (%s)' for base connection '%s (%s)'"
         [LogStr (Some (nm_settings_connection_get_id w settings_con));
          LogStr (Some sec_uuid);
          LogStr (Some (con_id (connection w con)));
          LogStr (Some (con_uuid (connection w con)))];
       ManagerActivateConnection settings_con
         ((λ r, ac_path (active w r)) <$> req) (Some d)
         (match req with
          | Some r => ac_subject_internal (active w r)
          | None => false
          end)
         NM_ACTIVATION_TYPE_FULL]
  | None => []
  end.

(** The calls at a secondary that cannot be started: the warning, after
    the attempt when the UUID stands for a VPN configuration. *)
Definition failure_calls (w : World) (con d : nat) (sec_uuid : string) : list Effect :=
  match nm_settings_get_connection_by_uuid w sec_uuid with
  | None =>
      [NMLog LOGL_WARN LOGD_DEVICE
         "secondary connection '%s' auto-activation failed: The connection doesn't exist."
         [LogStr (Some sec_uuid)]]
  | Some settings_con =>
      if con_is_vpn (connection w settings_con) then
        activation_calls w con d sec_uuid
        ++ [NMLog LOGL_WARN LOGD_DEVICE
              "secondary connection '%s (%s)' auto-activation failed: (%d) %s"
              [LogStr (Some (nm_settings_connection_get_id w settings_con));
               LogStr (Some sec_uuid)]]
      else
        [NMLog LOGL_WARN LOGD_DEVICE
           "secondary connection '%s (%s)' auto-activation failed: The connection is not a VPN."
           [LogStr (Some (nm_settings_connection_get_id w settings_con));
            LogStr (Some sec_uuid)]]
  end.

(** The manager's answer to an activation request on [d] does not depend
    on the calls recorded so far. *)
Definition activation_ignores_calls (E : Collaborators) (d : nat) : Prop :=
  ∀ w w2 c, same_but_effects w w2 →
    nm_manager_activate_connection_result E w2 c (Some d)
    = nm_manager_activate_connection_result E w c (Some d).

(** *** Slaves of a device *)

(** The activation request of the device came from NetworkManager
    itself. *)
Definition internal_activation (w : World) (d : nat) : bool :=
  match dev_act_request (device w d) with
  | Some r => ac_subject_internal (active w r)
  | None => false
  end.

(** The configuration [o] names the device [d] as its master: by the
    interface name of the device, or by the UUID of the applied or of the
    settings connection of the device's activation request. *)
Definition names_master (w : World) (d : nat) (o : ConnectionObj) : bool :=
  let req := dev_act_request (device w d) in
  match con_master o with
  | None => false
  | Some m =>
      bool_decide (dev_iface (device w d) = Some m)
      || bool_decide (req ≫= (λ r, nmc_uuid <$> ac_applied_connection (active w r)) = Some m)
      || bool_decide (req ≫= (λ r, (λ c, con_uuid (connection w c))
                                     <$> ac_settings_connection (active w r)) = Some m)
  end.

(** *** Hostname precedence *)

(** The address the reverse lookup starts from: the first address of the
    IPv4 configuration of [best4], or else the first address of the IPv6
    configuration of [best6]. *)
Definition reverse_lookup_address (w : World) (best4 best6 : option nat)
  : option (Family * Z) :=
  match (best4 ≫= λ d, dev_ip4_config (device w d)) ≫= λ c, head (ipcfg_addresses c) with
  | Some a => Some (AF_INET, a)
  | None =>
      (λ a, (AF_INET6, a))
        <$> ((best6 ≫= λ d, dev_ip6_config (device w d)) ≫= λ c, head (ipcfg_addresses c))
  end.
(** * Scenarios

    Concrete collaborators and worlds on which the statements below are
    run. *)

(** Collaborators of a host without any default route: no best device,
    no best configuration.  The retry policy is the settings layer's usual
    one, four tries and a deadline five minutes after the last one. *)
Definition routeless : Collaborators :=
  {| drm_get_best_device := λ _ _ _ _, None;
     drm_get_best_config := λ _ _ _, None;
     nm_utils_is_specific_hostname := λ h, negb (String.eqb h "localhost");
     nm_device_check_connection_compatible := λ _ _ _, true;
     nm_manager_activate_connection_result := λ _ _ _, None;
     nm_manager_deactivate_connection_result := λ _ _, true;
     AUTOCONNECT_RETRIES_DEFAULT := 4;
     autoconnect_retry_deadline := λ now r, if r =? 0 then now + 300 else 0 |}.

(** The IPv4 configuration of a VPN tunnelled over an IPv6-only device:
    the default-route manager names the VPN session 2 and no best device. *)
Definition vpn_config : BestConfig :=
  {| bc_config := {| ipcfg_id := 9; ipcfg_addresses := [167772161] |};
     bc_ip_iface := Some "tun0";
     bc_ac := Some 2%nat;
     bc_device := None;
     bc_vpn := Some 2%nat |}.

Definition vpn_only : Collaborators :=
  {| drm_get_best_device := λ _ _ _ _, None;
     drm_get_best_config := λ fam _ _,
       match fam with AF_INET => Some vpn_config | AF_INET6 => None end;
     nm_utils_is_specific_hostname := λ h, negb (String.eqb h "localhost");
     nm_device_check_connection_compatible := λ _ _ _, true;
     nm_manager_activate_connection_result := λ _ _ _, None;
     nm_manager_deactivate_connection_result := λ _ _, false;
     AUTOCONNECT_RETRIES_DEFAULT := 4;
     autoconnect_retry_deadline := λ now r, if r =? 0 then now + 300 else 0 |}.

Definition idle_policy : NMPolicyPrivate :=
  {| pending_activation_checks := [];
     devices := {[ 0%nat ]};
     pending_secondaries := [];
     default_device4 := None; activating_device4 := None;
     default_device6 := None; activating_device6 := None;
     lookup_addr := None; lookup_cancellable := false;
     reset_retries_id := None; schedule_activate_all_id := false;
     orig_hostname := None; cur_hostname := None; hostname_changed := false |}.

Definition eth0 (st : NMDeviceState) (con : option nat) (dhcp4 : option NMDhcpConfig)
  : DeviceObj :=
  {| dev_state := st; dev_iface := Some "eth0"; dev_ip_iface := "eth0";
     dev_settings_connection := con; dev_act_request := None;
     dev_ip4_config := Some {| ipcfg_id := 1; ipcfg_addresses := [3232235777] |};
     dev_ip6_config := None;
     dev_dhcp4_config := dhcp4; dev_dhcp6_config := None;
     dev_enabled := true; dev_autoconnect := true;
     dev_autoconnect_allowed := true; dev_is_software := false;
     dev_pending_actions := [] |}.

Definition session (st : NMActiveConnectionState) (d : option nat) (con : option nat)
    (vpn flagged : bool) : ActiveObj :=
  {| ac_state := st; ac_device := d; ac_settings_connection := con;
     ac_applied_connection := Some {| nmc_id := "office"; nmc_uuid := "uuid-office" |};
     ac_path := "/org/freedesktop/NetworkManager/ActiveConnection/1";
     ac_subject_internal := true; ac_is_vpn := vpn;
     ac_vpn_ip4_config := None; ac_vpn_ip6_config := None;
     ac_default := flagged; ac_default6 := false |}.

Definition profile (retries retry_time : Z) (blocked : NMDeviceStateReason)
  : ConnectionObj :=
  {| con_id := "office"; con_uuid := "uuid-office"; con_is_vpn := false;
     con_master := None; con_secondaries := []; con_visible := false;
     con_secrets := ["psk"];
     autoconnect_retries := retries; autoconnect_retry_time := retry_time;
     autoconnect_blocked_reason := blocked |}.

Definition scenario (p : NMPolicyPrivate) (devs : gmap nat DeviceObj)
    (acs : gmap nat ActiveObj) (cons : gmap nat ConnectionObj)
    (active_list : list nat) (settings_list : list nat)
    (kernel : option string) (now : Z) : World :=
  {| priv := p; device_objs := devs; active_objs := acs; connection_objs := cons;
     manager_devices := [0%nat]; manager_active_connections := active_list;
     manager_asleep := false; manager_hostname := None;
     settings_connections_sorted := settings_list;
     kernel_hostname := kernel; monotonic_timestamp_s := now;
     effects := [] |}.

(** The last route went away: the IPv4 default slot still names device 0
    and the session 1 still carries the IPv4 default flag. *)
Definition stale_default_world : World :=
  scenario (set_default_device AF_INET (Some 0%nat) idle_policy)
    {[ 0%nat := eth0 NM_DEVICE_STATE_ACTIVATED (Some 5%nat) None ]}
    {[ 1%nat := session NM_ACTIVE_CONNECTION_STATE_ACTIVATED (Some 0%nat) (Some 5%nat)
                  false true ]}
    {[ 5%nat := profile 4 0 NM_DEVICE_STATE_REASON_NONE ]}
    [1%nat] [5%nat] (Some "office-pc") 1000.

(** A VPN session 2, attributed to device 0, next to the base session 1. *)
Definition vpn_world : World :=
  scenario idle_policy
    {[ 0%nat := eth0 NM_DEVICE_STATE_ACTIVATED (Some 5%nat) None ]}
    (<[ 2%nat := session NM_ACTIVE_CONNECTION_STATE_ACTIVATED (Some 0%nat) (Some 6%nat)
                   true false ]>
     {[ 1%nat := session NM_ACTIVE_CONNECTION_STATE_ACTIVATED (Some 0%nat) (Some 5%nat)
                   false true ]})
    {[ 5%nat := profile 4 0 NM_DEVICE_STATE_REASON_NONE ]}
    [1%nat; 2%nat] [5%nat] (Some "office-pc") 1000.

(** The last try of configuration 5 on device 0. *)
Definition last_try_world : World :=
  scenario idle_policy
    {[ 0%nat := eth0 NM_DEVICE_STATE_FAILED (Some 5%nat) None ]}
    ∅
    {[ 5%nat := profile 1 0 NM_DEVICE_STATE_REASON_NONE ]}
    [] [5%nat] (Some "office-pc") 1000.

(** The reset timer fires at 1000: configuration 5 ran out of tries with a
    deadline of 900 and was then blocked for want of secrets, configuration
    6 ran out of tries with a deadline of 1200. *)
Definition timer_world : World :=
  scenario (set_reset_retries_id (Some 0) idle_policy)
    {[ 0%nat := eth0 NM_DEVICE_STATE_DISCONNECTED None None ]}
    ∅
    (<[ 6%nat := profile 0 1200 NM_DEVICE_STATE_REASON_NONE ]>
     {[ 5%nat := profile 0 900 NM_DEVICE_STATE_REASON_NO_SECRETS ]})
    [] [5%nat; 6%nat] (Some "office-pc") 1000.

(** Device 0 waits in SECONDARIES for the one secondary session 2. *)
Definition waiting_world : World :=
  scenario (set_pending_secondaries
              [{| psd_device := 0%nat; psd_secondaries := [2%nat] |}] idle_policy)
    {[ 0%nat := eth0 NM_DEVICE_STATE_SECONDARIES (Some 5%nat) None ]}
    {[ 2%nat := session NM_ACTIVE_CONNECTION_STATE_ACTIVATED (Some 0%nat) (Some 6%nat)
                  true false ]}
    {[ 5%nat := profile 4 0 NM_DEVICE_STATE_REASON_NONE ]}
    [2%nat] [5%nat] (Some "office-pc") 1000.

(** The policy decided on "foo" earlier; the kernel says "bar". *)
Definition renamed_world : World :=
  scenario (set_cur_hostname (Some "foo") idle_policy)
    {[ 0%nat := eth0 NM_DEVICE_STATE_ACTIVATED (Some 5%nat) None ]}
    ∅ ∅ [] [] (Some "bar") 1000.

(** Device 0 is the best IPv4 device and its DHCP lease carries the
    [host_name] value [v]; the host was started as "office-pc". *)
Definition dhcp_world (v : string) : World :=
  scenario
    {| pending_activation_checks := [];
       devices := {[ 0%nat ]};
       pending_secondaries := [];
       default_device4 := Some 0%nat; activating_device4 := None;
       default_device6 := None; activating_device6 := None;
       lookup_addr := None; lookup_cancellable := false;
       reset_retries_id := None; schedule_activate_all_id := false;
       orig_hostname := Some "office-pc"; cur_hostname := None;
       hostname_changed := false |}
    {[ 0%nat := eth0 NM_DEVICE_STATE_ACTIVATED (Some 5%nat)
                  (Some {| dhcp_host_name := Some v |}) ]}
    ∅ ∅ [] [] (Some "office-pc") 1000.

(** Device 0 enters SECONDARIES with a configuration that lists none. *)
Definition plain_world : World :=
  scenario idle_policy
    {[ 0%nat := eth0 NM_DEVICE_STATE_SECONDARIES (Some 5%nat) None ]}
    ∅
    {[ 5%nat := profile 4 0 NM_DEVICE_STATE_REASON_NONE ]}
    [] [5%nat] (Some "office-pc") 1000.

(** ** Scenarios of the remaining observers *)

(** Device 1 is still activating, device 0 is not; a VPN session reaches
    the network through tun0. *)
Definition one_activating : DeviceQueries :=
  {| nm_device_is_activating := λ _ d, bool_decide (d = 1%nat);
     nm_vpn_connection_get_ip_iface := λ _ _, Some "tun0" |}.

(** A best configuration that names a device and no active session, and
    a default-route manager that reports it for IPv4. *)
Definition unattributed_config : BestConfig :=
  {| bc_config := {| ipcfg_id := 1; ipcfg_addresses := [3232235777] |};
     bc_ip_iface := Some "eth0";
     bc_ac := None;
     bc_device := Some 0%nat;
     bc_vpn := None |}.

Definition unattributed : Collaborators :=
  {| drm_get_best_device := λ _ _ _ _, None;
     drm_get_best_config := λ fam _ _,
       match fam with AF_INET => Some unattributed_config | AF_INET6 => None end;
     nm_utils_is_specific_hostname := λ h, negb (String.eqb h "localhost");
     nm_device_check_connection_compatible := λ _ _ _, true;
     nm_manager_activate_connection_result := λ _ _ _, None;
     nm_manager_deactivate_connection_result := λ _ _, true;
     AUTOCONNECT_RETRIES_DEFAULT := 4;
     autoconnect_retry_deadline := λ now r, if r =? 0 then now + 300 else 0 |}.

(** A manager that starts every secondary it is asked for, as the
    session 2; there is no default route. *)
Definition vpn_starter : Collaborators :=
  {| drm_get_best_device := λ _ _ _ _, None;
     drm_get_best_config := λ _ _ _, None;
     nm_utils_is_specific_hostname := λ h, negb (String.eqb h "localhost");
     nm_device_check_connection_compatible := λ _ _ _, true;
     nm_manager_activate_connection_result := λ _ _ _, Some 2%nat;
     nm_manager_deactivate_connection_result := λ _ _, true;
     AUTOCONNECT_RETRIES_DEFAULT := 4;
     autoconnect_retry_deadline := λ now r, if r =? 0 then now + 300 else 0 |}.

(** The administrator configured the hostname "server1" while a reverse
    lookup was in flight. *)
Definition configured_world : World :=
  {| priv := set_lookup_cancellable true idle_policy;
     device_objs := {[ 0%nat := eth0 NM_DEVICE_STATE_ACTIVATED (Some 5%nat) None ]};
     active_objs := ∅; connection_objs := ∅;
     manager_devices := [0%nat]; manager_active_connections := [];
     manager_asleep := false; manager_hostname := Some "server1";
     settings_connections_sorted := [];
     kernel_hostname := Some "office-pc"; monotonic_timestamp_s := 1000;
     effects := [] |}.

(** The configuration 5 names the VPN configuration 6 as its one
    secondary; device 0 enters SECONDARIES with it, for the request 1. *)
Definition base_profile : ConnectionObj :=
  {| con_id := "office"; con_uuid := "uuid-office"; con_is_vpn := false;
     con_master := None; con_secondaries := ["uuid-vpn"]; con_visible := true;
     con_secrets := [];
     autoconnect_retries := 4; autoconnect_retry_time := 0;
     autoconnect_blocked_reason := NM_DEVICE_STATE_REASON_NONE |}.

Definition vpn_profile : ConnectionObj :=
  {| con_id := "tunnel"; con_uuid := "uuid-vpn"; con_is_vpn := true;
     con_master := None; con_secondaries := []; con_visible := true;
     con_secrets := [];
     autoconnect_retries := 4; autoconnect_retry_time := 0;
     autoconnect_blocked_reason := NM_DEVICE_STATE_REASON_NONE |}.

Definition requested_eth0 : DeviceObj :=
  {| dev_state := NM_DEVICE_STATE_SECONDARIES; dev_iface := Some "eth0"; dev_ip_iface := "eth0";
     dev_settings_connection := Some 5%nat; dev_act_request := Some 1%nat;
     dev_ip4_config := Some {| ipcfg_id := 1; ipcfg_addresses := [3232235777] |};
     dev_ip6_config := None;
     dev_dhcp4_config := None; dev_dhcp6_config := None;
     dev_enabled := true; dev_autoconnect := true;
     dev_autoconnect_allowed := true; dev_is_software := false;
     dev_pending_actions := [] |}.

Definition secondaries_world : World :=
  scenario idle_policy
    {[ 0%nat := requested_eth0 ]}
    {[ 1%nat := session NM_ACTIVE_CONNECTION_STATE_ACTIVATED (Some 0%nat) (Some 5%nat)
                  false false ]}
    (<[ 6%nat := vpn_profile ]> {[ 5%nat := base_profile ]})
    [1%nat] [5%nat; 6%nat] (Some "office-pc") 1000.

(** The configuration 7 names eth0 as its master; it ran out of tries and
    is blocked for want of secrets.  Device 0 enters PREPARE without an
    activation request of its own. *)
Definition slave_profile : ConnectionObj :=
  {| con_id := "port"; con_uuid := "uuid-port"; con_is_vpn := false;
     con_master := Some "eth0"; con_secondaries := []; con_visible := true;
     con_secrets := [];
     autoconnect_retries := 0; autoconnect_retry_time := 900;
     autoconnect_blocked_reason := NM_DEVICE_STATE_REASON_NO_SECRETS |}.

Definition slaves_world : World :=
  scenario idle_policy
    {[ 0%nat := eth0 NM_DEVICE_STATE_PREPARE (Some 5%nat) None ]}
    ∅
    (<[ 7%nat := slave_profile ]> {[ 5%nat := profile 4 0 NM_DEVICE_STATE_REASON_NONE ]})
    [] [5%nat; 7%nat] (Some "office-pc") 1000.

(** The same, with a configuration 8 in the list of the store that has no
    cell. *)
Definition dangling_world : World :=
  scenario idle_policy
    {[ 0%nat := eth0 NM_DEVICE_STATE_PREPARE (Some 5%nat) None ]}
    ∅
    (<[ 7%nat := slave_profile ]> {[ 5%nat := profile 4 0 NM_DEVICE_STATE_REASON_NONE ]})
    [] [7%nat; 8%nat] (Some "office-pc") 1000.

(** A device that has no interface name enters PREPARE. *)
Definition nameless_device : DeviceObj :=
  {| dev_state := NM_DEVICE_STATE_PREPARE; dev_iface := None; dev_ip_iface := "";
     dev_settings_connection := Some 5%nat; dev_act_request := None;
     dev_ip4_config := None; dev_ip6_config := None;
     dev_dhcp4_config := None; dev_dhcp6_config := None;
     dev_enabled := true; dev_autoconnect := true;
     dev_autoconnect_allowed := true; dev_is_software := false;
     dev_pending_actions := [] |}.

Definition nameless_world : World :=
  scenario idle_policy
    {[ 0%nat := nameless_device ]}
    ∅
    {[ 5%nat := profile 4 0 NM_DEVICE_STATE_REASON_NONE ]}
    [] [5%nat] (Some "office-pc") 1000.

(** * Proofs *)

(** ** Generic facts about handlers *)

Section HandlerFacts.

Lemma bind_run {A B} (m : Handler A) (k : A → Handler B) (w : World) :
  bind m k w = match m w with
               | Returned a w' => k a w'
               | Aborted s => Aborted s
               end.
Proof. reflexivity. Qed.
Lemma ret_run {A} (a : A) (w : World) : ret a w = Returned a w.
Proof. reflexivity. Qed.
Lemma gets_run {A} (f : World → A) (w : World) : gets f w = Returned (f w) w.
Proof. reflexivity. Qed.
Lemma modify_run (f : World → World) (w : World) : modify f w = Returned tt (f w).
Proof. reflexivity. Qed.
Lemma emit_run (e : Effect) (w : World) :
  emit e w = Returned tt (with_effects (λ l, l ++ [e]) w).
Proof. reflexivity. Qed.
Lemma when_true_run (m : Handler unit) (w : World) : when true m w = m w.
Proof. reflexivity. Qed.
Lemma when_false_run (m : Handler unit) (w : World) : when false m w = Returned tt w.
Proof. reflexivity. Qed.

Lemma for_each_invariant {A} (P : World → Prop) (l : list A) (body : A → Handler unit) :
  (∀ x w, x ∈ l → P w → ∃ w', body x w = Returned tt w' ∧ P w') →
  ∀ w, P w → ∃ w', for_each l body w = Returned tt w' ∧ P w'.
Proof.
  induction l as [|x l IH]; intros Hbody w HP.
  - exists w. split; [reflexivity | assumption].
  - destruct (Hbody x w) as (w1 & Hx & HP1); [left | assumption |].
    destruct IH with (w := w1) as (w2 & Hl & HP2); [|assumption|].
    + intros y w' Hy. apply Hbody. by right.
    + exists w2. split; [|assumption].
      simpl. unfold bind. by rewrite Hx.
Qed.

Lemma active_with_effects f w a : active (with_effects f w) a = active w a.
Proof. reflexivity. Qed.
Lemma active_with_priv f w a : active (with_priv f w) a = active w a.
Proof. reflexivity. Qed.
Lemma active_with_device_objs f w a : active (with_device_objs f w) a = active w a.
Proof. reflexivity. Qed.
Lemma active_with_connection_objs f w a : active (with_connection_objs f w) a = active w a.
Proof. reflexivity. Qed.
Lemma device_with_effects f w d : device (with_effects f w) d = device w d.
Proof. reflexivity. Qed.
Lemma device_with_priv f w d : device (with_priv f w) d = device w d.
Proof. reflexivity. Qed.
Lemma device_with_active_objs f w d : device (with_active_objs f w) d = device w d.
Proof. reflexivity. Qed.
Lemma device_with_connection_objs f w d : device (with_connection_objs f w) d = device w d.
Proof. reflexivity. Qed.
Lemma connection_with_effects f w c : connection (with_effects f w) c = connection w c.
Proof. reflexivity. Qed.
Lemma connection_with_priv f w c : connection (with_priv f w) c = connection w c.
Proof. reflexivity. Qed.
Lemma connection_with_active_objs f w c : connection (with_active_objs f w) c = connection w c.
Proof. reflexivity. Qed.
Lemma connection_with_device_objs f w c : connection (with_device_objs f w) c = connection w c.
Proof. reflexivity. Qed.


Lemma wrap_guint32_small (z : Z) : 0 ≤ z < 2 ^ 32 → wrap_guint32 z = z.
Proof. intros H. unfold wrap_guint32. by rewrite Z.mod_small. Qed.

Lemma wrap_gint32_small (z : Z) : - 2 ^ 31 ≤ z < 2 ^ 31 → wrap_gint32 z = z.
Proof. intros H. unfold wrap_gint32. rewrite Z.mod_small; lia. Qed.

Lemma for_each_app {A} (l1 l2 : list A) (body : A → Handler unit) (w : World) :
  for_each (l1 ++ l2) body w = (for_each l1 body >> for_each l2 body)%handler w.
Proof.
  revert w. induction l1 as [|x l1 IH]; intros w; simpl.
  - reflexivity.
  - unfold bind in *. destruct (body x w); [apply IH | reflexivity].
Qed.

End HandlerFacts.

(** One step of a handler applied to a world: the outermost [bind] and the
    primitive under it. *)
Ltac hstep :=
  repeat (first [ rewrite bind_run | rewrite ret_run | rewrite gets_run
                | rewrite modify_run | rewrite emit_run
                | rewrite when_true_run | rewrite when_false_run ];
          cbv beta iota).

(** ** The default flag of the active sessions *)

Section DefaultFlag.

Lemma active_alter (f : ActiveObj → ActiveObj) (a b : nat) (w : World) :
  active (with_active_objs (alter f a) w) b =
  if decide (a = b) then
    match active_objs w !! a with Some o => f o | None => null_active end
  else active w b.
Proof.
  unfold active, with_active_objs; simpl.
  rewrite lookup_alter. destruct (decide (a = b)) as [->|Hne]; [|done].
  by destruct (active_objs w !! b).
Qed.

Lemma get_default_after_set (fam : Family) (a b : nat) (v : bool) (w : World) :
  nm_active_connection_get_default_for fam
    (with_active_objs (alter (set_default_flag fam v) a) w) b =
  if decide (a = b) then
    match active_objs w !! a with Some _ => v | None => false end
  else nm_active_connection_get_default_for fam w b.
Proof.
  unfold nm_active_connection_get_default_for.
  rewrite active_alter.
  destruct (decide (a = b)); [|done].
  destruct (active_objs w !! a), fam; reflexivity.
Qed.

Lemma get_device_after_set_default (fam : Family) (a b : nat) (v : bool) (w : World) :
  ac_device (active (with_active_objs (alter (set_default_flag fam v) a) w) b) =
  ac_device (active w b).
Proof.
  rewrite active_alter. destruct (decide (a = b)) as [->|]; [|done].
  unfold active. by destruct (active_objs w !! b).
Qed.

(** The clearing loop of [update_default_ac] over any part [l] of the
    list: the sessions of [l] other than [best] lose the flag, every other
    flag stays. *)
Lemma clearing_loop (fam : Family) (best : option nat) (l : list nat) (w : World) :
  ∃ w',
    for_each l (λ a, when (bool_decide (Some a ≠ best))
                          (nm_active_connection_set_default_for fam a false)) w
      = Returned tt w'
    ∧ priv w' = priv w
    ∧ manager_active_connections w' = manager_active_connections w
    ∧ effects w' = effects w
    ∧ device_objs w' = device_objs w
    ∧ connection_objs w' = connection_objs w
    ∧ (∀ b, ac_device (active w' b) = ac_device (active w b))
    ∧ (∀ b, nm_active_connection_get_default_for fam w' b =
            if bool_decide (b ∈ l ∧ Some b ≠ best) then false
            else nm_active_connection_get_default_for fam w b).
Proof.
  revert w. induction l as [|a l IH]; intros w.
  - exists w. split_and!; reflexivity.
  - simpl. unfold bind.
    destruct (bool_decide (Some a ≠ best)) eqn:Hab; simpl.
    + change (nm_active_connection_set_default_for fam a false w)
        with (Returned tt (with_active_objs (alter (set_default_flag fam false) a) w)).
      destruct (IH (with_active_objs (alter (set_default_flag fam false) a) w))
        as (w' & Hrun & Hp & Hm & He & Hd & Hc & Hdev & Hflag).
      exists w'. rewrite Hrun. split_and!; try assumption.
      * reflexivity.
      * intros b. rewrite Hdev. apply get_device_after_set_default.
      * intros b. rewrite Hflag, get_default_after_set.
        apply bool_decide_eq_true in Hab.
        destruct (decide (a = b)) as [->|Hne].
        -- rewrite (bool_decide_eq_true_2 (b ∈ b :: l ∧ Some b ≠ best)) by (split; [left|done]).
           destruct (bool_decide _); [done|]. by destruct (active_objs w !! b).
        -- rewrite (bool_decide_ext (b ∈ a :: l ∧ Some b ≠ best) (b ∈ l ∧ Some b ≠ best));
             [done|]. rewrite elem_of_cons.
           split; intros [Hin Hb]; (split; [|done]).
           ++ destruct Hin as [Heq|Hin]; [congruence|done].
           ++ by right.
    + unfold ret.
      destruct (IH w) as (w' & Hrun & Hp & Hm & He & Hd & Hc & Hdev & Hflag).
      exists w'. rewrite Hrun. split_and!; try assumption; [reflexivity|].
      intros b. rewrite Hflag.
      apply bool_decide_eq_false in Hab.
      assert (Heq : Some a = best) by (destruct (decide (Some a = best)); [done|contradiction]).
      destruct (bool_decide (b ∈ l ∧ Some b ≠ best)) eqn:H1;
        destruct (bool_decide (b ∈ a :: l ∧ Some b ≠ best)) eqn:H2; try done.
      * apply bool_decide_eq_true in H1 as [? ?].
        apply bool_decide_eq_false in H2. exfalso. apply H2. split; [by right | done].
      * apply bool_decide_eq_true in H2 as [Hin Hne].
        apply bool_decide_eq_false in H1. exfalso. apply H1.
        apply elem_of_cons in Hin as [->|Hin]; [congruence | done].
Qed.

(** C2.  [update_default_ac] always returns, and at its end at most one
    active session of the manager's list carries the family's default
    flag, whatever the flags were before.  At every intermediate point of
    the clearing loop (after any number [k] of iterations) the invariant
    still holds if it held at the start, because flags are only cleared
    there; once the loop is over no session other than [best] carries the
    flag, and only then is the flag set on [best]. *)
Theorem update_default_ac_at_most_one_default
    (fam : Family) (best : option nat) (w : World) :
  (∀ k : nat, ∃ wk,
      update_default_ac_after k best (nm_active_connection_set_default_for fam) w
        = Returned tt wk
      ∧ (at_most_one_default fam w → at_most_one_default fam wk)
      ∧ ((length (manager_active_connections w) ≤ k)%nat →
         ∀ a, a ∈ manager_active_connections wk →
              nm_active_connection_get_default_for fam wk a = true → Some a = best))
  ∧ (∃ wn,
      update_default_ac_after (length (manager_active_connections w)) best
        (nm_active_connection_set_default_for fam) w = Returned tt wn
      ∧ update_default_ac best (nm_active_connection_set_default_for fam) w
        = match best with
          | Some b => nm_active_connection_set_default_for fam b true wn
          | None => Returned tt wn
          end)
  ∧ (∃ w',
      update_default_ac best (nm_active_connection_set_default_for fam) w = Returned tt w'
      ∧ at_most_one_default fam w').
Proof.
  split_and!.
  - intros k. unfold update_default_ac_after, bind, gets.
    destruct (clearing_loop fam best (take k (manager_active_connections w)) w)
      as (wk & Hrun & _ & Hm & _ & _ & _ & _ & Hflag).
    exists wk. split_and!; [done| |].
    + intros H1 a b Ha Hb Hfa Hfb. rewrite Hm in Ha, Hb.
      rewrite Hflag in Hfa, Hfb.
      destruct (bool_decide _) in Hfa; [done|].
      destruct (bool_decide _) in Hfb; [done|].
      by apply H1.
    + intros Hk a Ha Hfa. rewrite Hm in Ha. rewrite Hflag in Hfa.
      rewrite take_ge in Hfa by done.
      destruct (decide (Some a = best)) as [|Hne]; [done|].
      by rewrite bool_decide_eq_true_2 in Hfa.
  - unfold update_default_ac_after, update_default_ac, bind, gets.
    rewrite firstn_all.
    destruct (clearing_loop fam best (manager_active_connections w) w)
      as (wn & Hrun & _).
    exists wn. rewrite Hrun. split; [done|]. by destruct best.
  - unfold update_default_ac, bind, gets.
    destruct (clearing_loop fam best (manager_active_connections w) w)
      as (wn & Hrun & _ & Hm & _ & _ & _ & _ & Hflag).
    rewrite Hrun.
    assert (Hn : ∀ a, a ∈ manager_active_connections w →
                 nm_active_connection_get_default_for fam wn a = true → Some a = best).
    { intros a Ha Hfa. rewrite Hflag in Hfa.
      destruct (decide (Some a = best)) as [|Hne]; [done|].
      by rewrite bool_decide_eq_true_2 in Hfa. }
    destruct best as [b|].
    + eexists. split; [reflexivity|].
      intros x y Hx Hy Hfx Hfy. simpl in Hx, Hy. rewrite Hm in Hx, Hy.
      rewrite get_default_after_set in Hfx, Hfy.
      destruct (decide (b = x)) as [->|]; destruct (decide (x = y)) as [|Hxy]; try done.
      * destruct (decide (x = y)); [done|].
        specialize (Hn y Hy Hfy). congruence.
      * destruct (decide (b = y)) as [->|].
        -- specialize (Hn x Hx Hfx). congruence.
        -- specialize (Hn x Hx Hfx). congruence.
    + exists wn. split; [reflexivity|].
      intros x y Hx Hy Hfx Hfy. rewrite Hm in Hx, Hy.
      specialize (Hn x Hx Hfx). done.
Qed.

End DefaultFlag.

(** ** Default routes *)

Section Routing.

Context (E : Collaborators).

(** C1, as the code has it.  When the default-route manager reports no
    best configuration for the family, the routing update returns with the
    family's default device slot cleared and with one property-change
    notification recorded exactly when the slot was set before.  Nothing
    else changes: in particular every active session keeps its default
    flags. *)
Theorem update_ip_routing_without_best_config
    (fam : Family) (force_update : bool) (w : World) :
  drm_get_best_config E fam w false = None →
  ∃ w',
    update_ip_routing E fam force_update w = Returned tt w'
    ∧ priv w' = set_default_device fam None (priv w)
    ∧ default_device fam (priv w') = None
    ∧ effects w' =
        effects w ++ (if bool_decide (is_Some (default_device fam (priv w)))
                      then [Notify (PROP_DEFAULT_IP_DEVICE fam)] else [])
    ∧ only_policy_changed w w'
    ∧ (∀ a fam', nm_active_connection_get_default_for fam' w' a
                 = nm_active_connection_get_default_for fam' w a).
Proof.
  intros Hnone.
  unfold update_ip_routing, get_best_ip_config, bind, gets. rewrite Hnone.
  unfold modify, when, _notify, emit, modify, ret.
  destruct (bool_decide (is_Some (default_device fam (priv w)))) eqn:Hc;
    (eexists; split; [reflexivity|]); simpl;
    (split_and!; try reflexivity; try (by destruct fam); try (by rewrite app_nil_r)).
Qed.

(** The loop that attributes device-less VPN sessions to [best] writes
    active sessions only. *)
Lemma attribute_vpn_connections_run (fam : Family) (b : nat) (w : World) :
  ∃ w1,
    attribute_vpn_connections fam b w = Returned tt w1
    ∧ priv w1 = priv w
    ∧ effects w1 = effects w
    ∧ manager_active_connections w1 = manager_active_connections w.
Proof.
  unfold attribute_vpn_connections, bind at 1, gets at 1.
  apply (for_each_invariant
           (λ w1, priv w1 = priv w ∧ effects w1 = effects w
                  ∧ manager_active_connections w1 = manager_active_connections w));
    [|done].
  intros a w1 _ (Hp & He & Hm). unfold bind, gets.
  destruct (_ && _ && _); eexists; (split; [reflexivity|]); done.
Qed.

(** [update_default_ac] returns and leaves the policy's own state and the
    device attribution of every session alone. *)
Lemma update_default_ac_run (fam : Family) (best : option nat) (w : World) :
  ∃ w2,
    update_default_ac best (nm_active_connection_set_default_for fam) w = Returned tt w2
    ∧ priv w2 = priv w
    ∧ effects w2 = effects w
    ∧ device_objs w2 = device_objs w
    ∧ connection_objs w2 = connection_objs w
    ∧ (∀ a, ac_device (active w2 a) = ac_device (active w a)).
Proof.
  unfold update_default_ac, bind, gets.
  destruct (clearing_loop fam best (manager_active_connections w) w)
    as (wn & Hrun & Hp & _ & He & Hd & Hc & Hdev & _).
  rewrite Hrun. destruct best as [b|].
  - eexists. split; [reflexivity|]. simpl. split_and!; try done.
    intros a. rewrite get_device_after_set_default. apply Hdev.
  - by exists wn.
Qed.

(** C3.  Whenever the default-route manager reports a best configuration
    (with its active session, and a best device or a VPN session), the
    routing update returns.  If the best device is null and a VPN session
    is present, the family's default device slot ends as the device the
    VPN session is attributed to.  In general, unless the update stops
    early because it is not forced and the best device already is the
    stored default, the slot ends as the effective default: the VPN
    session's attributed device when a VPN session is present, the best
    device otherwise. *)
Theorem update_ip_routing_effective_default
    (fam : Family) (force_update : bool) (w : World) (bc : BestConfig) :
  drm_get_best_config E fam w false = Some bc →
  is_Some (bc_ac bc) →
  is_Some (bc_device bc) ∨ is_Some (bc_vpn bc) →
  ∃ w',
    update_ip_routing E fam force_update w = Returned tt w'
    ∧ (bc_device bc = None → ∀ v, bc_vpn bc = Some v →
         default_device fam (priv w') = ac_device (active w v)
         ∧ ac_device (active w' v) = ac_device (active w v))
    ∧ (¬ (force_update = false ∧ is_Some (bc_device bc)
           ∧ bc_device bc = default_device fam (priv w)) →
         default_device fam (priv w') =
           match bc_vpn bc with
           | Some v => ac_device (active w' v)
           | None => bc_device bc
           end).
Proof.
  intros Hcfg Hac Hbv.
  unfold update_ip_routing, get_best_ip_config, bind, gets. rewrite Hcfg.
  unfold g_assert. rewrite bool_decide_eq_true_2 by done.
  destruct (negb force_update && bool_decide (is_Some (bc_device bc))
            && bool_decide (bc_device bc = default_device fam (priv w))) eqn:Hearly.
  { exists w. split; [reflexivity|].
    apply andb_prop in Hearly as [Hearly H3]. apply andb_prop in Hearly as [H1 H2].
    apply bool_decide_eq_true in H2, H3. apply negb_true_iff in H1.
    split.
    - intros Hnone. rewrite Hnone in H2. by destruct H2.
    - intros Hnot. exfalso. by apply Hnot. }
  (* the attribution loop *)
  assert (Hloop : ∃ w1,
    match bc_device bc with
    | Some b => attribute_vpn_connections fam b
    | None => ret tt
    end w = Returned tt w1
    ∧ priv w1 = priv w
    ∧ (bc_device bc = None → w1 = w)).
  { destruct (bc_device bc) as [b|].
    - destruct (attribute_vpn_connections_run fam b w) as (w1 & Hrun & Hp & _).
      exists w1. done.
    - exists w. done. }
  destruct Hloop as (w1 & Hrun1 & Hp1 & Hnone1).
  rewrite Hrun1.
  destruct (update_default_ac_run fam (bc_ac bc) w1)
    as (w2 & Hrun2 & Hp2 & _ & _ & _ & Hdev2).
  destruct (bc_vpn bc) as [v|] eqn:Hvpn; unfold ret; rewrite Hrun2, Hp2, Hp1.
  - destruct (bool_decide (ac_device (active w1 v) = default_device fam (priv w))) eqn:Hsame.
    + apply bool_decide_eq_true in Hsame.
      exists w2. split; [reflexivity|]. rewrite Hp2, Hp1, Hdev2, <- Hsame.
      split; [|done].
      intros Hnone v' [= <-]. by rewrite Hdev2, (Hnone1 Hnone).
    + eexists. split; [reflexivity|]. simpl.
      replace (default_device fam
                 (set_default_device fam (ac_device (active w1 v)) (priv w2)))
        with (ac_device (active w1 v)) by (by destruct fam).
      split.
      * intros Hnone v' [= <-].
        rewrite !active_with_effects, !active_with_priv, !Hdev2.
        by rewrite (Hnone1 Hnone).
      * intros _. by rewrite !active_with_effects, !active_with_priv, !Hdev2.
  - destruct (bool_decide (bc_device bc = default_device fam (priv w))) eqn:Hsame.
    + apply bool_decide_eq_true in Hsame.
      exists w2. split; [reflexivity|]. rewrite Hp2, Hp1.
      split; [|done]. intros Hnone v' ?. done.
    + eexists. split; [reflexivity|]. simpl.
      replace (default_device fam (set_default_device fam (bc_device bc) (priv w2)))
        with (bc_device bc) by (by destruct fam).
      split; [|done]. intros Hnone v' ?. done.
Qed.

End Routing.

(** ** The hostname controller *)

Section Hostname.

Context (E : Collaborators).

Lemma only_policy_changed_refl w : only_policy_changed w w.
Proof. by unfold only_policy_changed. Qed.

Lemma only_policy_changed_trans w1 w2 w3 :
  only_policy_changed w1 w2 → only_policy_changed w2 w3 → only_policy_changed w1 w3.
Proof.
  unfold only_policy_changed.
  intros (?&?&?&?&?&?&?&?&?&?) (?&?&?&?&?&?&?&?&?&?). split_and!; congruence.
Qed.

Lemma set_kernel_hostname_run (new_hostname : option string) (msg : string) (w : World) :
  ∃ w' added,
    set_kernel_hostname new_hostname msg w = Returned tt w'
    ∧ only_calls w w' added
    ∧ (∀ n, DnsSetHostname n ∉ added)
    ∧ (kernel_hostname w = Some (effective_hostname new_hostname) →
       ∀ n, SettingsSetTransientHostname n ∉ added)
    ∧ (kernel_hostname w ≠ Some (effective_hostname new_hostname) →
       SettingsSetTransientHostname (effective_hostname new_hostname) ∈ added).
Proof.
  unfold set_kernel_hostname, only_calls.
  destruct new_hostname as [[|c s]|];
    unfold bind, gets, emit, modify, ret; cbn -[String.eqb FALLBACK_HOSTNAME4];
    (destruct (kernel_hostname w) as [old|] eqn:Hold;
     [ destruct (String.eqb _ old) eqn:Heq;
       [ apply String.eqb_eq in Heq; subst old | apply String.eqb_neq in Heq ] | ]);
    eexists; eexists; (split; [reflexivity|]);
    cbn -[String.eqb FALLBACK_HOSTNAME4]; rewrite <- ?app_assoc;
    split_and!; try reflexivity; try (by unfold only_policy_changed);
    try (by rewrite app_nil_r);
    try (intros n Hn;
         repeat (apply elem_of_cons in Hn as [Hn|Hn]; [discriminate|]);
         by apply elem_of_nil in Hn);
    try (intros _ n Hn;
         repeat (apply elem_of_cons in Hn as [Hn|Hn]; [discriminate|]);
         by apply elem_of_nil in Hn);
    try (intros Hkh; congruence);
    try (intros _; set_solver).
Qed.


Lemma skip_leading_spaces_trim (v : string) :
  skip_leading_spaces v = if all_spaces v then None else Some (trim_leading_spaces v).
Proof.
  induction v as [|c r IH]; simpl; [done|].
  by destruct (g_ascii_isspace c).
Qed.

Lemma trim_leading_spaces_spec (v : string) :
  all_spaces v = false →
  ∃ sp c r,
    v = String.append sp (String c r)
    ∧ all_spaces sp = true
    ∧ g_ascii_isspace c = false
    ∧ trim_leading_spaces v = String c r.
Proof.
  induction v as [|c r IH]; simpl; [done|].
  destruct (g_ascii_isspace c) eqn:Hc; simpl.
  - intros Hr. destruct (IH Hr) as (sp & c' & r' & -> & Hsp & Hc' & Htrim).
    exists (String c sp), c', r'. simpl. by rewrite Hc, Hsp.
  - intros _. by exists EmptyString, c, r.
Qed.

Lemma cancel_lookup_run (w : World) :
  cancel_lookup w = Returned tt (after_cancel_lookup w).
Proof.
  unfold cancel_lookup, after_cancel_lookup, bind, gets.
  by destruct (lookup_cancellable (priv w)).
Qed.

Lemma after_cancel_lookup_frame (w : World) :
  only_policy_changed w (after_cancel_lookup w)
  ∧ orig_hostname (priv (after_cancel_lookup w)) = orig_hostname (priv w)
  ∧ cur_hostname (priv (after_cancel_lookup w)) = cur_hostname (priv w)
  ∧ hostname_changed (priv (after_cancel_lookup w)) = hostname_changed (priv w).
Proof. unfold after_cancel_lookup. by destruct (lookup_cancellable (priv w)). Qed.

(** C8, as the code has it.  When no specific hostname is configured and
    the DHCP configuration consulted (DHCPv4 of the best IPv4 device, or
    DHCPv6 of the best IPv6 device when there is no best IPv4 device) has
    a [host_name] value [v]: if [v] is empty or all whitespace the update
    goes on with the startup hostname and then the reverse lookup, having
    logged a warning when [v] is not empty and nothing when it is empty;
    otherwise [v] is applied with its leading whitespace trimmed. *)
Theorem update_system_hostname_dhcp_host_name
    (fam : Family) (best4 best6 : option nat) (w : World)
    (d : nat) (cfg : NMDhcpConfig) (v : string) :
  let w0 := after_cancel_lookup w in
  let r4 := resolved_best_device E AF_INET best4 w0 in
  let r6 := resolved_best_device E AF_INET6 best6 w0 in
  (∀ h, manager_hostname w = Some h → nm_utils_is_specific_hostname E h = false) →
  (fam = AF_INET ∧ r4 = Some d) ∨ (fam = AF_INET6 ∧ r4 = None ∧ r6 = Some d) →
  nm_device_get_dhcp_config fam (device w d) = Some cfg →
  dhcp_host_name cfg = Some v →
  update_system_hostname E best4 best6 w =
    (if all_spaces v then
       hostname_from_startup_or_lookup r4 r6
         (match v with
          | EmptyString => w0
          | String _ _ => with_effects (λ l, l ++ [dhcp_hostname_warning fam v]) w0
          end)
     else
       _set_hostname (Some (trim_leading_spaces v)) (dhcp_hostname_msg fam) w0)
  ∧ (all_spaces v = false →
     ∃ sp c r,
       v = String.append sp (String c r)
       ∧ all_spaces sp = true
       ∧ g_ascii_isspace c = false
       ∧ trim_leading_spaces v = String c r).
Proof.
  intros w0 r4 r6 Hconf Hbest Hcfg Hv.
  split; [|apply trim_leading_spaces_spec].
  destruct (after_cancel_lookup_frame w) as ((Hdev & _ & _ & _ & _ & _ & Hmh & _) & _).
  fold w0 in Hdev, Hmh.
  assert (Hcfg0 : nm_device_get_dhcp_config fam (device w0 d) = Some cfg).
  { unfold device. rewrite Hdev. exact Hcfg. }
  assert (Hauto :
    (let! best4 := match best4 with
                   | Some d => ret (Some d)
                   | None => get_best_ip4_device E true
                   end in
     let! best6 := match best6 with
                   | Some d => ret (Some d)
                   | None => get_best_ip6_device E true
                   end in
     hostname_from_devices best4 best6) w0 = hostname_from_devices r4 r6 w0).
  { unfold bind, r4, r6, resolved_best_device.
    destruct best4, best6; reflexivity. }
  assert (Hupd : update_system_hostname E best4 best6 w = hostname_from_devices r4 r6 w0).
  { unfold update_system_hostname. unfold bind at 1. rewrite cancel_lookup_run. fold w0.
    unfold bind at 1, gets at 1. rewrite Hmh.
    destruct (manager_hostname w) as [h|]; [rewrite (Hconf h eq_refl)|]; exact Hauto. }
  rewrite Hupd.
  assert (Hdhcp : dhcp_hostname_of fam d w0 =
    if all_spaces v then
      Returned None (match v with
                     | EmptyString => w0
                     | String _ _ =>
                         with_effects (λ l, l ++ [dhcp_hostname_warning fam v]) w0
                     end)
    else Returned (Some (trim_leading_spaces v)) w0).
  { unfold dhcp_hostname_of, bind, gets. rewrite Hcfg0, Hv, skip_leading_spaces_trim.
    destruct v as [|c r]; [reflexivity|].
    change (0 <? String.length (String c r))%nat with true. cbv iota.
    by destruct (all_spaces (String c r)). }
  unfold hostname_from_devices.
  destruct Hbest as [(-> & H4) | (-> & H4 & H6)].
  - rewrite H4. unfold bind. rewrite Hdhcp. by destruct (all_spaces v).
  - rewrite H4, H6. unfold bind. rewrite Hdhcp. by destruct (all_spaces v).
Qed.

End Hostname.

(** ** The device state-machine observer *)

Section DeviceStateChanged.

Context (E : Collaborators).

Lemma set_activating_device_same (p : NMPolicyPrivate) :
  set_activating_device AF_INET6 (activating_device6 p)
    (set_activating_device AF_INET (activating_device4 p) p) = p.
Proof. by destruct p. Qed.

(** [check_activating_devices] rewrites the two activating slots and tells
    the listeners of the ones that changed; that is all it does. *)
Lemma check_activating_devices_run (w : World) :
  ∃ w' a4 a6 notes,
    check_activating_devices E w = Returned tt w'
    ∧ priv w' = set_activating_device AF_INET6 a6
                  (set_activating_device AF_INET a4 (priv w))
    ∧ only_policy_changed w w'
    ∧ effects w' = effects w ++ notes
    ∧ (∀ e, e ∈ notes →
         e = Notify PROP_ACTIVATING_IP4_DEVICE ∨ e = Notify PROP_ACTIVATING_IP6_DEVICE).
Proof.
  unfold check_activating_devices, get_best_ip4_device, get_best_ip6_device,
    get_best_ip_device, bind, gets, when, _notify, emit, modify, ret.
  set (b4 := drm_get_best_device E AF_INET w false _).
  set (b6 := drm_get_best_device E AF_INET6 w false _).
  destruct (bool_decide (b4 ≠ activating_device4 (priv w))) eqn:H4; simpl;
    destruct (bool_decide (b6 ≠ activating_device6 (priv w))) eqn:H6; simpl.
  - eexists _, b4, b6, _. split; [reflexivity|]. simpl.
    split_and!; [done| by unfold only_policy_changed | by rewrite <- app_assoc |].
    intros e He. elem_cases He; auto.
  - apply bool_decide_eq_false in H6. apply dec_stable in H6.
    eexists _, b4, (activating_device6 (priv w)), _. split; [reflexivity|]. simpl.
    split_and!; [by destruct (priv w) | by unfold only_policy_changed | done |].
    intros e He. elem_cases He; auto.
  - apply bool_decide_eq_false in H4. apply dec_stable in H4.
    eexists _, (activating_device4 (priv w)), b6, _. split; [reflexivity|]. simpl.
    split_and!; [by destruct (priv w) | by unfold only_policy_changed | done |].
    intros e He. elem_cases He; auto.
  - eexists _, (activating_device4 (priv w)), (activating_device6 (priv w)), [].
    split; [reflexivity|].
    split_and!; [by rewrite set_activating_device_same
                | apply only_policy_changed_refl | by rewrite app_nil_r |].
    intros e He. elem_cases He; auto.
Qed.

(** C9.  When a device enters SECONDARIES and has no settings connection,
    or its settings connection lists no secondary UUID, the handler
    returns having queued the device to ACTIVATED with reason NONE.  No
    wait record is created, the default devices and the hostname state
    are untouched, no object of a collaborator is written and the only
    other calls are the notifications of [check_activating_devices], so
    that the routing and DNS update did not run. *)
Theorem device_state_changed_secondaries_none
    (d : nat) (old_state : NMDeviceState) (reason : NMDeviceStateReason) (w : World) :
  (dev_settings_connection (device w d) = None
   ∨ ∃ c, dev_settings_connection (device w d) = Some c
          ∧ con_secondaries (connection w c) = []) →
  ∃ w' a4 a6 notes,
    device_state_changed E d NM_DEVICE_STATE_SECONDARIES old_state reason w
      = Returned tt w'
    ∧ effects w' =
        effects w
          ++ DeviceQueueState d NM_DEVICE_STATE_ACTIVATED NM_DEVICE_STATE_REASON_NONE
          :: notes
    ∧ (∀ e, e ∈ notes →
         e = Notify PROP_ACTIVATING_IP4_DEVICE ∨ e = Notify PROP_ACTIVATING_IP6_DEVICE)
    ∧ (∀ e, e ∈ DeviceQueueState d NM_DEVICE_STATE_ACTIVATED NM_DEVICE_STATE_REASON_NONE
                  :: notes → is_dns_effect e = false)
    ∧ priv w' = set_activating_device AF_INET6 a6
                  (set_activating_device AF_INET a4 (priv w))
    ∧ pending_secondaries (priv w') = pending_secondaries (priv w)
    ∧ default_device4 (priv w') = default_device4 (priv w)
    ∧ default_device6 (priv w') = default_device6 (priv w)
    ∧ cur_hostname (priv w') = cur_hostname (priv w)
    ∧ only_policy_changed w w'.
Proof.
  intros Hcon.
  set (w1 := with_effects
               (λ l, l ++ [DeviceQueueState d NM_DEVICE_STATE_ACTIVATED
                             NM_DEVICE_STATE_REASON_NONE]) w).
  assert (Hbranch :
    device_state_changed_secondaries E d (dev_settings_connection (device w d)) w
      = Returned tt w1).
  { unfold device_state_changed_secondaries, bind, gets.
    destruct Hcon as [-> | (c & -> & Hsec)]; [reflexivity|].
    by rewrite Hsec. }
  unfold device_state_changed. unfold bind at 1, gets at 1.
  unfold bind at 1, gets at 1. unfold bind at 1. rewrite Hbranch.
  destruct (check_activating_devices_run w1)
    as (w' & a4 & a6 & notes & Hrun & Hp & Hopc & He & Hnotes).
  exists w', a4, a6, notes. rewrite Hrun.
  split_and!; try done.
  - rewrite He. unfold w1. simpl. by rewrite <- app_assoc.
  - intros e He'. apply elem_of_cons in He' as [->|He']; [done|].
    by destruct (Hnotes e He') as [-> | ->].
  - by rewrite Hp.
  - by rewrite Hp.
  - by rewrite Hp.
  - by rewrite Hp.
Qed.

(** The FAILED case on a known configuration [c] whose cell is [o]: the
    cell [o'] it leaves and the timer it arms. *)
Lemma device_state_changed_failed_run
    (c : nat) (reason : NMDeviceStateReason) (w : World) (o : ConnectionObj) :
  connection_objs w !! c = Some o →
  0 ≤ autoconnect_retries o < 2 ^ 31 →
  0 ≤ monotonic_timestamp_s w < 2 ^ 31 →
  0 ≤ autoconnect_retry_time o < 2 ^ 31 →
  0 ≤ autoconnect_retry_deadline E (monotonic_timestamp_s w) (autoconnect_retries o - 1)
    < 2 ^ 31 →
  ∃ w' o' added,
    device_state_changed_failed E c reason w = Returned tt w'
    ∧ connection_objs w' = <[c := o']> (connection_objs w)
    ∧ device_objs w' = device_objs w ∧ active_objs w' = active_objs w
    ∧ manager_devices w' = manager_devices w
    ∧ manager_active_connections w' = manager_active_connections w
    ∧ manager_asleep w' = manager_asleep w
    ∧ manager_hostname w' = manager_hostname w
    ∧ settings_connections_sorted w' = settings_connections_sorted w
    ∧ kernel_hostname w' = kernel_hostname w
    ∧ monotonic_timestamp_s w' = monotonic_timestamp_s w
    ∧ effects w' = effects w ++ added
    ∧ con_secrets o' = []
    ∧ autoconnect_blocked_reason o' =
        (if bool_decide (reason = NM_DEVICE_STATE_REASON_NO_SECRETS)
         then NM_DEVICE_STATE_REASON_NO_SECRETS else autoconnect_blocked_reason o)
    ∧ autoconnect_retries o' =
        (if bool_decide (reason = NM_DEVICE_STATE_REASON_NO_SECRETS)
         then autoconnect_retries o
         else if 0 <? autoconnect_retries o then autoconnect_retries o - 1
              else autoconnect_retries o)
    ∧ priv w' =
        (if (autoconnect_retries o' =? 0)
            && negb (bool_decide (is_Some (reset_retries_id (priv w))))
         then set_reset_retries_id
                (Some (Z.max 0 (autoconnect_retry_time o' - monotonic_timestamp_s w)))
                (priv w)
         else priv w)
    ∧ ((autoconnect_retries o' =? 0)
         && negb (bool_decide (is_Some (reset_retries_id (priv w)))) = true →
       GTimeoutAddSeconds
         (Z.max 0 (autoconnect_retry_time o' - monotonic_timestamp_s w))
         "reset_connections_retries" ∈ added)
    ∧ timer_calls added =
        (if (autoconnect_retries o' =? 0)
            && negb (bool_decide (is_Some (reset_retries_id (priv w))))
         then [(Z.max 0 (autoconnect_retry_time o' - monotonic_timestamp_s w),
                "reset_connections_retries")]
         else []).
Proof.
  intros Hc Hr Hnow Hrt Hdl.
  assert (Hco : connection w c = o) by (unfold connection; by rewrite Hc).
  assert (Hins : ∀ (g : ConnectionObj → ConnectionObj) (m : gmap nat ConnectionObj),
            m !! c = Some o → alter g c m = <[c := g o]> m).
  { intros g m Hm. apply map_eq. intros i. rewrite lookup_alter, lookup_insert.
    destruct (decide (c = i)) as [->|]; [by rewrite Hm | done]. }
  unfold device_state_changed_failed,
    nm_settings_connection_get_autoconnect_retries,
    nm_settings_connection_get_autoconnect_retry_time,
    nm_settings_connection_set_autoconnect_blocked_reason,
    nm_settings_connection_set_autoconnect_retries,
    nm_connection_clear_secrets, nm_utils_get_monotonic_timestamp_s.
  hstep. rewrite Hco, wrap_guint32_small by lia.
  (* the branch on the reason *)
  set (f := if bool_decide (reason = NM_DEVICE_STATE_REASON_NO_SECRETS)
            then set_blocked_reason NM_DEVICE_STATE_REASON_NO_SECRETS
            else if 0 <? autoconnect_retries o
                 then set_retries (autoconnect_retries o - 1)
                        (autoconnect_retry_deadline E (monotonic_timestamp_s w)
                           (autoconnect_retries o - 1))
                 else λ x, x).
  assert (Hfr : autoconnect_retries (f o) =
                if bool_decide (reason = NM_DEVICE_STATE_REASON_NO_SECRETS)
                then autoconnect_retries o
                else if 0 <? autoconnect_retries o then autoconnect_retries o - 1
                     else autoconnect_retries o).
  { unfold f. destruct (bool_decide _); [done|]. by destruct (0 <? _). }
  assert (Hfb : autoconnect_blocked_reason (f o) =
                if bool_decide (reason = NM_DEVICE_STATE_REASON_NO_SECRETS)
                then NM_DEVICE_STATE_REASON_NO_SECRETS else autoconnect_blocked_reason o).
  { unfold f. destruct (bool_decide _); [done|]. by destruct (0 <? _). }
  assert (Hft : 0 ≤ autoconnect_retry_time (f o) < 2 ^ 31).
  { unfold f. destruct (bool_decide _); [done|]. destruct (0 <? _); [apply Hdl | done]. }
  assert (Hfs : con_secrets (clear_secrets (f o)) = []) by done.
  assert (Hbranch : ∃ w1 added1,
    (if bool_decide (reason = NM_DEVICE_STATE_REASON_NO_SECRETS) then
       (let! w := gets (λ w, w) in
        emit (NMLog LOGL_DEBUG LOGD_DEVICE
                "connection '%s' now blocked from autoconnect due to no secrets"
                [LogStr (Some (nm_settings_connection_get_id w c))])) >>
       modify (with_connection_objs
                 (alter (set_blocked_reason NM_DEVICE_STATE_REASON_NO_SECRETS) c))
     else if 0 <? autoconnect_retries o then
       (let! w := gets (λ w, w) in
        emit (NMLog LOGL_DEBUG LOGD_DEVICE
                "connection '%s' failed to autoconnect; %d tries left"
                [LogStr (Some (nm_settings_connection_get_id w c));
                 LogInt (wrap_gint32 (autoconnect_retries o))])) >>
       modify (λ w, with_connection_objs
                 (alter (set_retries (wrap_gint32 (autoconnect_retries o - 1))
                           (autoconnect_retry_deadline E (monotonic_timestamp_s w)
                              (wrap_gint32 (autoconnect_retries o - 1)))) c) w)
     else ret tt) w = Returned tt w1
    ∧ w1 = with_connection_objs (λ m, <[c := f o]> m)
             (with_effects (λ l, l ++ added1) w)
    ∧ timer_calls added1 = []).
  { unfold f. destruct (bool_decide (reason = NM_DEVICE_STATE_REASON_NO_SECRETS)).
    - hstep. eexists _, [_]. split; [reflexivity|].
      split; [unfold with_connection_objs, with_effects; simpl; by rewrite Hins|].
      reflexivity.
    - destruct (0 <? autoconnect_retries o) eqn:Hpos.
      + apply Z.ltb_lt in Hpos. rewrite (wrap_gint32_small (autoconnect_retries o - 1)) by lia.
        hstep. eexists _, [_]. split; [reflexivity|].
        split; [unfold with_connection_objs, with_effects; simpl; by rewrite Hins|].
        reflexivity.
      + exists w, []. split; [reflexivity|]. split; [|reflexivity].
        unfold with_connection_objs, with_effects; simpl.
        rewrite app_nil_r, insert_id by done. by destruct w. }
  destruct Hbranch as (w1' & added1 & -> & -> & Hno1).
  assert (Htimers : ∀ l, timer_calls (added1 ++ l) = timer_calls l).
  { intros l. unfold timer_calls in *. by rewrite omap_app, Hno1. }
  set (w1 := with_connection_objs (λ m, <[c := f o]> m)
               (with_effects (λ l, l ++ added1) w)).
  assert (Hcw : ∀ w2, connection_objs w2 = connection_objs w1 → connection w2 c = f o).
  { intros w2 H2. unfold connection. rewrite H2. simpl. by rewrite lookup_insert_eq. }
  hstep. rewrite (Hcw w1 eq_refl).
  assert (Hclear : ∀ m : gmap nat ConnectionObj,
            alter clear_secrets c (<[c := f o]> m) = <[c := clear_secrets (f o)]> m).
  { intros m. apply map_eq. intros i. rewrite lookup_alter, !lookup_insert.
    destruct (decide (c = i)); [by rewrite decide_True | done]. }
  assert (Hsimpl : autoconnect_retries (clear_secrets (f o)) = autoconnect_retries (f o)
                   ∧ autoconnect_retry_time (clear_secrets (f o))
                     = autoconnect_retry_time (f o)
                   ∧ autoconnect_blocked_reason (clear_secrets (f o))
                     = autoconnect_blocked_reason (f o)) by done.
  destruct Hsimpl as (Hs1 & Hs2 & Hs3).
  destruct (autoconnect_retries (f o) =? 0) eqn:Hzero; hstep.
  - change (priv (with_effects ?g w1)) with (priv w).
    destruct (bool_decide (is_Some (reset_retries_id (priv w)))) eqn:Harmed;
      cbn [negb]; hstep.
    + eexists _, (clear_secrets (f o)), _. split; [reflexivity|].
      cbn [connection_objs device_objs active_objs manager_devices
             manager_active_connections manager_asleep manager_hostname
             settings_connections_sorted kernel_hostname monotonic_timestamp_s
             effects priv with_effects with_connection_objs with_priv w1].
      rewrite Hclear, <- !app_assoc, Hs1, Hs2, Hs3, Hzero. cbn [andb].
      split_and!; try done.
    + rewrite connection_with_effects, (Hcw w1 eq_refl).
      destruct (autoconnect_retry_time (f o) =? 0) eqn:Hrt0; hstep;
        cbn [monotonic_timestamp_s with_effects with_connection_objs w1];
        rewrite wrap_gint32_small, wrap_guint32_small by lia;
        (eexists _, (clear_secrets (f o)), _; split; [reflexivity|]);
        cbn [connection_objs device_objs active_objs manager_devices
               manager_active_connections manager_asleep manager_hostname
               settings_connections_sorted kernel_hostname monotonic_timestamp_s
               effects priv with_effects with_connection_objs with_priv w1];
        rewrite Hclear, <- !app_assoc, Hs1, Hs2, Hs3, Hzero; cbn [andb];
        (split_and!; try done);
        first [ by rewrite Htimers
              | intros _; cbn [app]; rewrite !elem_of_app, !elem_of_cons; auto 10 ].
  - eexists _, (clear_secrets (f o)), _. split; [reflexivity|].
    cbn [connection_objs device_objs active_objs manager_devices
           manager_active_connections manager_asleep manager_hostname
           settings_connections_sorted kernel_hostname monotonic_timestamp_s
           effects priv with_effects with_connection_objs with_priv w1].
    rewrite Hclear, Hs1, Hs2, Hs3, Hzero. cbn [andb]. split_and!; try done.
Qed.

(** C4.  A device enters FAILED from an old state in PREPARE..ACTIVATED
    with a known configuration [c] (cell [o]; counter and timestamps within
    the non-negative [gint32] range).  The handler returns and leaves the
    cell [o'] with its cached secrets cleared.  With reason NO_SECRETS the
    blocked reason is NO_SECRETS and the counter is unchanged; with any
    other reason the blocked reason is unchanged and the counter is one
    less when it was positive.  When the counter then is zero and no reset
    timer is armed, a timer is armed for [max (0, retry deadline - now)]
    seconds, by the one call of [g_timeout_add_seconds] the handler makes;
    an armed timer is never replaced and a non-zero counter arms nothing,
    and in both cases the handler makes no call of [g_timeout_add_seconds]
    at all. *)
Theorem device_state_changed_failed_retry_ledger
    (d : nat) (old_state : NMDeviceState) (reason : NMDeviceStateReason)
    (w : World) (c : nat) (o : ConnectionObj) :
  dev_settings_connection (device w d) = Some c →
  connection_objs w !! c = Some o →
  device_state_value NM_DEVICE_STATE_PREPARE ≤ device_state_value old_state
    ≤ device_state_value NM_DEVICE_STATE_ACTIVATED →
  0 ≤ autoconnect_retries o < 2 ^ 31 →
  0 ≤ monotonic_timestamp_s w < 2 ^ 31 →
  0 ≤ autoconnect_retry_time o < 2 ^ 31 →
  0 ≤ autoconnect_retry_deadline E (monotonic_timestamp_s w) (autoconnect_retries o - 1)
    < 2 ^ 31 →
  ∃ w' o' added,
    device_state_changed E d NM_DEVICE_STATE_FAILED old_state reason w = Returned tt w'
    ∧ effects w' = effects w ++ added
    ∧ connection_objs w' = <[c := o']> (connection_objs w)
    ∧ con_secrets o' = []
    ∧ (reason = NM_DEVICE_STATE_REASON_NO_SECRETS →
       autoconnect_blocked_reason o' = NM_DEVICE_STATE_REASON_NO_SECRETS
       ∧ autoconnect_retries o' = autoconnect_retries o)
    ∧ (reason ≠ NM_DEVICE_STATE_REASON_NO_SECRETS →
       autoconnect_blocked_reason o' = autoconnect_blocked_reason o
       ∧ autoconnect_retries o' =
           if 0 <? autoconnect_retries o then autoconnect_retries o - 1
           else autoconnect_retries o)
    ∧ (autoconnect_retries o' = 0 → reset_retries_id (priv w) = None →
       reset_retries_id (priv w') =
         Some (Z.max 0 (autoconnect_retry_time o' - monotonic_timestamp_s w))
       ∧ GTimeoutAddSeconds
           (Z.max 0 (autoconnect_retry_time o' - monotonic_timestamp_s w))
           "reset_connections_retries" ∈ effects w'
       ∧ timer_calls added =
           [(Z.max 0 (autoconnect_retry_time o' - monotonic_timestamp_s w),
             "reset_connections_retries")])
    ∧ (autoconnect_retries o' ≠ 0 ∨ is_Some (reset_retries_id (priv w)) →
       reset_retries_id (priv w') = reset_retries_id (priv w)
       ∧ timer_calls added = []).
Proof.
  intros Hd Hc Hold Hr Hnow Hrt Hdl.
  destruct (device_state_changed_failed_run c reason w o Hc Hr Hnow Hrt Hdl)
    as (w1 & o' & added & Hrun & Hco & _ & _ & _ & _ & _ & _ & _ & _ & _ & He
        & Hsec & Hblk & Hret & Hp & Htimer & Htimers).
  destruct (check_activating_devices_run w1)
    as (w' & a4 & a6 & notes & Hrun' & Hp' & Hopc & He' & Hnotes).
  assert (Hall : timer_calls (added ++ notes) = timer_calls added).
  { unfold timer_calls. rewrite omap_app.
    assert (Hnone : omap (λ e, match e with
                               | GTimeoutAddSeconds interval callback =>
                                   Some (interval, callback)
                               | _ => None
                               end) notes = []).
    { clear He'. induction notes as [|e notes IH]; [done|]. cbn [omap list_omap].
      destruct (Hnotes e) as [-> | ->]; [by left | |];
        apply IH; intros e' He'; apply Hnotes; by right. }
    by rewrite Hnone, app_nil_r. }
  exists w', o', (added ++ notes).
  split.
  { unfold device_state_changed. hstep. rewrite Hd.
    replace ((device_state_value NM_DEVICE_STATE_PREPARE <=? device_state_value old_state)
             && (device_state_value old_state
                   <=? device_state_value NM_DEVICE_STATE_ACTIVATED)) with true.
    2:{ symmetry. apply andb_true_iff. split; apply Z.leb_le; lia. }
    hstep. by rewrite Hrun. }
  assert (Hid : reset_retries_id (priv w') = reset_retries_id (priv w1))
    by (by rewrite Hp').
  destruct Hopc as (_ & _ & Hco' & _).
  split_and!.
  - by rewrite He', He, app_assoc.
  - by rewrite Hco'.
  - done.
  - intros ->. by rewrite Hblk, Hret.
  - intros Hne. rewrite Hblk, Hret. by rewrite bool_decide_eq_false_2.
  - intros Hzero Hnone. rewrite Hid, Hp, Hall, Htimers, Hzero, Hnone.
    split; [done|]. split; [|done]. rewrite He', He, !elem_of_app. left. right.
    apply Htimer. by rewrite Hzero, Hnone.
  - intros Hcase. rewrite Hid, Hp, Hall, Htimers.
    destruct Hcase as [Hnz | Harmed].
    + by rewrite (proj2 (Z.eqb_neq _ _) Hnz).
    + rewrite (bool_decide_eq_true_2 _ Harmed). by rewrite andb_false_r.
Qed.

End DeviceStateChanged.

(** ** The reset timer of the retry ledger *)

Section ResetTimer.

Context (E : Collaborators).



End ResetTimer.

(** ** Removed and hidden configurations *)

Section SettingsEvents.

Context (E : Collaborators).

Lemma same_but_effects_refl w : same_but_effects w w.
Proof. split; [done | apply only_policy_changed_refl]. Qed.

Lemma same_but_effects_with_effects f w w2 :
  same_but_effects w w2 → same_but_effects w (with_effects f w2).
Proof. intros [Hp Ho]. split; [done|]. exact Ho. Qed.

Lemma active_same_but_effects w w2 a : same_but_effects w w2 → active w2 a = active w a.
Proof. intros (_ & _ & Ha & _). unfold active. by rewrite Ha. Qed.

Lemma connection_same_but_effects w w2 c :
  same_but_effects w w2 → connection w2 c = connection w c.
Proof. intros (_ & _ & _ & Hc & _). unfold connection. by rewrite Hc. Qed.

Lemma nm_manager_deactivate_connection_run (path : string)
    (r : NMDeviceStateReason) (w : World) :
  nm_manager_deactivate_connection E path r w =
  Returned (nm_manager_deactivate_connection_result E w path)
           (with_effects (λ l, l ++ [ManagerDeactivateConnection path r]) w).
Proof. reflexivity. Qed.

Lemma deactivate_walk (con : nat) (w : World) (l : list nat) :
  ∀ w1, same_but_effects w w1 →
  ∃ w' chunks,
    for_each l (λ ac,
      let! o := gets (λ w, active w ac) in
      let state := ac_state o in
      when (bool_decide (ac_settings_connection o = Some con)
            && (active_connection_state_value state
                  <=? active_connection_state_value NM_ACTIVE_CONNECTION_STATE_ACTIVATED))
           (let! ok := nm_manager_deactivate_connection E (ac_path o)
                         NM_DEVICE_STATE_REASON_CONNECTION_REMOVED in
            when (negb ok)
                 (let! w := gets (λ w, w) in
                  emit (NMLog LOGL_WARN LOGD_DEVICE
                          "connection '%s' disappeared, but error deactivating it: (%d) %s"
                          [LogStr (Some (nm_settings_connection_get_id w con))])))) w1
      = Returned tt w'
    ∧ same_but_effects w w'
    ∧ effects w' = effects w1 ++ concat chunks
    ∧ Forall2 (deactivation_calls E w con) (filter (λ a, deactivation_target w con a = true) l)
              chunks.
Proof.
  induction l as [|a l IH]; intros w1 Hs.
  - exists w1, []. split; [reflexivity|]. split_and!; [done | by rewrite app_nil_r |].
    constructor.
  - cbn [for_each]. hstep. rewrite (active_same_but_effects w w1 a Hs).
    rewrite filter_cons. fold (deactivation_target w con a).
    destruct (deactivation_target w con a) eqn:Htarget.
    + rewrite decide_True by done. hstep.
      rewrite nm_manager_deactivate_connection_run. cbv beta iota.
      set (ok := nm_manager_deactivate_connection_result E w1 (ac_path (active w a))).
      set (w2 := with_effects _ w1).
      assert (Hs2 : same_but_effects w w2) by (by apply same_but_effects_with_effects).
      destruct ok eqn:Hok; cbn [negb]; hstep.
      * destruct (IH w2 Hs2) as (w' & chunks & Hrun & Hs' & He & Hall).
        exists w', ([ManagerDeactivateConnection (ac_path (active w a))
                      NM_DEVICE_STATE_REASON_CONNECTION_REMOVED] :: chunks).
        split; [exact Hrun|]. split_and!; [done | |].
        -- rewrite He. unfold w2. simpl. by rewrite <- app_assoc.
        -- constructor; [|done]. exists w1. split; [done|]. fold ok. by rewrite Hok.
      * set (w3 := with_effects _ w2).
        assert (Hs3 : same_but_effects w w3) by (by apply same_but_effects_with_effects).
        destruct (IH w3 Hs3) as (w' & chunks & Hrun & Hs' & He & Hall).
        exists w', ([ManagerDeactivateConnection (ac_path (active w a))
                       NM_DEVICE_STATE_REASON_CONNECTION_REMOVED;
                     deactivation_failed_warning w con] :: chunks).
        split; [exact Hrun|]. split_and!; [done | |].
        -- rewrite He. unfold w3, w2. simpl. rewrite <- !app_assoc. simpl.
           unfold deactivation_failed_warning, nm_settings_connection_get_id.
           by rewrite connection_with_effects, (connection_same_but_effects w w1 con Hs).
        -- constructor; [|done]. exists w1. split; [done|]. fold ok. by rewrite Hok.
    + rewrite decide_False by done. hstep.
      destruct (IH w1 Hs) as (w' & chunks & Hrun & Hs' & He & Hall).
      exists w', chunks. split; [exact Hrun|]. done.
Qed.

Lemma schedule_activate_all_run (w : World) :
  ∃ w' added,
    schedule_activate_all w = Returned tt w'
    ∧ only_policy_changed w w'
    ∧ effects w' = effects w ++ added
    ∧ priv w' = set_schedule_activate_all_id true (priv w)
    ∧ GIdleAdd "schedule_activate_all_cb" ∈ added
    ∧ (∀ e, e ∈ added →
         e = GIdleAdd "schedule_activate_all_cb"
         ∨ e = GSourceRemove "schedule_activate_all_cb").
Proof.
  unfold schedule_activate_all. hstep.
  destruct (schedule_activate_all_id (priv w)) eqn:Hid; hstep;
    eexists _, _; (split; [reflexivity|]); simpl; rewrite <- ?app_assoc;
    (split_and!;
     [ by unfold only_policy_changed | reflexivity | by destruct (priv w)
     | cbn [app]; rewrite !elem_of_cons; auto 10
     | cbn [app]; intros e He; elem_cases He; auto ]).
Qed.

(** C10.  When a configuration [con] is removed, or its visibility changes
    and it is not visible, the handler returns having asked the manager,
    in list order, to deactivate with reason CONNECTION_REMOVED every
    active session whose settings configuration is [con] and whose state
    is at most ACTIVATED, and no other session: the calls recorded are, per
    target, the request followed by a warning when the manager reports a
    failure, so that a failure never ends the walk.  Nothing but the call
    record changes.  When the visibility changes and [con] is visible, the
    handler instead schedules the activate-all re-scan and asks for no
    deactivation. *)
Theorem connection_removed_or_hidden (con : nat) (w : World) :
  let targets :=
    filter (λ a, deactivation_target w con a = true) (manager_active_connections w) in
  (∃ w' chunks,
      connection_removed E con w = Returned tt w'
      ∧ same_but_effects w w'
      ∧ effects w' = effects w ++ concat chunks
      ∧ Forall2 (deactivation_calls E w con) targets chunks)
  ∧ (con_visible (connection w con) = false →
     connection_visibility_changed E con w = connection_removed E con w)
  ∧ (con_visible (connection w con) = true →
     ∃ w' added,
       connection_visibility_changed E con w = Returned tt w'
       ∧ only_policy_changed w w'
       ∧ effects w' = effects w ++ added
       ∧ schedule_activate_all_id (priv w') = true
       ∧ GIdleAdd "schedule_activate_all_cb" ∈ added
       ∧ (∀ p r, ManagerDeactivateConnection p r ∉ added)).
Proof.
  intros targets. split_and!.
  - destruct (deactivate_walk con w (manager_active_connections w) w
                (same_but_effects_refl w))
      as (w' & chunks & Hrun & Hs & He & Hall).
    exists w', chunks. split; [exact Hrun|]. done.
  - intros Hvis. unfold connection_visibility_changed, connection_removed.
    hstep. by rewrite Hvis.
  - intros Hvis. unfold connection_visibility_changed. hstep. rewrite Hvis.
    destruct (schedule_activate_all_run w) as (w' & added & Hrun & Ho & He & Hp & Hin & Hall).
    exists w', added. split_and!; try done.
    + by rewrite Hp.
    + intros p r Hin'. by destruct (Hall _ Hin').
Qed.

End SettingsEvents.

(** ** Secondary connections *)

Section Secondaries.

Lemma same_sessions_and_settings_refl w : same_sessions_and_settings w w.
Proof. by unfold same_sessions_and_settings. Qed.

Lemma same_sessions_and_settings_trans w1 w2 w3 :
  same_sessions_and_settings w1 w2 → same_sessions_and_settings w2 w3 →
  same_sessions_and_settings w1 w3.
Proof.
  unfold same_sessions_and_settings.
  intros (?&?&?&?&?&?&?&?&?) (?&?&?&?&?&?&?&?&?). split_and!; congruence.
Qed.

Lemma device_transitions_app (l1 l2 : list Effect) :
  device_transitions (l1 ++ l2) = device_transitions l1 ++ device_transitions l2.
Proof. unfold device_transitions. apply omap_app. Qed.

Lemma g_slist_remove_first (act : nat) (pre visit : list nat) :
  act ∉ pre → g_slist_remove (pre ++ act :: visit) act = pre ++ visit.
Proof.
  induction pre as [|x pre IH]; intros Hpre; simpl.
  - by rewrite decide_True.
  - apply not_elem_of_cons in Hpre as [Hne Hpre].
    rewrite decide_False by done. by rewrite IH.
Qed.

Lemma nm_device_state_changed_run (d : nat) (s : NMDeviceState)
    (r : NMDeviceStateReason) (w : World) :
  nm_device_state_changed d s r w =
  Returned tt (with_effects (λ l, l ++ [DeviceStateChanged d s r])
                 (with_device_objs (alter (set_dev_state s) d) w)).
Proof. reflexivity. Qed.

(** The state transition at the end of a record, for both outcomes. *)
Lemma transition_run (connected removed : bool) (d : nat) (w : World) :
  let st := dev_state (device w d) in
  let tr := transition_from connected removed st in
  ∃ added,
    (match tr with
     | Some (s, r) => nm_device_state_changed d s r
     | None => ret tt
     end) w
    = Returned tt (with_effects (λ l, l ++ added)
                     (with_device_objs (device_objs_after tr d) w))
    ∧ device_transitions added = transitions_of tr d.
Proof.
  intros st tr. destruct tr as [[s r]|].
  - exists [DeviceStateChanged d s r]. split; [|done].
    by rewrite nm_device_state_changed_run.
  - exists []. split; [|done]. unfold ret, with_effects, with_device_objs. simpl.
    rewrite app_nil_r. by destruct w.
Qed.

Lemma process_secondaries_record_run (act : nat) (connected : bool)
    (kept next : list PendingSecondaryData) (dev : nat) :
  ∀ (visit pre current : list nat) (w : World),
    act ∉ pre → current = pre ++ visit →
    let st := dev_state (device w dev) in
    let final := pre ++ filter (λ a, a ≠ act) visit in
    let removed := negb connected || bool_decide (final = []) in
    let tr := transition_from connected (bool_decide (final = [])) st in
    ∃ r w' added,
      process_secondaries_record act connected kept next dev visit current w
        = Returned r w'
      ∧ effects w' = effects w ++ added
      ∧ same_sessions_and_settings w w'
      ∧ (act ∉ visit →
         r = Some {| psd_device := dev; psd_secondaries := current |} ∧ w' = w)
      ∧ (act ∈ visit →
         r = (if removed then None
              else Some {| psd_device := dev; psd_secondaries := final |})
         ∧ priv w' =
             set_pending_secondaries
               (if removed then kept ++ next
                else kept ++ {| psd_device := dev; psd_secondaries := final |} :: next)
               (priv w)
         ∧ device_objs w' = device_objs_after tr dev (device_objs w)
         ∧ device_transitions added = transitions_of tr dev).
Proof.
  induction visit as [|x visit IH]; intros pre current w Hpre Hcur st final removed tr.
  - exists (Some {| psd_device := dev; psd_secondaries := current |}), w, [].
    split; [reflexivity|]. split_and!.
    + by rewrite app_nil_r.
    + apply same_sessions_and_settings_refl.
    + done.
    + intros Hin. by apply elem_of_nil in Hin.
  - cbn [process_secondaries_record].
    destruct (bool_decide (act ≠ x)) eqn:Hne.
    + (* another session: go on *)
      apply bool_decide_eq_true in Hne.
      destruct (IH (pre ++ [x]) current w) as (r & w' & added & Hrun & He & Hs & Hno & Hyes).
      { rewrite elem_of_app, list_elem_of_singleton. intros [?|?]; [done|congruence]. }
      { by rewrite <- app_assoc. }
      exists r, w', added. split; [exact Hrun|]. split_and!; try done.
      * intros Hnotin. apply Hno. intros Hin. apply Hnotin. by right.
      * intros Hin. apply elem_of_cons in Hin as [->|Hin]; [done|].
        specialize (Hyes Hin).
        assert (Hfinal : (pre ++ [x]) ++ filter (λ a, a ≠ act) visit = final).
        { unfold final. rewrite filter_cons, decide_True by congruence.
          by rewrite <- app_assoc. }
        rewrite Hfinal in Hyes. exact Hyes.
    + (* the session itself *)
      apply bool_decide_eq_false in Hne. apply dec_stable in Hne. subst x.
      assert (Hfinal : final = pre ++ filter (λ a, a ≠ act) visit).
      { unfold final. by rewrite filter_cons, decide_False by (intros H; by apply H). }
      destruct connected.
      * (* ACTIVATED *)
        hstep. rewrite Hcur, g_slist_remove_first by done.
        set (w1 := with_priv _ (with_effects _ w)).
        destruct (pre ++ visit) as [|y rest] eqn:Hrest.
        -- (* the list is empty now *)
           apply app_eq_nil in Hrest as [-> ->].
           hstep.
           change (dev_state (device (with_priv _ w1) dev)) with st.
           destruct (transition_run true true dev
                       (with_priv (set_pending_secondaries (kept ++ next)) w1))
             as (added & Hrun & Htr).
           change (dev_state (device (with_priv _ w1) dev)) with st in Hrun, Htr.
           assert (Hwhen :
             when (bool_decide (st = NM_DEVICE_STATE_SECONDARIES))
                  (nm_device_state_changed dev NM_DEVICE_STATE_ACTIVATED
                     NM_DEVICE_STATE_REASON_NONE)
             = match transition_from true true st with
               | Some (s, r) => nm_device_state_changed dev s r
               | None => ret tt
               end).
           { unfold transition_from. cbn [andb].
             by destruct (bool_decide (st = NM_DEVICE_STATE_SECONDARIES)). }
           rewrite Hwhen, Hrun. hstep.
           eexists None, _, _. split; [reflexivity|]. split_and!.
           ++ simpl. rewrite <- app_assoc. reflexivity.
           ++ by unfold same_sessions_and_settings.
           ++ intros Hnotin. exfalso. apply Hnotin. left.
           ++ intros _. unfold removed, tr. rewrite Hfinal, filter_nil. cbn [app].
              rewrite (bool_decide_eq_true_2 ([] = [])) by done. cbn [negb orb].
              split_and!; [done | done | done |]. exact Htr.
        -- (* sessions remain: go on with the shorter list *)
           rewrite <- Hrest.
           destruct (IH pre (pre ++ visit) w1 Hpre eq_refl)
             as (r & w' & added & Hrun & He & Hs & Hno & Hyes).
           change (dev_state (device w1 dev)) with st in Hyes.
           rewrite <- Hfinal in Hyes.
           eexists r, w', _. split; [exact Hrun|]. split_and!.
           ++ rewrite He. simpl. rewrite <- app_assoc. reflexivity.
           ++ apply same_sessions_and_settings_trans with w1; [|done].
              by unfold same_sessions_and_settings.
           ++ intros Hnotin. exfalso. apply Hnotin. left.
           ++ intros _. destruct (decide (act ∈ visit)) as [Hin|Hnotin].
              ** destruct (Hyes Hin) as (Hr & Hp & Hd & Ht).
                 split_and!; [done | by rewrite Hp | by rewrite Hd |].
                 rewrite device_transitions_app. by rewrite Ht.
              ** destruct (Hno Hnotin) as (Hr & Hw').
                 assert (Hf : filter (λ a, a ≠ act) visit = visit).
                 { clear -Hnotin. induction visit as [|z visit IHv]; [done|].
                   apply not_elem_of_cons in Hnotin as [Hz Hnotin].
                   rewrite filter_cons, decide_True by congruence. by rewrite IHv. }
                 assert (Hfe : final = pre ++ visit) by (by rewrite Hfinal, Hf).
                 unfold removed, tr. rewrite Hfe, Hrest.
                 rewrite (bool_decide_eq_false_2 (y :: rest = [])) by done.
                 cbn [negb orb]. subst w' r.
                 assert (Hnil : added = []).
                 { apply (app_inv_head (effects w1)). by rewrite app_nil_r. }
                 split_and!.
                 --- by rewrite Hrest.
                 --- unfold w1. simpl. by rewrite ?Hrest.
                 --- done.
                 --- by rewrite Hnil.
      * (* DEACTIVATED *)
        hstep.
        set (w1 := with_priv _ (with_effects _ w)).
        change (dev_state (device w1 dev)) with st.
        destruct (transition_run false true dev w1) as (added & Hrun & Htr).
        change (dev_state (device w1 dev)) with st in Hrun, Htr.
        assert (Hwhen :
          when (bool_decide (st = NM_DEVICE_STATE_SECONDARIES)
                || bool_decide (st = NM_DEVICE_STATE_ACTIVATED))
               (nm_device_state_changed dev NM_DEVICE_STATE_FAILED
                  NM_DEVICE_STATE_REASON_SECONDARY_CONNECTION_FAILED)
          = match transition_from false true st with
            | Some (s, r) => nm_device_state_changed dev s r
            | None => ret tt
            end).
        { unfold transition_from.
          by destruct (bool_decide (st = NM_DEVICE_STATE_SECONDARIES)
                       || bool_decide (st = NM_DEVICE_STATE_ACTIVATED)). }
        rewrite Hwhen, Hrun. hstep.
        eexists None, _, _. split; [reflexivity|]. split_and!.
        -- simpl. rewrite <- app_assoc. reflexivity.
        -- by unfold same_sessions_and_settings.
        -- intros Hnotin. exfalso. apply Hnotin. left.
        -- intros _. unfold removed, tr. cbn [negb orb].
           split_and!; [done | done | done |]. exact Htr.
Qed.

Lemma omap_cons_step {A B} (f : A → option B) (x : A) (l : list A) :
  omap f (x :: l) = match f x with
                    | Some y => y :: omap f l
                    | None => omap f l
                    end.
Proof. reflexivity. Qed.

Lemma set_pending_secondaries_twice l1 l2 p :
  set_pending_secondaries l2 (set_pending_secondaries l1 p) = set_pending_secondaries l2 p.
Proof. reflexivity. Qed.

Lemma set_pending_secondaries_same p :
  set_pending_secondaries (pending_secondaries p) p = p.
Proof. by destruct p. Qed.

Lemma filter_without_notin (act : nat) (l : list nat) :
  act ∉ l → filter (λ a, a ≠ act) l = l.
Proof.
  induction l as [|z l IH]; intros Hnotin; [done|].
  apply not_elem_of_cons in Hnotin as [Hz Hnotin].
  rewrite filter_cons, decide_True by congruence. by rewrite IH.
Qed.

(** The device of a record after its transition, if it had one. *)
Lemma dev_state_after (tr : option (NMDeviceState * NMDeviceStateReason))
    (connected removed : bool) (d : nat) (w w1 : World) :
  tr = transition_from connected removed (dev_state (device w d)) →
  device_objs w1 = device_objs_after tr d (device_objs w) →
  dev_state (device w1 d) =
    match tr with
    | Some (s, _) => s
    | None => dev_state (device w d)
    end.
Proof.
  intros Htr Hobjs. unfold device at 1. rewrite Hobjs.
  destruct tr as [[s r]|]; [|done]. simpl. rewrite lookup_alter_eq.
  unfold device in Htr. destruct (device_objs w !! d) as [o|]; [done|].
  simpl in Htr. unfold transition_from in Htr.
  destruct connected; [by rewrite andb_false_r in Htr | done].
Qed.

Lemma dev_state_other (tr : option (NMDeviceState * NMDeviceStateReason))
    (d d' : nat) (w w1 : World) :
  d ≠ d' →
  device_objs w1 = device_objs_after tr d (device_objs w) →
  device_objs w1 !! d' = device_objs w !! d'.
Proof.
  intros Hne ->. destruct tr as [[s r]|]; [|done]. simpl.
  by rewrite lookup_alter_ne.
Qed.

Lemma secondary_transition_same_state (connected : bool) (act : nat) (w w1 : World)
    (r : PendingSecondaryData) :
  device_objs w1 !! psd_device r = device_objs w !! psd_device r →
  secondary_transition connected act w1 r = secondary_transition connected act w r.
Proof. intros H. unfold secondary_transition, device. by rewrite H. Qed.

Lemma process_secondaries_from_run (act : nat) (connected : bool) :
  ∀ (rest kept : list PendingSecondaryData) (w : World),
    NoDup (psd_device <$> rest) →
    pending_secondaries (priv w) = kept ++ rest →
    ∃ w' added,
      process_secondaries_from act connected kept rest w = Returned tt w'
      ∧ effects w' = effects w ++ added
      ∧ same_sessions_and_settings w w'
      ∧ priv w' =
          set_pending_secondaries (kept ++ omap (record_after connected act) rest) (priv w)
      ∧ device_transitions added = expected_transitions connected act w rest
      ∧ (∀ r, r ∈ rest →
           dev_state (device w' (psd_device r)) =
             match secondary_transition connected act w r with
             | Some (s, _) => s
             | None => dev_state (device w (psd_device r))
             end)
      ∧ (∀ d, d ∉ psd_device <$> rest → device_objs w' !! d = device_objs w !! d)
      ∧ ((∀ r, r ∈ rest → act ∉ psd_secondaries r) → w' = w).
Proof.
  induction rest as [|r next IH]; intros kept w Hnd Hpending.
  - exists w, []. split; [reflexivity|].
    split_and!;
      [ by rewrite app_nil_r
      | apply same_sessions_and_settings_refl
      | simpl; rewrite <- Hpending; by rewrite set_pending_secondaries_same
      | done
      | intros r Hr; by apply elem_of_nil in Hr
      | done
      | done ].
  - rewrite fmap_cons in Hnd. apply NoDup_cons in Hnd as [Hfresh Hnd].
    cbn [process_secondaries_from]. rewrite bind_run.
    destruct (process_secondaries_record_run act connected kept next (psd_device r)
                (psd_secondaries r) [] (psd_secondaries r) w)
      as (res & w1 & added1 & Hrun1 & He1 & Hs1 & Hno & Hyes);
      [by intros H; apply elem_of_nil in H | done |].
    rewrite Hrun1. cbn [app] in Hyes.
    assert (Hother : ∀ w2 r', r' ∈ next →
              device_objs w2 !! psd_device r = device_objs w !! psd_device r ∨ True →
              psd_device r ≠ psd_device r').
    { intros w2 r' Hr' _ Heq. apply Hfresh. rewrite Heq.
      apply list_elem_of_fmap. by exists r'. }
    destruct (decide (act ∈ psd_secondaries r)) as [Hin|Hnotin].
    + (* the record lists the session *)
      destruct (Hyes Hin) as (Hres & Hp1 & Hd1 & Ht1). clear Hno Hyes.
      set (final := filter (λ a, a ≠ act) (psd_secondaries r)) in *.
      set (tr := transition_from connected (bool_decide (final = []))
                   (dev_state (device w (psd_device r)))) in *.
      assert (Htr : secondary_transition connected act w r = tr).
      { unfold secondary_transition. by rewrite bool_decide_eq_true_2. }
      assert (Hnext1 : ∀ r', r' ∈ next →
                device_objs w1 !! psd_device r' = device_objs w !! psd_device r').
      { intros r' Hr'. apply (dev_state_other tr (psd_device r)); [|done].
        by apply (Hother w r'); [|left]. }
      assert (Hexp1 : expected_transitions connected act w1 next
                      = expected_transitions connected act w next).
      { unfold expected_transitions. f_equal. apply map_ext_in. intros r' Hr'.
        apply list_elem_of_In in Hr'.
        by rewrite (secondary_transition_same_state connected act w w1 r' (Hnext1 r' Hr')). }
      assert (Hkey : ∃ kept' : list PendingSecondaryData,
                res = (if negb connected || bool_decide (final = []) then None
                       else Some {| psd_device := psd_device r; psd_secondaries := final |})
                ∧ pending_secondaries (priv w1) = kept' ++ next
                ∧ kept' ++ omap (record_after connected act) next
                  = kept ++ omap (record_after connected act) (r :: next)
                ∧ match res with
                  | Some data' => kept' = kept ++ [data']
                  | None => kept' = kept
                  end).
      { assert (Hafter : record_after connected act r =
                  if negb connected || bool_decide (final = []) then None
                  else Some {| psd_device := psd_device r; psd_secondaries := final |}).
        { unfold record_after. rewrite bool_decide_eq_true_2 by done. fold final.
          destruct connected; [|done]. cbn [negb orb]. by destruct final. }
        rewrite Hres, Hp1, omap_cons_step, Hafter.
        destruct (negb connected || bool_decide (final = [])).
        - by exists kept.
        - exists (kept ++ [{| psd_device := psd_device r; psd_secondaries := final |}]).
          split_and!; [done | simpl; by rewrite <- app_assoc | by rewrite <- app_assoc | done]. }
      destruct Hkey as (kept' & _ & Hpend1 & Homap & Hkept').
      assert (Hrec : (match res with
                      | Some data' =>
                          process_secondaries_from act connected (kept ++ [data']) next
                      | None => process_secondaries_from act connected kept next
                      end) w1
                     = process_secondaries_from act connected kept' next w1).
      { destruct res; by rewrite Hkept'. }
      rewrite Hrec.
      destruct (IH kept' w1 Hnd Hpend1)
        as (w' & added & Hrun & He & Hs & Hp & Ht & Hst & Hframe & _).
      exists w', (added1 ++ added). split; [exact Hrun|]. split_and!.
      * by rewrite He, He1, app_assoc.
      * by apply same_sessions_and_settings_trans with w1.
      * by rewrite Hp, Hp1, set_pending_secondaries_twice, Homap.
      * rewrite device_transitions_app, Ht, Ht1, Hexp1.
        unfold expected_transitions. cbn [map concat]. by rewrite Htr.
      * intros r' Hr'. apply elem_of_cons in Hr' as [->|Hr'].
        -- rewrite Htr. unfold device at 1. rewrite (Hframe _ Hfresh).
           fold (device w1 (psd_device r)).
           by apply (dev_state_after tr connected (bool_decide (final = []))).
        -- rewrite (Hst r' Hr').
           rewrite (secondary_transition_same_state connected act w w1 r' (Hnext1 r' Hr')).
           destruct (secondary_transition connected act w r') as [[s ?]|]; [done|].
           unfold device. by rewrite (Hnext1 r' Hr').
      * intros d Hd. rewrite fmap_cons in Hd. apply not_elem_of_cons in Hd as [Hne Hd].
        rewrite (Hframe d Hd). by apply (dev_state_other tr (psd_device r)).
      * intros Hnone. exfalso. apply (Hnone r); [left | done].
    + (* the record does not list the session *)
      destruct (Hno Hnotin) as (-> & ->). clear Hno Hyes.
      assert (Hr : {| psd_device := psd_device r; psd_secondaries := psd_secondaries r |} = r)
        by (by destruct r).
      rewrite Hr.
      destruct (IH (kept ++ [r]) w Hnd)
        as (w' & added & Hrun & He & Hs & Hp & Ht & Hst & Hframe & Hsame).
      { by rewrite <- app_assoc. }
      assert (Htr : secondary_transition connected act w r = None).
      { unfold secondary_transition. by rewrite bool_decide_eq_false_2. }
      exists w', added. split; [exact Hrun|]. split_and!; try done.
      * rewrite Hp, omap_cons_step. unfold record_after at 2.
        rewrite bool_decide_eq_false_2 by done. by rewrite <- app_assoc.
      * rewrite Ht. unfold expected_transitions. cbn [map concat]. by rewrite Htr.
      * intros r' Hr'. apply elem_of_cons in Hr' as [->|Hr']; [|by apply Hst].
        rewrite Htr. unfold device. by rewrite (Hframe _ Hfresh).
      * intros d Hd. rewrite fmap_cons in Hd. apply not_elem_of_cons in Hd as [Hne Hd].
        by apply Hframe.
      * intros Hnone. apply Hsame. intros r' Hr'. apply Hnone. by right.
Qed.

(** C6.  With one wait record per device: [process_secondaries] returns.
    Reported ACTIVATED, the session leaves every wait list that holds it;
    a record whose list becomes empty is removed and, if its device is
    still in SECONDARIES, the device is moved to ACTIVATED with reason
    NONE.  Reported DEACTIVATED, every record that holds the session is
    removed whole and its device is moved to FAILED with reason
    SECONDARY_CONNECTION_FAILED, but only from SECONDARIES or ACTIVATED.
    No other device changes state and no other transition is made; a
    session that no wait list holds changes nothing at all.  The observer
    of the session's state calls [process_secondaries] for ACTIVATED and
    for DEACTIVATED and does nothing for any other state. *)
Theorem process_secondaries_outcome (act : nat) (connected : bool) (w : World) :
  let pending := pending_secondaries (priv w) in
  NoDup (psd_device <$> pending) →
  (∃ w' added,
      process_secondaries act connected w = Returned tt w'
      ∧ effects w' = effects w ++ added
      ∧ same_sessions_and_settings w w'
      ∧ priv w' =
          set_pending_secondaries (omap (record_after connected act) pending) (priv w)
      ∧ device_transitions added = expected_transitions connected act w pending
      ∧ (∀ r, r ∈ pending →
           dev_state (device w' (psd_device r)) =
             match secondary_transition connected act w r with
             | Some (s, _) => s
             | None => dev_state (device w (psd_device r))
             end)
      ∧ (∀ d, d ∉ psd_device <$> pending → device_objs w' !! d = device_objs w !! d)
      ∧ ((∀ r, r ∈ pending → act ∉ psd_secondaries r) → w' = w))
  ∧ active_connection_state_changed act w =
      match ac_state (active w act) with
      | NM_ACTIVE_CONNECTION_STATE_ACTIVATED => process_secondaries act true w
      | NM_ACTIVE_CONNECTION_STATE_DEACTIVATED => process_secondaries act false w
      | _ => Returned tt w
      end.
Proof.
  intros pending Hnd. split.
  - unfold process_secondaries. rewrite bind_run, gets_run. cbv beta iota.
    fold pending.
    destruct (process_secondaries_from_run act connected pending [] w Hnd eq_refl)
      as (w' & added & Hrun & He & Hs & Hp & Ht & Hst & Hframe & Hsame).
    by exists w', added.
  - unfold active_connection_state_changed. rewrite bind_run, gets_run. cbv beta iota.
    by destruct (ac_state (active w act)).
Qed.

End Secondaries.

(** ** Runs of a handler *)

Section Returns.

#[global] Instance keeps_preorder {B} (f : World → B) : PreOrder (keeps f).
Proof.
  split; [by intros w|]. intros w1 w2 w3 H1 H2. unfold keeps in *. congruence.
Qed.

#[global] Instance calls_only_preorder (P : Effect → Prop) : PreOrder (calls_only P).
Proof.
  split.
  - intros w. exists []. by rewrite app_nil_r.
  - intros w1 w2 w3 (a1 & H1 & F1) (a2 & H2 & F2). exists (a1 ++ a2).
    split; [by rewrite H2, H1, app_assoc | by apply Forall_app].
Qed.

#[global] Instance both_preorder (R1 R2 : relation World) :
  PreOrder R1 → PreOrder R2 → PreOrder (both R1 R2).
Proof.
  intros P1 P2. split.
  - intros w. split; reflexivity.
  - intros w1 w2 w3 [A1 A2] [B1 B2]. split; etrans; eassumption.
Qed.

Context (R : relation World) `{!PreOrder R}.

Lemma always_returns_ret {A} (a : A) : always_returns R (ret a).
Proof. intros w. by exists a, w. Qed.

Lemma always_returns_gets {A} (f : World → A) : always_returns R (gets f).
Proof. intros w. by exists (f w), w. Qed.

Lemma always_returns_modify (f : World → World) :
  (∀ w, R w (f w)) → always_returns R (modify f).
Proof. intros H w. exists tt, (f w). split; [reflexivity | apply H]. Qed.

Lemma always_returns_emit (e : Effect) :
  (∀ w, R w (with_effects (λ l, l ++ [e]) w)) → always_returns R (emit e).
Proof. apply always_returns_modify. Qed.

Lemma always_returns_bind {A B} (m : Handler A) (k : A → Handler B) :
  always_returns R m → (∀ a, always_returns R (k a)) → always_returns R (bind m k).
Proof.
  intros Hm Hk w. destruct (Hm w) as (a & w1 & Hrun & H1).
  destruct (Hk a w1) as (b & w2 & Hrun' & H2).
  exists b, w2. split; [by rewrite bind_run, Hrun | by etrans].
Qed.

Lemma always_returns_when (b : bool) (m : Handler unit) :
  always_returns R m → always_returns R (when b m).
Proof. intros Hm. destruct b; [exact Hm | apply always_returns_ret]. Qed.

Lemma always_returns_for_each {A} (l : list A) (body : A → Handler unit) :
  (∀ x, always_returns R (body x)) → always_returns R (for_each l body).
Proof.
  intros Hbody. induction l as [|x l IH]; simpl.
  - apply always_returns_ret.
  - apply always_returns_bind; [apply Hbody | by intros _].
Qed.

End Returns.

Lemma always_returns_weaken {A} (R R' : relation World) (m : Handler A) :
  (∀ w w', R w w' → R' w w') → always_returns R m → always_returns R' m.
Proof.
  intros Hsub Hm w. destruct (Hm w) as (a & w' & Hrun & HR).
  exists a, w'. split; [exact Hrun | by apply Hsub].
Qed.

Lemma always_returns_g_assert (R : relation World) `{!PreOrder R} (what : string) :
  always_returns R (g_assert true what).
Proof. intros w. by exists tt, w. Qed.

#[global] Instance sessions_keep_preorder (fam : Family) : PreOrder (sessions_keep fam).
Proof.
  split; [by intros w a|]. intros w1 w2 w3 H1 H2 a. by rewrite H2, H1.
Qed.

Lemma active_alter_view (f : ActiveObj → ActiveObj) (a b : nat) (w : World) :
  active (with_active_objs (alter f a) w) b =
  if decide (a = b) then
    match active_objs w !! a with Some o => f o | None => null_active end
  else active w b.
Proof.
  unfold active, with_active_objs; simpl.
  rewrite lookup_alter. destruct (decide (a = b)) as [->|Hne]; [|done].
  by destruct (active_objs w !! b).
Qed.

Lemma sessions_keep_alter (fam : Family) (f : ActiveObj → ActiveObj) (a : nat) (w : World) :
  (∀ o, session_view fam (f o) = session_view fam o) →
  sessions_keep fam w (with_active_objs (alter f a) w).
Proof.
  intros Hf b. rewrite active_alter_view.
  destruct (decide (a = b)) as [->|]; [|done].
  unfold active. destruct (active_objs w !! b); [apply Hf | done].
Qed.

Lemma sessions_keep_set_default_flag (fam : Family) (v : bool) (a : nat) (w : World) :
  sessions_keep fam w (with_active_objs (alter (set_default_flag fam v) a) w).
Proof. apply sessions_keep_alter. intros o. by destruct fam. Qed.

Lemma sessions_keep_set_ac_device (fam : Family) (d : option nat) (a : nat) (w : World) :
  sessions_keep fam w (with_active_objs (alter (set_ac_device d) a) w).
Proof. apply sessions_keep_alter. intros o. by destruct fam. Qed.

(** A step of a handler that only records the call [e], or only writes to
    fields the relation does not look at. *)
Ltac solve_step :=
  repeat match goal with
         | |- both _ _ _ _ => split
         | |- keeps _ _ _ => reflexivity
         | |- hostname_changed_latch _ _ => by intros ?
         | |- sessions_keep _ _ _ =>
             first [ by intros ? | apply sessions_keep_set_default_flag
                   | apply sessions_keep_set_ac_device ]
         | |- calls_only _ _ _ =>
             first [ by (exists []; split; [symmetry; apply app_nil_r | constructor])
                   | eexists [_]; split; [reflexivity|]; repeat constructor; done ]
         end.

Ltac returns_step :=
  lazymatch goal with
  | |- always_returns _ (bind _ _) =>
      apply always_returns_bind; try apply _; [|intros ?]
  | |- always_returns _ (ret _) => apply always_returns_ret; try apply _
  | |- always_returns _ (g_assert true _) => apply always_returns_g_assert; try apply _
  | |- always_returns _ (gets _) => apply always_returns_gets; try apply _
  | |- always_returns _ (when _ _) => apply always_returns_when; try apply _
  | |- always_returns _ (for_each _ _) =>
      apply always_returns_for_each; try apply _; intros ?
  | |- always_returns _ (emit _) => apply always_returns_emit; intros ?; solve_step
  | |- always_returns _ (modify _) => apply always_returns_modify; intros ?; solve_step
  | |- always_returns _ (match ?x with _ => _ end) => destruct x
  end.

Ltac returns := repeat returns_step.

(** ** Pending activation checks *)

Section ActivationChecks.

Lemma find_pending_activation_Some (l : list ActivateData) (d : nat) (data : ActivateData) :
  find_pending_activation l d = Some data → data ∈ l ∧ ad_device data = d.
Proof.
  induction l as [|x l IH]; simpl; [done|].
  case_bool_decide as Hx.
  - intros [= <-]. split; [by left | done].
  - intros H. destruct (IH H). split; [by right | done].
Qed.

Lemma find_pending_activation_is_Some (l : list ActivateData) (d : nat) :
  is_Some (find_pending_activation l d) ↔ d ∈ ad_device <$> l.
Proof.
  induction l as [|x l IH]; cbn [find_pending_activation].
  - split; [by intros [? ?] | by intros ?%elem_of_nil].
  - rewrite fmap_cons, elem_of_cons. case_bool_decide as Hx.
    + split; [by left | by eexists].
    + rewrite IH. split; [by right | by intros [?|?]].
Qed.

Lemma set_pending_activation_checks_same (p : NMPolicyPrivate) :
  set_pending_activation_checks (pending_activation_checks p) p = p.
Proof. by destruct p. Qed.

(** What one call of [schedule_activate_check] does. *)
Lemma schedule_activate_check_run (d : nat) (w : World) :
  schedule_activate_check d w =
    Returned tt
      (if activation_check_allowed w d
          && negb (bool_decide (d ∈ ad_device <$> pending_activation_checks (priv w)))
       then queue_activation_check d w else w).
Proof.
  unfold schedule_activate_check, activation_check_allowed. hstep.
  destruct (manager_asleep w); [done|].
  destruct (dev_enabled (device w d)); [|done].
  destruct (dev_autoconnect_allowed (device w d)); [|done].
  cbn [negb andb].
  rewrite (bool_decide_ext _ _ (find_pending_activation_is_Some _ d)).
  destruct (bool_decide (d ∈ _)); [by rewrite andb_false_r|].
  destruct (existsb _ _); [done|]. reflexivity.
Qed.

Lemma activation_check_allowed_queue (d d' : nat) (w : World) :
  activation_check_allowed (queue_activation_check d w) d' = activation_check_allowed w d'.
Proof.
  unfold activation_check_allowed, queue_activation_check. simpl.
  assert (Hdev : dev_enabled (device (with_device_objs
                   (alter (add_pending_action "autoactivate") d) w) d')
                 = dev_enabled (device w d')
               ∧ dev_autoconnect_allowed (device (with_device_objs
                   (alter (add_pending_action "autoactivate") d) w) d')
                 = dev_autoconnect_allowed (device w d')).
  { unfold device. simpl. rewrite lookup_alter.
    destruct (decide (d = d')) as [->|]; [|done].
    by destruct (device_objs w !! d'). }
  destruct Hdev as [He Ha]. unfold device in *. simpl in *. by rewrite He, Ha.
Qed.

Lemma set_pending_activation_checks_twice (l1 l2 : list ActivateData) (p : NMPolicyPrivate) :
  set_pending_activation_checks l2 (set_pending_activation_checks l1 p)
  = set_pending_activation_checks l2 p.
Proof. reflexivity. Qed.

(** The loop of [schedule_activate_all_cb] over the devices [l]. *)
Lemma schedule_activate_checks_run (l : list nat) (w : World) :
  no_duplicate_checks w →
  ∃ w' new,
    for_each l schedule_activate_check w = Returned tt w'
    ∧ priv w' =
        set_pending_activation_checks (pending_activation_checks (priv w) ++ new) (priv w)
    ∧ no_duplicate_checks w'
    ∧ (∀ data, data ∈ new →
         ad_autoactivate_id data = true ∧ ad_device data ∈ l
         ∧ activation_check_allowed w (ad_device data) = true)
    ∧ (∀ d, d ∈ l → activation_check_allowed w d = true →
         d ∈ ad_device <$> pending_activation_checks (priv w'))
    ∧ effects w' = effects w ++ ((λ _, GIdleAdd "auto_activate_device_cb") <$> new)
    ∧ (∀ d, activation_check_allowed w' d = activation_check_allowed w d)
    ∧ active_objs w' = active_objs w
    ∧ connection_objs w' = connection_objs w.
Proof.
  revert w. induction l as [|d l IH]; intros w Hnd.
  - exists w, []. split; [reflexivity|]. rewrite app_nil_r.
    split_and!; try done.
    + by rewrite set_pending_activation_checks_same.
    + intros data Hd. by apply elem_of_nil in Hd.
    + intros d Hd. by apply elem_of_nil in Hd.
    + by rewrite app_nil_r.
  - cbn [for_each]. rewrite bind_run, schedule_activate_check_run.
    set (queue := activation_check_allowed w d
                  && negb (bool_decide (d ∈ ad_device <$> pending_activation_checks (priv w)))).
    set (w1 := if queue then queue_activation_check d w else w).
    assert (Hallowed1 : ∀ d', activation_check_allowed w1 d' = activation_check_allowed w d').
    { intros d'. unfold w1. destruct queue; [apply activation_check_allowed_queue | done]. }
    assert (Hp1 : priv w1 =
              set_pending_activation_checks
                (pending_activation_checks (priv w)
                   ++ (if queue then [{| ad_device := d; ad_autoactivate_id := true |}] else []))
                (priv w)).
    { unfold w1. destruct queue; [reflexivity|].
      by rewrite app_nil_r, set_pending_activation_checks_same. }
    assert (Hnd1 : no_duplicate_checks w1).
    { unfold no_duplicate_checks. rewrite Hp1. cbn [pending_activation_checks
        set_pending_activation_checks]. destruct queue eqn:Hq.
      - apply andb_true_iff in Hq as [_ Hq]. apply negb_true_iff in Hq.
        apply bool_decide_eq_false in Hq.
        rewrite fmap_app. apply NoDup_app. split; [exact Hnd|].
        split; [|apply NoDup_singleton].
        intros x Hx Hx'. apply list_elem_of_singleton in Hx'. by subst.
      - by rewrite app_nil_r. }
    destruct (IH w1 Hnd1) as (w' & new & Hrun & Hp & Hnd' & Hnew & Hall & He & Hallowed & Ha & Hc).
    exists w', ((if queue then [{| ad_device := d; ad_autoactivate_id := true |}] else [])
                ++ new).
    split; [exact Hrun|]. split_and!.
    + rewrite Hp, Hp1. cbn [pending_activation_checks set_pending_activation_checks].
      by rewrite app_assoc.
    + exact Hnd'.
    + intros data Hdata. apply elem_of_app in Hdata as [Hdata|Hdata].
      * destruct queue eqn:Hq; [|by apply elem_of_nil in Hdata].
        apply list_elem_of_singleton in Hdata as ->. cbn [ad_device ad_autoactivate_id].
        apply andb_true_iff in Hq as [Hq _]. split_and!; [done | by left | done].
      * destruct (Hnew data Hdata) as (? & ? & ?). rewrite Hallowed1 in *.
        split_and!; [done | by right | done].
    + intros d' Hd' Hok. apply elem_of_cons in Hd' as [->|Hd'].
      * rewrite Hp. cbn [pending_activation_checks set_pending_activation_checks].
        rewrite Hp1. cbn [pending_activation_checks set_pending_activation_checks].
        rewrite !fmap_app, !elem_of_app. left.
        unfold queue. rewrite Hok. cbn [andb].
        case_bool_decide as Hin; cbn [negb]; [by left | right; by left].
      * apply Hall; [done | by rewrite Hallowed1].
    + rewrite He. unfold w1. destruct queue; [|done].
      cbn [queue_activation_check effects with_priv with_effects with_device_objs fmap].
      by rewrite fmap_app, <- app_assoc.
    + intros d'. by rewrite Hallowed, Hallowed1.
    + rewrite Ha. unfold w1. by destruct queue.
    + rewrite Hc. unfold w1. by destruct queue.
Qed.

(** X1.  [schedule_activate_all_cb] clears the idle source id and runs the
    activation check of every device of the manager.  Started with no two
    pending checks for one device, it leaves no two pending checks for one
    device: the checks it adds (each with its idle source and a call of
    [g_idle_add]) are for devices of the manager that pass the guards, and
    afterwards every device of the manager that passes the guards has a
    pending check, which [find_pending_activation] finds. *)
Theorem schedule_activate_all_cb_queues_each_device_once (w : World) :
  no_duplicate_checks w →
  ∃ w' new,
    schedule_activate_all_cb w = Returned tt w'
    ∧ pending_activation_checks (priv w') = pending_activation_checks (priv w) ++ new
    ∧ no_duplicate_checks w'
    ∧ schedule_activate_all_id (priv w') = false
    ∧ (∀ data, data ∈ new →
         ad_autoactivate_id data = true ∧ ad_device data ∈ manager_devices w
         ∧ activation_check_allowed w (ad_device data) = true)
    ∧ (∀ d, d ∈ manager_devices w → activation_check_allowed w d = true →
         is_Some (find_pending_activation (pending_activation_checks (priv w')) d))
    ∧ effects w' = effects w ++ ((λ _, GIdleAdd "auto_activate_device_cb") <$> new)
    ∧ active_objs w' = active_objs w
    ∧ connection_objs w' = connection_objs w.
Proof.
  intros Hnd. unfold schedule_activate_all_cb. hstep.
  set (w0 := with_priv (set_schedule_activate_all_id false) w).
  destruct (schedule_activate_checks_run (manager_devices w) w0 Hnd)
    as (w' & new & Hrun & Hp & Hnd' & Hnew & Hall & He & _ & Ha & Hc).
  exists w', new. split; [exact Hrun|]. split_and!; try done.
  - by rewrite Hp.
  - by rewrite Hp.
  - intros d Hd Hok. apply find_pending_activation_is_Some. by apply Hall.
Qed.

(** X2.  Asking twice for the activation check of a device is asking once:
    the second call finds the pending check, or the guard that stopped the
    first one. *)
Theorem schedule_activate_check_idempotent (d : nat) (w : World) :
  (schedule_activate_check d >> schedule_activate_check d)%handler w
  = schedule_activate_check d w.
Proof.
  rewrite bind_run, (schedule_activate_check_run d w). cbv beta iota.
  destruct (activation_check_allowed w d
            && negb (bool_decide (d ∈ ad_device <$> pending_activation_checks (priv w))))
    eqn:Hq.
  - rewrite schedule_activate_check_run.
    replace (bool_decide (d ∈ ad_device <$>
               pending_activation_checks (priv (queue_activation_check d w)))) with true.
    { by rewrite andb_false_r. }
    symmetry. apply bool_decide_eq_true.
    cbn [queue_activation_check priv with_priv pending_activation_checks
           set_pending_activation_checks].
    rewrite fmap_app, elem_of_app. right. by left.
  - rewrite schedule_activate_check_run. by rewrite Hq.
Qed.

Lemma g_slist_remove_app_fresh {A} `{EqDecision A} (l : list A) (x : A) :
  x ∉ l → g_slist_remove (l ++ [x]) x = l.
Proof.
  induction l as [|y l IH]; intros Hx; cbn [app g_slist_remove].
  - by rewrite decide_True.
  - apply not_elem_of_cons in Hx as [Hne Hx].
    rewrite decide_False by done. by rewrite IH.
Qed.

Lemma find_pending_activation_app_fresh (l : list ActivateData) (d : nat) (data : ActivateData) :
  d ∉ ad_device <$> l → ad_device data = d →
  find_pending_activation (l ++ [data]) d = Some data.
Proof.
  induction l as [|y l IH]; intros Hd Hdata; cbn [app find_pending_activation].
  - by rewrite bool_decide_eq_true_2.
  - rewrite fmap_cons in Hd. apply not_elem_of_cons in Hd as [Hne Hd].
    rewrite bool_decide_eq_false_2 by done. by apply IH.
Qed.

Lemma find_pending_activation_None (l : list ActivateData) (d : nat) :
  d ∉ ad_device <$> l → find_pending_activation l d = None.
Proof.
  intros Hd. destruct (find_pending_activation l d) eqn:Hfind; [|done].
  exfalso. apply Hd, find_pending_activation_is_Some. by eexists.
Qed.

Lemma remove_add_pending_action (a : string) (o : DeviceObj) :
  a ∉ dev_pending_actions o → remove_pending_action a (add_pending_action a o) = o.
Proof.
  intros Ha. destruct o. unfold remove_pending_action, add_pending_action. simpl in *.
  by rewrite g_slist_remove_app_fresh.
Qed.

(** X3.  [clear_pending_activate_check] does nothing for a device without
    a pending check, and it undoes [schedule_activate_check]: after a check
    was queued for a device that had none (and whose slot for the
    "autoactivate" action was free), the check is found and the action is
    pending, and clearing it restores the policy's private state and the
    device, having removed the idle source that was added. *)
Theorem clear_pending_activate_check_undoes_schedule (d : nat) (w : World) :
  (d ∉ ad_device <$> pending_activation_checks (priv w) →
   clear_pending_activate_check d w = Returned tt w)
  ∧ (d ∉ ad_device <$> pending_activation_checks (priv w) →
     activation_check_allowed w d = true →
     "autoactivate" ∉ dev_pending_actions (device w d) →
     ∃ w1 w2,
       schedule_activate_check d w = Returned tt w1
       ∧ find_pending_activation (pending_activation_checks (priv w1)) d
         = Some {| ad_device := d; ad_autoactivate_id := true |}
       ∧ "autoactivate" ∈ dev_pending_actions (device w1 d)
       ∧ clear_pending_activate_check d w1 = Returned tt w2
       ∧ priv w2 = priv w
       ∧ only_policy_changed w w2
       ∧ effects w2 =
           effects w ++ [GIdleAdd "auto_activate_device_cb";
                         GSourceRemove "auto_activate_device_cb"]).
Proof.
  split.
  - intros Hd. unfold clear_pending_activate_check. hstep.
    by rewrite find_pending_activation_None.
  - intros Hd Hok Hfree.
    assert (Hstore : ∃ o, device_objs w !! d = Some o) .
    { unfold activation_check_allowed, device in Hok.
      destruct (device_objs w !! d) as [o|]; [by eexists|].
      simpl in Hok. by rewrite andb_false_r in Hok. }
    destruct Hstore as [o Ho].
    assert (Hfree' : "autoactivate" ∉ dev_pending_actions o).
    { unfold device in Hfree. by rewrite Ho in Hfree. }
    set (data := {| ad_device := d; ad_autoactivate_id := true |}).
    assert (Hfind : find_pending_activation
                      (pending_activation_checks (priv (queue_activation_check d w))) d
                    = Some data).
    { cbn [queue_activation_check priv with_priv pending_activation_checks
             set_pending_activation_checks].
      by apply find_pending_activation_app_fresh. }
    exists (queue_activation_check d w). eexists.
    split.
    { rewrite schedule_activate_check_run, Hok.
      by rewrite bool_decide_eq_false_2. }
    split; [exact Hfind|].
    split.
    { unfold device, queue_activation_check. simpl. rewrite lookup_alter_eq, Ho. simpl.
      rewrite elem_of_app. right. by left. }
    split.
    { unfold clear_pending_activate_check. hstep. rewrite Hfind.
      cbn [ad_autoactivate_id data]. hstep.
      unfold activate_data_free, nm_device_remove_pending_action. hstep.
      cbn [ad_autoactivate_id ad_device data]. hstep. reflexivity. }
    assert (Hdata : data ∉ pending_activation_checks (priv w)).
    { intros Hin. apply Hd. apply list_elem_of_fmap. by exists data. }
    split_and!.
    + cbn [queue_activation_check priv with_priv with_effects with_device_objs
             pending_activation_checks set_pending_activation_checks].
      rewrite set_pending_activation_checks_twice.
      cbn [pending_activation_checks set_pending_activation_checks].
      rewrite g_slist_remove_app_fresh by done.
      apply set_pending_activation_checks_same.
    + unfold only_policy_changed.
      cbn [queue_activation_check device_objs active_objs connection_objs manager_devices
             manager_active_connections manager_asleep manager_hostname
             settings_connections_sorted kernel_hostname monotonic_timestamp_s
             with_priv with_effects with_device_objs].
      split_and!; try done.
      rewrite alter_alter_eq. apply alter_id. intros o' Ho'.
      rewrite Ho in Ho'. injection Ho' as <-. by apply remove_add_pending_action.
    + cbn [queue_activation_check effects with_priv with_effects with_device_objs].
      by rewrite <- app_assoc.
Qed.

End ActivationChecks.


(** ** The hostname controller, continued *)

Section HostnameController.

Context (E : Collaborators) (Q : DeviceQueries).

#[global] Instance hostname_changed_latch_preorder : PreOrder hostname_changed_latch.
Proof.
  split; [intros w H; exact H|]. intros w1 w2 w3 H1 H2 H. by apply H2, H1.
Qed.

Lemma set_hostname_returns (new_hostname : option string) (msg : string) :
  always_returns hostname_step (_set_hostname new_hostname msg).
Proof.
  unfold _set_hostname, set_kernel_hostname, hostname_step. cbv zeta. returns.
Qed.

Lemma cancel_lookup_returns : always_returns hostname_step cancel_lookup.
Proof. unfold cancel_lookup, hostname_step. returns. Qed.

Lemma update_system_hostname_returns (best4 best6 : option nat) :
  always_returns hostname_step (update_system_hostname E best4 best6).
Proof.
  unfold update_system_hostname. cbv zeta.
  assert (Hladder : ∀ b4 b6,
            always_returns hostname_step (hostname_from_startup_or_lookup b4 b6)).
  { intros b4 b6. unfold hostname_from_startup_or_lookup. cbv zeta.
    repeat first [ apply set_hostname_returns | unfold hostname_step; returns_step ]. }
  assert (Hdhcp : ∀ fam d, always_returns hostname_step (dhcp_hostname_of fam d)).
  { intros fam d. unfold dhcp_hostname_of, hostname_step. returns. }
  assert (Hdevices : ∀ b4 b6, always_returns hostname_step (hostname_from_devices b4 b6)).
  { intros b4 b6. unfold hostname_from_devices.
    repeat first [ apply set_hostname_returns | apply Hladder | apply Hdhcp
                 | unfold hostname_step; returns_step ]. }
  repeat first [ apply set_hostname_returns | apply cancel_lookup_returns | apply Hdevices
               | unfold get_best_ip4_device, get_best_ip6_device, get_best_ip_device,
                   hostname_step; returns_step ].
Qed.

Lemma hostname_unchangedb_spec (p : NMPolicyPrivate) (new_hostname : option string) :
  hostname_unchangedb p new_hostname = true ↔ hostname_unchanged p new_hostname.
Proof.
  unfold hostname_unchangedb, hostname_unchanged, g_strcmp0_eq.
  rewrite orb_true_iff, !andb_true_iff, !bool_decide_eq_true, negb_true_iff. tauto.
Qed.

(** What one call of [_set_hostname] does, whatever the candidate. *)
Lemma set_hostname_run (new_hostname : option string) (msg : string) (w : World) :
  ∃ w' added,
    _set_hostname new_hostname msg w = Returned tt w'
    ∧ priv w' = after_set_hostname new_hostname (priv w)
    ∧ only_policy_changed w w'
    ∧ effects w' =
        effects w
          ++ (if hostname_unchangedb (priv w) new_hostname then []
              else [DnsSetHostname new_hostname])
          ++ added
    ∧ (∀ n, DnsSetHostname n ∉ added)
    ∧ (∀ a, ResolverLookupByAddress a ∉ added)
    ∧ (kernel_hostname w = Some (effective_hostname new_hostname) →
       ∀ n, SettingsSetTransientHostname n ∉ added)
    ∧ (kernel_hostname w ≠ Some (effective_hostname new_hostname) →
       SettingsSetTransientHostname (effective_hostname new_hostname) ∈ added).
Proof.
  set (w1 := if bool_decide (is_Some new_hostname)
             then with_priv (set_lookup_addr None) w else w).
  set (w2 := if hostname_unchangedb (priv w) new_hostname then w1
             else with_effects (λ l, l ++ [DnsSetHostname new_hostname])
                    (with_priv (set_cur_hostname new_hostname) w1)).
  assert (Hpre : _set_hostname new_hostname msg w = set_kernel_hostname new_hostname msg w2).
  { unfold _set_hostname, w2, w1, hostname_unchangedb.
    destruct (bool_decide (is_Some new_hostname)); hstep;
      cbn [priv with_priv orig_hostname cur_hostname hostname_changed set_lookup_addr];
      destruct (bool_decide (is_Some (orig_hostname (priv w))) && negb (hostname_changed (priv w))
                && g_strcmp0_eq (orig_hostname (priv w)) new_hostname);
      cbn [orb]; hstep; try reflexivity;
      destruct (g_strcmp0_eq (cur_hostname (priv w)) new_hostname); hstep; reflexivity. }
  destruct (set_kernel_hostname_run new_hostname msg w2)
    as (w' & added & Hrun & (Hp & Ho & He) & Hdns & Hskip & Hcall).
  assert (Hk : kernel_hostname w2 = kernel_hostname w).
  { unfold w2, w1.
    by destruct (hostname_unchangedb _ _), (bool_decide (is_Some new_hostname)). }
  assert (Ho2 : only_policy_changed w w2).
  { unfold w2, w1.
    by destruct (hostname_unchangedb _ _), (bool_decide (is_Some new_hostname)). }
  exists w', added. rewrite Hpre. split; [exact Hrun|]. split_and!.
  - rewrite Hp. unfold after_set_hostname, w2, w1.
    by destruct (hostname_unchangedb _ _), (bool_decide (is_Some new_hostname)).
  - by apply only_policy_changed_trans with w2.
  - rewrite He. unfold w2, w1.
    destruct (hostname_unchangedb _ _), (bool_decide (is_Some new_hostname));
      cbn [effects with_effects with_priv app]; by rewrite <- ?app_assoc.
  - exact Hdns.
  - intros a Ha.
    assert (Hcalls : always_returns (calls_only (λ e, ∀ a, e ≠ ResolverLookupByAddress a))
                       (set_kernel_hostname new_hostname msg)).
    { unfold set_kernel_hostname. cbv zeta. returns. }
    destruct (Hcalls w2) as (u & w'' & Hrun' & added' & He' & Hall).
    rewrite Hrun in Hrun'. injection Hrun' as _ <-.
    rewrite He in He'. apply app_inv_head in He'. subst added'.
    rewrite Forall_forall in Hall. by apply (Hall _ Ha a).
  - by rewrite <- Hk.
  - by rewrite <- Hk.
Qed.

(** X4.  The hostname controller (the hostname update, [_set_hostname],
    the callback of the reverse lookup, and the observers of the DNS
    manager's configuration and of the manager's hostname) returns from
    every world; it makes only its own calls, leaves every object of a
    collaborator and every other field of the policy (the original
    hostname among them) as they are, and never resets
    [hostname_changed]. *)
Theorem hostname_controller_frame
    (best4 best6 : option nat) (new_hostname : option string) (msg : string)
    (result : LookupResult) :
  always_returns hostname_step (update_system_hostname E best4 best6)
  ∧ always_returns hostname_step (_set_hostname new_hostname msg)
  ∧ always_returns hostname_step (lookup_callback result)
  ∧ always_returns hostname_step dns_config_changed
  ∧ always_returns hostname_step (manager_hostname_changed E).
Proof.
  split_and!.
  - apply update_system_hostname_returns.
  - apply set_hostname_returns.
  - unfold lookup_callback.
    repeat first [ apply set_hostname_returns | unfold hostname_step; returns_step ].
  - unfold dns_config_changed.
    repeat first [ apply cancel_lookup_returns | unfold hostname_step; returns_step ].
  - apply update_system_hostname_returns.
Qed.


Lemma set_lookup_cancellable_same (p : NMPolicyPrivate) :
  set_lookup_cancellable (lookup_cancellable p) p = p.
Proof. by destruct p. Qed.

(** X6.  When the DNS configuration changes, a reverse lookup in flight is
    cancelled, and a lookup is started again exactly when an address is
    still to be resolved, for that address: afterwards a lookup is in
    flight if and only if [lookup_addr] is set.  Nothing else changes. *)
Theorem dns_config_changed_restarts_lookup (w : World) :
  ∃ w',
    dns_config_changed w = Returned tt w'
    ∧ priv w' =
        set_lookup_cancellable (bool_decide (is_Some (lookup_addr (priv w)))) (priv w)
    ∧ only_policy_changed w w'
    ∧ effects w' =
        effects w
          ++ (if lookup_cancellable (priv w) then [CancellableCancel] else [])
          ++ match lookup_addr (priv w) with
             | Some a => restart_lookup_calls a
             | None => []
             end.
Proof.
  unfold dns_config_changed. rewrite bind_run, cancel_lookup_run. cbv beta iota.
  unfold after_cancel_lookup, restart_lookup_calls.
  destruct (lookup_cancellable (priv w)) eqn:Hc;
    hstep; cbn [priv with_priv with_effects lookup_addr set_lookup_cancellable];
    destruct (lookup_addr (priv w)) as [a|] eqn:Ha; hstep;
    (eexists; split; [reflexivity|]);
    cbn [priv effects with_priv with_effects app]; rewrite <- ?app_assoc;
    (split_and!; [ | by unfold only_policy_changed | by rewrite ?app_nil_r ]);
    try reflexivity.
  rewrite bool_decide_eq_false_2 by (by intros [? ?]).
  by rewrite <- Hc, set_lookup_cancellable_same.
Qed.

(** X7.  The reverse lookup ends.  A cancelled lookup changes nothing.  A
    resolved name is applied as a hostname candidate and no address is
    left to resolve.  A failed lookup applies the NULL candidate, so that
    [cur_hostname] is NULL afterwards, and keeps the address, which a
    later change of the DNS configuration looks up again.  In both cases
    the lookup is no longer in flight. *)
Theorem lookup_callback_outcomes (w : World) :
  lookup_callback LookupCancelled w = Returned tt w
  ∧ (∀ h, ∃ w',
       lookup_callback (LookupHostname h) w = Returned tt w'
       ∧ priv w' = set_lookup_cancellable false (after_set_hostname (Some h) (priv w))
       ∧ lookup_cancellable (priv w') = false
       ∧ lookup_addr (priv w') = None
       ∧ (cur_hostname (priv w') = Some h
          ∨ (cur_hostname (priv w') = cur_hostname (priv w)
             ∧ orig_hostname (priv w) = Some h ∧ hostname_changed (priv w) = false)))
  ∧ (∀ message, ∃ w',
       lookup_callback (LookupError message) w = Returned tt w'
       ∧ priv w' = set_lookup_cancellable false (after_set_hostname None (priv w))
       ∧ lookup_cancellable (priv w') = false
       ∧ lookup_addr (priv w') = lookup_addr (priv w)
       ∧ cur_hostname (priv w') = None).
Proof.
  split_and!.
  - reflexivity.
  - intros h.
    destruct (set_hostname_run (Some h) "from address lookup" w)
      as (w1 & added & Hrun & Hp & _).
    eexists. unfold lookup_callback. rewrite bind_run, Hrun. hstep.
    split; [reflexivity|]. cbn [priv with_priv]. rewrite Hp.
    unfold after_set_hostname. rewrite bool_decide_eq_true_2 by by eexists.
    destruct (hostname_unchangedb (priv w) (Some h)) eqn:Hb.
    + split_and!; try reflexivity.
      apply hostname_unchangedb_spec in Hb as [Hcur | (_ & Hch & Horig)].
      * left. exact Hcur.
      * right. by split_and!.
    + split_and!; try reflexivity. by left.
  - intros message.
    destruct (set_hostname_run None message w) as (w1 & added & Hrun & Hp & _).
    eexists. unfold lookup_callback. rewrite bind_run, Hrun. hstep.
    split; [reflexivity|]. cbn [priv with_priv]. rewrite Hp.
    unfold after_set_hostname. rewrite bool_decide_eq_false_2 by by intros [? ?].
    destruct (hostname_unchangedb (priv w) None) eqn:Hb.
    + split_and!; try reflexivity.
      apply hostname_unchangedb_spec in Hb as [Hcur | ([x Hx] & _ & Horig)].
      * exact Hcur.
      * congruence.
    + by split_and!.
Qed.

End HostnameController.

(** ** Default routes, continued *)

Section RoutingUpdate.

Context (E : Collaborators) (Q : DeviceQueries).

Lemma attribute_vpn_connections_returns (fam : Family) (b : nat) :
  always_returns (both (keeps outside_sessions) (sessions_keep fam))
    (attribute_vpn_connections fam b).
Proof. unfold attribute_vpn_connections, nm_active_connection_set_device. returns. Qed.

Lemma update_default_ac_returns (fam : Family) (best : option nat) :
  always_returns (both (keeps outside_sessions) (sessions_keep fam))
    (update_default_ac best (nm_active_connection_set_default_for fam)).
Proof. unfold update_default_ac, nm_active_connection_set_default_for. returns. Qed.

Lemma set_default_device_same (fam : Family) (p : NMPolicyPrivate) :
  set_default_device fam (default_device fam p) p = p.
Proof. by destruct fam, p. Qed.

Lemma default_device_set (fam : Family) (d : option nat) (p : NMPolicyPrivate) :
  default_device fam (set_default_device fam d p) = d.
Proof. by destruct fam. Qed.

(** What one routing update does when the best configuration, if there is
    one, is as the update asserts it: the slot [d] it leaves, and the calls
    it made. *)
Lemma update_ip_routing_run (fam : Family) (force_update : bool) (w : World) :
  (∀ bc, drm_get_best_config E fam w false = Some bc → best_config_well_formed bc) →
  ∃ w' d added,
    update_ip_routing E fam force_update w = Returned tt w'
    ∧ priv w' = set_default_device fam d (priv w)
    ∧ effects w' = effects w ++ added
    ∧ Forall (is_routing_call fam) added
    ∧ (d = default_device fam (priv w) → added = [])
    ∧ (d ≠ default_device fam (priv w) → Notify (PROP_DEFAULT_IP_DEVICE fam) ∈ added)
    ∧ device_objs w' = device_objs w
    ∧ connection_objs w' = connection_objs w
    ∧ manager_devices w' = manager_devices w
    ∧ manager_active_connections w' = manager_active_connections w
    ∧ manager_asleep w' = manager_asleep w
    ∧ manager_hostname w' = manager_hostname w
    ∧ settings_connections_sorted w' = settings_connections_sorted w
    ∧ kernel_hostname w' = kernel_hostname w
    ∧ monotonic_timestamp_s w' = monotonic_timestamp_s w
    ∧ sessions_keep fam w w'.
Proof.
  intros Hwf. unfold update_ip_routing.
  rewrite bind_run. unfold get_best_ip_config. rewrite gets_run. cbv beta iota.
  destruct (drm_get_best_config E fam w false) as [bc|] eqn:Hbc.
  - destruct (Hwf bc eq_refl) as [Hbv Hac]. cbv zeta.
    rewrite bind_run. unfold g_assert at 1.
    rewrite bool_decide_eq_true_2 by done. cbv beta iota.
    rewrite bind_run, gets_run. cbv beta iota.
    destruct (negb force_update && bool_decide (is_Some (bc_device bc))
              && bool_decide (bc_device bc = default_device fam (priv w))).
    { exists w, (default_device fam (priv w)), []. rewrite ret_run.
      split; [reflexivity|]. rewrite app_nil_r, set_default_device_same.
      split_and!; try done. }
    rewrite bind_run.
    assert (Hattr : ∃ w1,
      match bc_device bc with
      | Some b => attribute_vpn_connections fam b
      | None => ret tt
      end w = Returned tt w1
      ∧ keeps outside_sessions w w1 ∧ sessions_keep fam w w1).
    { destruct (bc_device bc) as [b|].
      - destruct (attribute_vpn_connections_returns fam b w) as ([] & w1 & Hrun & Hk & Hs).
        by exists w1.
      - exists w. split; [reflexivity|]. split; reflexivity. }
    destruct Hattr as (w1 & Hrun1 & Hk1 & Hs1). rewrite Hrun1. cbv beta iota.
    rewrite bind_run.
    set (default_dev := match bc_vpn bc with
                        | Some v => ac_device (active w1 v)
                        | None => bc_device bc
                        end).
    replace (match bc_vpn bc with
             | Some v => gets (λ w0, ac_device (active w0 v))
             | None => ret (bc_device bc)
             end w1) with (Returned default_dev w1)
      by (unfold default_dev; by destruct (bc_vpn bc)).
    cbv beta iota. rewrite bind_run.
    destruct (update_default_ac_returns fam (bc_ac bc) w1) as ([] & w2 & Hrun2 & Hk2 & Hs2).
    rewrite Hrun2. cbv beta iota.
    assert (Hk : keeps outside_sessions w w2) by (by etrans).
    assert (Hs : sessions_keep fam w w2) by (by etrans).
    unfold keeps, outside_sessions in Hk.
    injection Hk as Hp Hdev Hcon Hmd Hma Hmas Hmh Hsc Hkh Hts He.
    rewrite bind_run, gets_run. cbv beta iota. rewrite Hp.
    destruct (bool_decide (default_dev = default_device fam (priv w))) eqn:Hsame.
    + apply bool_decide_eq_true in Hsame.
      exists w2, (default_device fam (priv w)), []. rewrite ret_run.
      split; [reflexivity|]. rewrite app_nil_r, set_default_device_same.
      split_and!; done.
    + apply bool_decide_eq_false in Hsame. hstep.
      eexists _, default_dev, [_; _]. split; [reflexivity|].
      cbn [priv effects device_objs connection_objs manager_devices
             manager_active_connections manager_asleep manager_hostname
             settings_connections_sorted kernel_hostname monotonic_timestamp_s
             with_priv with_effects].
      rewrite Hp, He, <- !app_assoc.
      split_and!; try done.
      * repeat constructor; by destruct fam.
      * intros _. right. by left.
  - hstep.
    destruct (default_device fam (priv w)) as [d0|] eqn:Hd0.
    + rewrite bool_decide_eq_true_2 by (by eexists). hstep.
      eexists _, None, [_]. split; [reflexivity|].
      cbn [priv effects device_objs connection_objs manager_devices
             manager_active_connections manager_asleep manager_hostname
             settings_connections_sorted kernel_hostname monotonic_timestamp_s
             with_priv with_effects].
      split_and!; try done.
      * repeat constructor; by destruct fam.
      * intros _. by left.
    + rewrite bool_decide_eq_false_2 by (by intros [? ?]). hstep.
      eexists _, None, []. split; [reflexivity|].
      cbn [priv effects device_objs connection_objs manager_devices
             manager_active_connections manager_asleep manager_hostname
             settings_connections_sorted kernel_hostname monotonic_timestamp_s
             with_priv with_effects].
      rewrite app_nil_r. split_and!; try done.
Qed.

(** X8.  The routing update of a family stops at its assertion when the
    default-route manager reports a best configuration without an active
    session, or with neither a device nor a VPN session.  Otherwise it
    returns, and a property is notified exactly when its value changed,
    which only the family's default device can: the update writes nothing
    else of the policy, no device and no settings connection, and of the
    active sessions only the family's default flag and the device
    attribution. *)
Theorem update_ip_routing_notifies_changes
    (fam : Family) (force_update : bool) (w : World) :
  (∀ bc, drm_get_best_config E fam w false = Some bc → ¬ best_config_well_formed bc →
     update_ip_routing E fam force_update w = Aborted "(best || vpn) && best_ac")
  ∧ ((∀ bc, drm_get_best_config E fam w false = Some bc → best_config_well_formed bc) →
     ∃ w' added,
       update_ip_routing E fam force_update w = Returned tt w'
       ∧ effects w' = effects w ++ added
       ∧ (∀ p, Notify p ∈ added ↔ get_property w' p ≠ get_property w p)
       ∧ routing_step fam w w').
Proof.
  split.
  - intros bc Hbc Hwf. unfold update_ip_routing.
    rewrite bind_run. unfold get_best_ip_config. rewrite gets_run. cbv beta iota.
    rewrite Hbc. cbv zeta. rewrite bind_run. unfold g_assert.
    by rewrite bool_decide_eq_false_2.
  - intros Hwf.
    destruct (update_ip_routing_run fam force_update w Hwf)
      as (w' & d & added & Hrun & Hp & He & Hcalls & Hsame & Hnew
          & Hdev & Hcon & Hmd & Hma & Hmas & Hmh & Hsc & Hkh & Hts & Hs).
    exists w', added. split; [exact Hrun|]. split; [exact He|]. split.
    + intros p. split.
      * intros Hin.
        assert (Hp' : p = PROP_DEFAULT_IP_DEVICE fam).
        { rewrite Forall_forall in Hcalls. apply (Hcalls _ Hin). }
        subst p. destruct (decide (d = default_device fam (priv w))) as [Hd|Hd].
        { rewrite (Hsame Hd) in Hin. by apply elem_of_nil in Hin. }
        unfold get_property. rewrite Hp. by destruct fam.
      * intros Hchanged.
        destruct (decide (d = default_device fam (priv w))) as [Hd|Hd].
        { exfalso. apply Hchanged. unfold get_property. rewrite Hp, Hd.
          by rewrite set_default_device_same. }
        assert (Hp' : p = PROP_DEFAULT_IP_DEVICE fam).
        { destruct p, fam; try done; exfalso; apply Hchanged;
            unfold get_property; by rewrite Hp. }
        subst p. by apply Hnew.
    + unfold routing_step, both, keeps, outside_routing, calls_only.
      rewrite Hp, Hdev, Hcon, Hmd, Hma, Hmas, Hmh, Hsc, Hkh, Hts.
      split_and!; [by destruct fam | by destruct fam | exact Hs | by exists added].
Qed.

(** X9.  [check_activating_devices] stores in the two activating slots
    the best devices the default-route manager names when devices that are
    still activating count too, IPv4 first, and notifies a property
    exactly when its value changed; it writes nothing else. *)
Theorem check_activating_devices_notifies_changes (w : World) :
  let best4 := drm_get_best_device E AF_INET w false (default_device4 (priv w)) in
  let best6 := drm_get_best_device E AF_INET6 w false (default_device6 (priv w)) in
  ∃ w' added,
    check_activating_devices E w = Returned tt w'
    ∧ priv w' = set_activating_device AF_INET6 best6
                  (set_activating_device AF_INET best4 (priv w))
    ∧ only_policy_changed w w'
    ∧ effects w' = effects w ++ added
    ∧ added =
        (if bool_decide (best4 ≠ activating_device4 (priv w))
         then [Notify PROP_ACTIVATING_IP4_DEVICE] else [])
        ++ (if bool_decide (best6 ≠ activating_device6 (priv w))
            then [Notify PROP_ACTIVATING_IP6_DEVICE] else [])
    ∧ (∀ p, Notify p ∈ added ↔ get_property w' p ≠ get_property w p).
Proof.
  intros best4 best6.
  assert (Hrun : ∃ w',
    check_activating_devices E w = Returned tt w'
    ∧ priv w' = set_activating_device AF_INET6 best6
                  (set_activating_device AF_INET best4 (priv w))
    ∧ only_policy_changed w w'
    ∧ effects w' =
        effects w
          ++ (if bool_decide (best4 ≠ activating_device4 (priv w))
              then [Notify PROP_ACTIVATING_IP4_DEVICE] else [])
          ++ (if bool_decide (best6 ≠ activating_device6 (priv w))
              then [Notify PROP_ACTIVATING_IP6_DEVICE] else [])).
  { unfold check_activating_devices, get_best_ip4_device, get_best_ip6_device,
      get_best_ip_device, _notify. hstep.
    change (drm_get_best_device E AF_INET w false (default_device AF_INET (priv w)))
      with best4.
    change (drm_get_best_device E AF_INET6 w false (default_device AF_INET6 (priv w)))
      with best6.
    destruct (bool_decide (best4 ≠ activating_device4 (priv w))) eqn:H4; hstep;
      cbn [priv with_priv with_effects activating_device6 set_activating_device];
      destruct (bool_decide (best6 ≠ activating_device6 (priv w))) eqn:H6; hstep;
      (eexists; split; [reflexivity|]);
      cbn [priv effects with_priv with_effects app]; rewrite <- ?app_assoc, ?app_nil_r;
      (split_and!; [ | by unfold only_policy_changed | reflexivity ]).
    - reflexivity.
    - apply bool_decide_eq_false in H6. apply dec_stable in H6. rewrite H6.
      by destruct (priv w).
    - apply bool_decide_eq_false in H4. apply dec_stable in H4. rewrite H4.
      by destruct (priv w).
    - apply bool_decide_eq_false in H4, H6. apply dec_stable in H4, H6.
      rewrite H4, H6. by rewrite set_activating_device_same. }
  destruct Hrun as (w' & Hrun & Hp & Hopc & He).
  exists w'. eexists. split; [exact Hrun|]. split; [exact Hp|]. split; [exact Hopc|].
  split; [exact He|]. split; [reflexivity|].
  intros p. unfold get_property. rewrite Hp.
  cbn [default_device4 default_device6 activating_device4 activating_device6
         set_activating_device].
  rewrite elem_of_app.
  destruct p.
  - split; [|done]. intros [Hin|Hin];
      [destruct (bool_decide (best4 ≠ _)) | destruct (bool_decide (best6 ≠ _))];
      elem_cases Hin; discriminate.
  - split; [|done]. intros [Hin|Hin];
      [destruct (bool_decide (best4 ≠ _)) | destruct (bool_decide (best6 ≠ _))];
      elem_cases Hin; discriminate.
  - split.
    + intros [Hin|Hin].
      * case_bool_decide as Hne; [done | by apply elem_of_nil in Hin].
      * destruct (bool_decide (best6 ≠ _)); elem_cases Hin; discriminate.
    + intros Hne. left. rewrite bool_decide_eq_true_2 by done. by left.
  - split.
    + intros [Hin|Hin].
      * destruct (bool_decide (best4 ≠ _)); elem_cases Hin; discriminate.
      * case_bool_decide as Hne; [done | by apply elem_of_nil in Hin].
    + intros Hne. right. rewrite bool_decide_eq_true_2 by done. by left.
Qed.

Lemma calls_only_weaken (P P' : Effect → Prop) (w w' : World) :
  (∀ e, P e → P' e) → calls_only P w w' → calls_only P' w w'.
Proof.
  intros Hsub (added & He & Hall). exists added. split; [exact He|].
  by apply (Forall_impl P).
Qed.

Lemma is_hostname_call_update (e : Effect) : is_hostname_call e → is_update_call e.
Proof. destruct e as [| [] [] | | | | | | | | | | | | | | | | |]; done. Qed.

Lemma is_routing_call_update (fam : Family) (e : Effect) :
  is_routing_call fam e → is_update_call e.
Proof.
  destruct e as [p| [] [] | | | | | | | | | | | | | | | | |]; try done.
  simpl. intros ->. destruct fam; [by left | by right].
Qed.

Lemma update_ip_dns_returns (fam : Family) :
  always_returns update_step (update_ip_dns E fam).
Proof.
  unfold update_ip_dns, get_best_ip_config, update_step.
  apply always_returns_bind; [apply _ | apply always_returns_gets; apply _ |].
  intros [bc|]; [|apply always_returns_ret; apply _]. cbv zeta.
  apply always_returns_emit. intros w. solve_step.
  eexists [_]. split; [reflexivity|]. repeat constructor.
  simpl. by destruct (bool_decide _).
Qed.

Lemma update_ip_routing_returns (fam : Family) (force_update : bool) :
  route_manager_contract E →
  always_returns update_step (update_ip_routing E fam force_update).
Proof.
  intros Hcontract w.
  destruct (update_ip_routing_run fam force_update w (Hcontract fam w))
    as (w' & d & added & Hrun & Hp & He & Hcalls & _ & _
        & Hdev & Hcon & Hmd & Hma & Hmas & Hmh & Hsc & Hkh & Hts & _).
  exists tt, w'. split; [exact Hrun|].
  unfold update_step, both, keeps, outside_routing_and_hostname, hostname_changed_latch,
    calls_only.
  rewrite Hp, Hdev, Hcon, Hmd, Hma, Hmas, Hmh, Hsc, Hkh, Hts.
  split_and!; [by destruct fam | by destruct fam |].
  exists added. split; [exact He|].
  apply (Forall_impl _ _ _ Hcalls). apply is_routing_call_update.
Qed.

Lemma hostname_step_update (w w' : World) : hostname_step w w' → update_step w w'.
Proof.
  intros (Hk & Hl & Hc). split; [|split].
  - unfold keeps, outside_hostname_controller, outside_routing_and_hostname in *.
    injection Hk as ?. congruence.
  - exact Hl.
  - by apply (calls_only_weaken _ _ _ _ is_hostname_call_update).
Qed.

(** The routing and DNS update between its brackets. *)
Lemma update_routing_and_dns_run (force_update : bool) (w : World) :
  route_manager_contract E →
  ∃ w' mid,
    update_routing_and_dns E force_update w = Returned tt w'
    ∧ effects w' = effects w ++ bracketed "update_routing_and_dns" mid
    ∧ Forall is_update_call mid
    ∧ keeps outside_routing_and_hostname w w'
    ∧ hostname_changed_latch w w'.
Proof.
  intros Hcontract.
  assert (Hinner : always_returns update_step
    (update_ip4_dns E >> update_ip6_dns E >>
     update_ip4_routing E force_update >> update_ip6_routing E force_update >>
     let! p := gets priv in
     update_system_hostname E (default_device4 p) (default_device6 p))%handler).
  { repeat first
      [ apply update_ip_dns_returns | by apply update_ip_routing_returns
      | apply (always_returns_weaken hostname_step);
          [apply hostname_step_update | apply update_system_hostname_returns]
      | apply always_returns_bind; [apply _ | | intros ?]
      | apply always_returns_gets; apply _ ]. }
  set (w0 := with_effects (λ l, l ++ [DnsBeginUpdates "update_routing_and_dns"]) w).
  destruct (Hinner w0) as ([] & w1 & Hrun & Hk & Hl & mid & He & Hcalls).
  exists (with_effects (λ l, l ++ [DnsEndUpdates "update_routing_and_dns"]) w1), mid.
  split.
  { unfold update_routing_and_dns. rewrite bind_run, emit_run. cbv beta iota. fold w0.
    revert Hrun. unfold update_ip4_dns, update_ip6_dns, update_ip4_routing, update_ip6_routing.
    rewrite !bind_run.
    destruct (update_ip_dns E AF_INET w0) as [[] wa|]; [|done]. cbv beta iota.
    rewrite !bind_run.
    destruct (update_ip_dns E AF_INET6 wa) as [[] wb|]; [|done]. cbv beta iota.
    rewrite !bind_run.
    destruct (update_ip_routing E AF_INET force_update wb) as [[] wc|]; [|done].
    cbv beta iota. rewrite !bind_run.
    destruct (update_ip_routing E AF_INET6 force_update wc) as [[] wd|]; [|done].
    cbv beta iota. rewrite !bind_run, !gets_run. cbv beta iota. rewrite !bind_run.
    destruct (update_system_hostname E _ _ wd) as [[] we|]; [|done].
    intros [= ->]. by rewrite emit_run. }
  cbn [effects with_effects]. rewrite He. unfold w0, bracketed. cbn [effects with_effects].
  split_and!.
  - by rewrite <- !app_assoc.
  - exact Hcalls.
  - exact Hk.
  - exact Hl.
Qed.

(** X10.  When the default-route manager keeps to what the routing update
    asserts of it, [update_routing_and_dns] returns, and all it tells its
    collaborators lies between one pair of brackets of the DNS manager:
    the preferred configurations (never with the type DEFAULT), the calls
    of the routing updates and those of the hostname controller.  It
    writes no device and no settings connection, leaves the pending
    checks, the wait records, the activating slots, the timers and the
    original hostname alone, and never resets [hostname_changed]. *)
Theorem update_routing_and_dns_bracketed (force_update : bool) (w : World) :
  route_manager_contract E →
  ∃ w' mid,
    update_routing_and_dns E force_update w = Returned tt w'
    ∧ effects w' = effects w ++ bracketed "update_routing_and_dns" mid
    ∧ Forall is_update_call mid
    ∧ (∀ func, DnsBeginUpdates func ∉ mid)
    ∧ (∀ func, DnsEndUpdates func ∉ mid)
    ∧ outside_routing_and_hostname w' = outside_routing_and_hostname w
    ∧ (hostname_changed (priv w) = true → hostname_changed (priv w') = true).
Proof.
  intros Hcontract.
  destruct (update_routing_and_dns_run force_update w Hcontract)
    as (w' & mid & Hrun & He & Hcalls & Hk & Hl).
  exists w', mid. rewrite Forall_forall in Hcalls.
  split_and!; try done.
  - by apply Forall_forall.
  - intros func Hin. apply (Hcalls _ Hin).
  - intros func Hin. apply (Hcalls _ Hin).
Qed.

End RoutingUpdate.

(** ** IP configuration changes and VPN sessions *)

Section ConfigChanges.

Context (E : Collaborators) (Q : DeviceQueries).

Lemma dns_remove_ip_config_run (fam : Family) (config : option NMIPConfig) (w : World) :
  ∃ w', dns_remove_ip_config fam config w = Returned tt w'
        ∧ only_calls w w' (dns_removal fam config).
Proof.
  unfold dns_remove_ip_config, dns_removal, only_calls.
  destruct config; hstep; eexists; (split; [reflexivity|]); simpl;
    rewrite ?app_nil_r; by unfold only_policy_changed.
Qed.

Lemma dns_add_ip_config_run (fam : Family) (ip_iface : option string)
    (config : option NMIPConfig) (t : NMDnsIPConfigType) (w : World) :
  ∃ w', dns_add_ip_config fam ip_iface config t w = Returned tt w'
        ∧ only_calls w w' (dns_addition fam ip_iface config t).
Proof.
  unfold dns_add_ip_config, dns_addition, only_calls.
  destruct config; hstep; eexists; (split; [reflexivity|]); simpl;
    rewrite ?app_nil_r; by unfold only_policy_changed.
Qed.

Lemma only_calls_trans (w1 w2 w3 : World) (a b : list Effect) :
  only_calls w1 w2 a → only_calls w2 w3 b → only_calls w1 w3 (a ++ b).
Proof.
  intros (Hp1 & Ho1 & He1) (Hp2 & Ho2 & He2). split_and!.
  - congruence.
  - by apply only_policy_changed_trans with w2.
  - by rewrite He2, He1, app_assoc.
Qed.

Lemma only_calls_emit (e : Effect) (w : World) :
  only_calls w (with_effects (λ l, l ++ [e]) w) [e].
Proof. by unfold only_calls, only_policy_changed. Qed.

Lemma only_calls_keeps (w w' : World) (added : list Effect) :
  only_calls w w' added →
  keeps outside_routing_and_hostname w w' ∧ hostname_changed_latch w w'.
Proof.
  intros (Hp & (?&?&?&?&?&?&?&?&?&?) & He).
  unfold keeps, outside_routing_and_hostname, hostname_changed_latch.
  rewrite Hp. split; [congruence | done].
Qed.

(** The part of the two IP configuration observers that runs when the
    device is not activating, after the configurations were exchanged. *)
Lemma ip_config_update_returns (fam : Family) :
  route_manager_contract E →
  always_returns update_step
    (update_ip_dns E fam >>
     update_ip_routing E fam true >>
     let! p := gets priv in
     update_system_hostname E (default_device4 p) (default_device6 p))%handler.
Proof.
  intros Hcontract.
  repeat first
    [ apply update_ip_dns_returns | by apply update_ip_routing_returns
    | apply (always_returns_weaken hostname_step);
        [apply hostname_step_update | apply update_system_hostname_returns]
    | apply always_returns_bind; [apply _ | | intros ?]
    | apply always_returns_gets; apply _ ].
Qed.

(** X11.  An IP configuration of a device changed.  While the device is
    activating, the observer only has the DNS manager drop the old
    configuration, between brackets, and nothing else happens.  Otherwise
    (and with a default-route manager that keeps to what the routing
    update asserts) it first exchanges the configurations, the old one
    dropped before the new one is handed over with the type DEFAULT, and
    not at all when both are the same object; then it runs, in this order,
    the family's DNS preference, the family's routing update forced, and
    the hostname update for the default devices the routing update left,
    which drop no configuration and hand none over with the type DEFAULT.
    All of it lies between one pair of brackets. *)
Theorem device_ip_config_changed_outcome
    (fam : Family) (d : nat) (new_config old_config : option NMIPConfig) (w : World) :
  let func := device_ip_config_changed_func fam in
  let w0 := with_effects (λ l, l ++ [DnsBeginUpdates func]) w in
  let exchange :=
    if same_ip_config old_config new_config then []
    else dns_removal fam old_config
         ++ dns_addition fam (Some (dev_ip_iface (device w d))) new_config
              NM_DNS_IP_CONFIG_TYPE_DEFAULT in
  (nm_device_is_activating Q w0 d = true →
   ∃ w',
     device_ip_config_changed E Q fam d new_config old_config w = Returned tt w'
     ∧ only_calls w w' (bracketed func (dns_removal fam old_config)))
  ∧ (nm_device_is_activating Q w0 d = false →
     route_manager_contract E →
     ∃ w' mid w1 w2 w3 w4,
       device_ip_config_changed E Q fam d new_config old_config w = Returned tt w'
       ∧ effects w' = effects w ++ bracketed func (exchange ++ mid)
       ∧ Forall is_update_call mid
       ∧ outside_routing_and_hostname w' = outside_routing_and_hostname w
       ∧ only_calls w w1 (DnsBeginUpdates func :: exchange)
       ∧ update_ip_dns E fam w1 = Returned tt w2
       ∧ update_ip_routing E fam true w2 = Returned tt w3
       ∧ update_system_hostname E (default_device4 (priv w3)) (default_device6 (priv w3)) w3
         = Returned tt w4
       ∧ effects w4 = effects w1 ++ mid
       ∧ w' = with_effects (λ l, l ++ [DnsEndUpdates func]) w4).
Proof.
  intros func w0 exchange. split.
  - intros Hact.
    destruct (dns_remove_ip_config_run fam old_config w0) as (w1 & Hrun1 & Hc1).
    exists (with_effects (λ l, l ++ [DnsEndUpdates func]) w1). split.
    + unfold device_ip_config_changed. rewrite bind_run, gets_run. cbv beta iota zeta.
      rewrite bind_run, emit_run. cbv beta iota.
      change (match fam with
        | AF_INET => "device_ip4_config_changed"
        | AF_INET6 => "device_ip6_config_changed" end) with func.
      change (with_effects _ w) with w0.
      rewrite bind_run, gets_run. cbv beta iota. rewrite Hact. cbn [negb].
      rewrite bind_run, Hrun1. cbv beta iota.
      by rewrite emit_run.
    + unfold bracketed.
      change (DnsBeginUpdates func :: dns_removal fam old_config ++ [DnsEndUpdates func])
        with ([DnsBeginUpdates func] ++ dns_removal fam old_config ++ [DnsEndUpdates func]).
      eapply only_calls_trans; [apply only_calls_emit|].
      eapply only_calls_trans; [exact Hc1 | apply only_calls_emit].
  - intros Hact Hcontract.
    assert (Hpre : ∃ w1,
      when (negb (same_ip_config old_config new_config))
           (dns_remove_ip_config fam old_config >>
            dns_add_ip_config fam (Some (dev_ip_iface (device w d))) new_config
              NM_DNS_IP_CONFIG_TYPE_DEFAULT) w0 = Returned tt w1
      ∧ only_calls w0 w1 exchange).
    { unfold exchange. destruct (same_ip_config old_config new_config); cbn [negb when].
      - exists w0. split; [reflexivity|].
        unfold only_calls. rewrite app_nil_r. by unfold only_policy_changed.
      - destruct (dns_remove_ip_config_run fam old_config w0) as (wa & Hruna & Hca).
        destruct (dns_add_ip_config_run fam (Some (dev_ip_iface (device w d))) new_config
                    NM_DNS_IP_CONFIG_TYPE_DEFAULT wa) as (wb & Hrunb & Hcb).
        exists wb. split; [by rewrite bind_run, Hruna | by eapply only_calls_trans]. }
    destruct Hpre as (w1 & Hrun1 & Hc1).
    destruct (ip_config_update_returns fam Hcontract w1)
      as ([] & w4 & Hrun4 & Hk4 & _ & mid & He4 & Hcalls).
    assert (Hsteps : ∃ w2 w3,
      update_ip_dns E fam w1 = Returned tt w2
      ∧ update_ip_routing E fam true w2 = Returned tt w3
      ∧ update_system_hostname E (default_device4 (priv w3)) (default_device6 (priv w3)) w3
        = Returned tt w4).
    { revert Hrun4. rewrite !bind_run.
      destruct (update_ip_dns E fam w1) as [[] w2|]; [|done]. cbv beta iota.
      rewrite !bind_run.
      destruct (update_ip_routing E fam true w2) as [[] w3|] eqn:Hrun3; [|done].
      cbv beta iota. rewrite !bind_run, !gets_run. cbv beta iota. intros Hrun4.
      by exists w2, w3. }
    destruct Hsteps as (w2 & w3 & Hrun2 & Hrun3 & Hrun4').
    exists (with_effects (λ l, l ++ [DnsEndUpdates func]) w4), mid, w1, w2, w3, w4.
    split_and!.
    + unfold device_ip_config_changed. rewrite bind_run, gets_run. cbv beta iota zeta.
      rewrite bind_run, emit_run. cbv beta iota.
      change (match fam with
        | AF_INET => "device_ip4_config_changed"
        | AF_INET6 => "device_ip6_config_changed" end) with func.
      change (with_effects _ w) with w0.
      rewrite bind_run, gets_run. cbv beta iota. rewrite Hact. cbn [negb].
      rewrite !bind_run, Hrun1. cbv beta iota.
      rewrite !bind_run, Hrun2. cbv beta iota.
      rewrite !bind_run, Hrun3. cbv beta iota.
      rewrite !bind_run, !gets_run. cbv beta iota. rewrite Hrun4'. cbv beta iota.
      by rewrite emit_run.
    + destruct Hc1 as (_ & _ & He1). cbn [effects with_effects].
      rewrite He4, He1. unfold w0, bracketed. cbn [effects with_effects].
      by rewrite <- !app_assoc.
    + exact Hcalls.
    + destruct (only_calls_keeps _ _ _ Hc1) as [Hk1 _].
      unfold keeps in *.
      change (outside_routing_and_hostname w4 = outside_routing_and_hostname w0).
      by rewrite Hk4, Hk1.
    + change (DnsBeginUpdates func :: exchange) with ([DnsBeginUpdates func] ++ exchange).
      eapply only_calls_trans; [apply only_calls_emit | exact Hc1].
    + exact Hrun2.
    + exact Hrun3.
    + exact Hrun4'.
    + exact He4.
    + reflexivity.
Qed.

(** X12.  A VPN session reports a state change.  On ACTIVATED the
    session's IPv4 and IPv6 configurations are handed to the DNS manager
    with the type VPN and the routing and DNS update is forced, between
    brackets.  On FAILED or DISCONNECTED from IP_CONFIG_GET or ACTIVATED the
    DNS manager is told to drop the two configurations and the update is
    forced, between brackets.  Every other change of state, a failure
    before the session had an IP configuration among them, changes
    nothing. *)
Theorem vpn_connection_state_changed_outcome
    (vpn : nat) (new_state old_state : NMVpnConnectionState) (w : World) :
  route_manager_contract E →
  (new_state = NM_VPN_CONNECTION_STATE_ACTIVATED →
   let w0 := with_effects (λ l, l ++ [DnsBeginUpdates "vpn_connection_activated"]) w in
   let ip_iface := nm_vpn_connection_get_ip_iface Q w0 vpn in
   ∃ w1 w2,
     only_calls w w1
       (DnsBeginUpdates "vpn_connection_activated"
        :: dns_addition AF_INET ip_iface (ac_vpn_ip4_config (active w vpn))
             NM_DNS_IP_CONFIG_TYPE_VPN
        ++ dns_addition AF_INET6 ip_iface (ac_vpn_ip6_config (active w vpn))
             NM_DNS_IP_CONFIG_TYPE_VPN)
     ∧ update_routing_and_dns E true w1 = Returned tt w2
     ∧ vpn_connection_state_changed E Q vpn new_state old_state w =
         Returned tt
           (with_effects (λ l, l ++ [DnsEndUpdates "vpn_connection_activated"]) w2))
  ∧ (new_state ∈ [NM_VPN_CONNECTION_STATE_FAILED; NM_VPN_CONNECTION_STATE_DISCONNECTED] →
     old_state ∈ [NM_VPN_CONNECTION_STATE_IP_CONFIG_GET; NM_VPN_CONNECTION_STATE_ACTIVATED] →
     ∃ w1 w2,
       only_calls w w1
         (DnsBeginUpdates "vpn_connection_deactivated"
          :: dns_removal AF_INET (ac_vpn_ip4_config (active w vpn))
          ++ dns_removal AF_INET6 (ac_vpn_ip6_config (active w vpn)))
       ∧ update_routing_and_dns E true w1 = Returned tt w2
       ∧ vpn_connection_state_changed E Q vpn new_state old_state w =
           Returned tt
             (with_effects (λ l, l ++ [DnsEndUpdates "vpn_connection_deactivated"]) w2))
  ∧ (new_state ≠ NM_VPN_CONNECTION_STATE_ACTIVATED →
     new_state ∉ [NM_VPN_CONNECTION_STATE_FAILED; NM_VPN_CONNECTION_STATE_DISCONNECTED]
     ∨ old_state ∉ [NM_VPN_CONNECTION_STATE_IP_CONFIG_GET;
                     NM_VPN_CONNECTION_STATE_ACTIVATED] →
     vpn_connection_state_changed E Q vpn new_state old_state w = Returned tt w).
Proof.
  intros Hcontract.
  assert (Hactivated : ∃ w1 w2,
    only_calls w w1
      (DnsBeginUpdates "vpn_connection_activated"
       :: dns_addition AF_INET
            (nm_vpn_connection_get_ip_iface Q
               (with_effects (λ l, l ++ [DnsBeginUpdates "vpn_connection_activated"]) w) vpn)
            (ac_vpn_ip4_config (active w vpn)) NM_DNS_IP_CONFIG_TYPE_VPN
       ++ dns_addition AF_INET6
            (nm_vpn_connection_get_ip_iface Q
               (with_effects (λ l, l ++ [DnsBeginUpdates "vpn_connection_activated"]) w) vpn)
            (ac_vpn_ip6_config (active w vpn)) NM_DNS_IP_CONFIG_TYPE_VPN)
    ∧ update_routing_and_dns E true w1 = Returned tt w2
    ∧ vpn_connection_activated E Q vpn w =
        Returned tt
          (with_effects (λ l, l ++ [DnsEndUpdates "vpn_connection_activated"]) w2)).
  { set (w0 := with_effects (λ l, l ++ [DnsBeginUpdates "vpn_connection_activated"]) w).
    set (ip_iface := nm_vpn_connection_get_ip_iface Q w0 vpn).
    destruct (dns_add_ip_config_run AF_INET ip_iface (ac_vpn_ip4_config (active w vpn))
                NM_DNS_IP_CONFIG_TYPE_VPN w0) as (wa & Hruna & Hca).
    destruct (dns_add_ip_config_run AF_INET6 ip_iface (ac_vpn_ip6_config (active w vpn))
                NM_DNS_IP_CONFIG_TYPE_VPN wa) as (wb & Hrunb & Hcb).
    destruct (update_routing_and_dns_run E true wb Hcontract) as (w2 & mid & Hrun2 & _).
    assert (Hactive : active_objs wa = active_objs w).
    { destruct Hca as (_ & (_ & Ha & _) & _). exact Ha. }
    exists wb, w2. split_and!.
    - change (DnsBeginUpdates "vpn_connection_activated" :: ?l)
        with ([DnsBeginUpdates "vpn_connection_activated"] ++ l).
      eapply only_calls_trans; [apply only_calls_emit|].
      by eapply only_calls_trans.
    - exact Hrun2.
    - unfold vpn_connection_activated. rewrite bind_run, emit_run. cbv beta iota.
      change (with_effects _ w) with w0.
      rewrite bind_run, gets_run. cbv beta iota. fold ip_iface.
      rewrite !bind_run, !gets_run. cbv beta iota.
      change (active w0 vpn) with (active w vpn). rewrite Hruna. cbv beta iota.
      rewrite !bind_run, !gets_run. cbv beta iota.
      unfold active at 1. rewrite Hactive. fold (active w vpn).
      rewrite Hrunb. cbv beta iota. rewrite bind_run, Hrun2. cbv beta iota.
      by rewrite emit_run. }
  assert (Hdeactivated : ∃ w1 w2,
    only_calls w w1
      (DnsBeginUpdates "vpn_connection_deactivated"
       :: dns_removal AF_INET (ac_vpn_ip4_config (active w vpn))
       ++ dns_removal AF_INET6 (ac_vpn_ip6_config (active w vpn)))
    ∧ update_routing_and_dns E true w1 = Returned tt w2
    ∧ vpn_connection_deactivated E vpn w =
        Returned tt
          (with_effects (λ l, l ++ [DnsEndUpdates "vpn_connection_deactivated"]) w2)).
  { set (w0 := with_effects (λ l, l ++ [DnsBeginUpdates "vpn_connection_deactivated"]) w).
    destruct (dns_remove_ip_config_run AF_INET (ac_vpn_ip4_config (active w vpn)) w0)
      as (wa & Hruna & Hca).
    destruct (dns_remove_ip_config_run AF_INET6 (ac_vpn_ip6_config (active w vpn)) wa)
      as (wb & Hrunb & Hcb).
    destruct (update_routing_and_dns_run E true wb Hcontract) as (w2 & mid & Hrun2 & _).
    assert (Hactive : active_objs wa = active_objs w).
    { destruct Hca as (_ & (_ & Ha & _) & _). exact Ha. }
    exists wb, w2. split_and!.
    - change (DnsBeginUpdates "vpn_connection_deactivated" :: ?l)
        with ([DnsBeginUpdates "vpn_connection_deactivated"] ++ l).
      eapply only_calls_trans; [apply only_calls_emit|].
      by eapply only_calls_trans.
    - exact Hrun2.
    - unfold vpn_connection_deactivated. rewrite bind_run, emit_run. cbv beta iota.
      change (with_effects _ w) with w0.
      rewrite !bind_run, !gets_run. cbv beta iota.
      change (active w0 vpn) with (active w vpn). rewrite Hruna. cbv beta iota.
      rewrite !bind_run, !gets_run. cbv beta iota.
      unfold active at 1. rewrite Hactive. fold (active w vpn).
      rewrite Hrunb. cbv beta iota. rewrite bind_run, Hrun2. cbv beta iota.
      by rewrite emit_run. }
  split_and!.
  - intros -> w0 ip_iface. destruct Hactivated as (w1 & w2 & Hc & Hrun & Hact).
    exists w1, w2. by split_and!.
  - intros Hnew Hold. destruct Hdeactivated as (w1 & w2 & Hc & Hrun & Hde).
    exists w1, w2. split_and!; [done | done |].
    unfold vpn_connection_state_changed.
    elem_cases Hnew; elem_cases Hold; exact Hde.
  - intros Hne Hother. unfold vpn_connection_state_changed.
    rewrite bool_decide_eq_false_2 by done.
    destruct Hother as [Hnew | Hold].
    + destruct new_state; try done; exfalso; apply Hnew; rewrite !elem_of_cons; auto.
    + destruct new_state; try done;
        destruct old_state; try done; exfalso; apply Hold; rewrite !elem_of_cons; auto.
Qed.

End ConfigChanges.

(** ** The retry ledger, continued *)

Section Ledger.

Context (E : Collaborators) (Q : DeviceQueries).

(** A loop over the configurations [conns] whose body applies [f] to the
    cell of the configuration it visits when [sel] selects it. *)
Lemma ledger_loop (now : Z) (sel : nat → ConnectionObj → bool)
    (f : ConnectionObj → ConnectionObj) (body : nat → Handler unit) (conns : list nat) :
  (∀ c o, sel c (f o) = true → f (f o) = f o) →
  (∀ c w, monotonic_timestamp_s w = now →
     ∃ w', body c w = Returned tt w'
           ∧ keeps outside_ledger w w'
           ∧ connection_objs w' =
               if sel c (connection w c) then alter f c (connection_objs w)
               else connection_objs w) →
  ∀ w, monotonic_timestamp_s w = now →
    ∃ w', for_each conns body w = Returned tt w'
          ∧ keeps outside_ledger w w'
          ∧ cells_updated sel f conns w w'.
Proof.
  intros Hidem Hbody. induction conns as [|c0 conns IH]; intros w Hnow.
  - exists w. split; [reflexivity|]. split; [reflexivity|]. intros c.
    by rewrite bool_decide_eq_false_2 by apply not_elem_of_nil.
  - destruct (Hbody c0 w Hnow) as (w1 & Hrun1 & Hk1 & Hc1).
    assert (Hnow1 : monotonic_timestamp_s w1 = now).
    { unfold keeps, outside_ledger in Hk1. injection Hk1 as ?. congruence. }
    destruct (IH w1 Hnow1) as (w' & Hrun & Hk & Hc).
    exists w'. split; [cbn [for_each]; by rewrite bind_run, Hrun1|].
    split; [by etrans|].
    intros c. rewrite (Hc c). unfold connection. rewrite Hc1.
    destruct (decide (c = c0)) as [->|Hne].
    + rewrite (bool_decide_eq_true_2 (c0 ∈ c0 :: conns)) by (by left). cbn [andb].
      fold (connection w c0).
      destruct (sel c0 (connection w c0)) eqn:Hsel.
      * rewrite lookup_alter_eq.
        destruct (connection_objs w !! c0) as [o|]; simpl; [|by destruct (_ && _)].
        destruct (bool_decide (c0 ∈ conns) && sel c0 (f o)) eqn:Hagain; [|done].
        apply andb_true_iff in Hagain as [_ Hagain]. by rewrite (Hidem c0 o Hagain).
      * fold (connection w c0). rewrite Hsel. by rewrite andb_false_r.
    + assert (Hlook : (if sel c0 (connection w c0)
                       then alter f c0 (connection_objs w)
                       else connection_objs w) !! c = connection_objs w !! c).
      { destruct (sel c0 _); [by rewrite lookup_alter_ne | done]. }
      rewrite Hlook.
      replace (bool_decide (c ∈ c0 :: conns)) with (bool_decide (c ∈ conns)); [done|].
      apply bool_decide_ext. rewrite elem_of_cons. split; [by right | by intros [?|?]].
Qed.

(** A configuration is enabled for autoconnect again: the counter is
    reset, then the blocked reason is cleared. *)
Lemma reenable_run (c : nat) (w : World) :
  ∃ w',
    (nm_settings_connection_reset_autoconnect_retries E c >>
     nm_settings_connection_set_autoconnect_blocked_reason c NM_DEVICE_STATE_REASON_NONE)%handler
      w = Returned tt w'
    ∧ keeps outside_ledger w w'
    ∧ connection_objs w' =
        alter (reenabled_cell E (monotonic_timestamp_s w)) c (connection_objs w).
Proof.
  unfold nm_settings_connection_reset_autoconnect_retries,
    nm_settings_connection_set_autoconnect_retries,
    nm_settings_connection_set_autoconnect_blocked_reason.
  hstep. eexists. split; [reflexivity|]. split; [reflexivity|].
  cbn [connection_objs with_connection_objs]. by rewrite alter_alter_eq.
Qed.

Lemma reenabled_cell_twice (now : Z) (o : ConnectionObj) :
  reenabled_cell E now (reenabled_cell E now o) = reenabled_cell E now o.
Proof. reflexivity. Qed.

Lemma keeps_outside_ledger_emit (e : Effect) (w w' : World) :
  keeps outside_ledger (with_effects (λ l, l ++ [e]) w) w' →
  priv w' = priv w ∧ device_objs w' = device_objs w ∧ active_objs w' = active_objs w
  ∧ only_policy_changed_but_ledger w w'
  ∧ effects w' = effects w ++ [e].
Proof.
  unfold keeps, outside_ledger, only_policy_changed_but_ledger. cbn.
  intros [= ? ? ? ? ? ? ? ? ? ? ?]. by split_and!.
Qed.

(** X13.  When a secret agent registers, every configuration of the
    settings store that is blocked for NO_SECRETS is enabled for
    autoconnect again (counter at its default, no blocked reason), no other
    configuration is touched, and the activate-all idle is scheduled:
    afterwards no configuration of the store is blocked for NO_SECRETS. *)
Theorem secret_agent_registered_unblocks (w : World) :
  ∃ w' added,
    secret_agent_registered E w = Returned tt w'
    ∧ effects w' = effects w ++ added
    ∧ cells_updated
        (λ _ o, bool_decide (autoconnect_blocked_reason o = NM_DEVICE_STATE_REASON_NO_SECRETS))
        (reenabled_cell E (monotonic_timestamp_s w))
        (settings_connections_sorted w) w w'
    ∧ (∀ c, c ∈ settings_connections_sorted w →
         autoconnect_blocked_reason (connection w' c) ≠ NM_DEVICE_STATE_REASON_NO_SECRETS)
    ∧ schedule_activate_all_id (priv w') = true
    ∧ GIdleAdd "schedule_activate_all_cb" ∈ added
    ∧ device_objs w' = device_objs w
    ∧ active_objs w' = active_objs w.
Proof.
  set (now := monotonic_timestamp_s w).
  set (log := NMLog LOGL_DEBUG LOGD_DEVICE
                "re-enabling autoconnect for all connections with failed secrets" []).
  set (w0 := with_effects (λ l, l ++ [log]) w).
  destruct (ledger_loop now
              (λ _ o, bool_decide (autoconnect_blocked_reason o
                                   = NM_DEVICE_STATE_REASON_NO_SECRETS))
              (reenabled_cell E now)
              (λ c, let! blocked := nm_settings_connection_get_autoconnect_blocked_reason c in
                    when (bool_decide (blocked = NM_DEVICE_STATE_REASON_NO_SECRETS))
                      (nm_settings_connection_reset_autoconnect_retries E c >>
                       nm_settings_connection_set_autoconnect_blocked_reason c
                         NM_DEVICE_STATE_REASON_NONE))%handler
              (settings_connections_sorted w)) with (w := w0)
    as (w1 & Hrun1 & Hk1 & Hcells).
  { intros c o Hsel. reflexivity. }
  { intros c wc Hnow. unfold nm_settings_connection_get_autoconnect_blocked_reason.
    rewrite bind_run, gets_run. cbv beta iota.
    destruct (bool_decide (autoconnect_blocked_reason (connection wc c)
                           = NM_DEVICE_STATE_REASON_NO_SECRETS)).
    - rewrite when_true_run. destruct (reenable_run c wc) as (w' & Hrun & Hk & Hc).
      exists w'. rewrite Hnow in Hc. done.
    - exists wc. rewrite when_false_run. split; [reflexivity|]. split; reflexivity. }
  { reflexivity. }
  destruct (schedule_activate_all_run w1) as (w' & added & Hrun2 & Ho2 & He2 & Hp2 & Hin & _).
  apply keeps_outside_ledger_emit in Hk1 as (Hp1 & Hd1 & Ha1 & _ & He1).
  destruct Ho2 as (Hd2 & Ha2 & Hc2 & _).
  exists w', (log :: added). split_and!.
  - unfold secret_agent_registered, reset_autoconnect_for_failed_secrets.
    rewrite !bind_run, emit_run. cbv beta iota. fold log. fold w0.
    rewrite bind_run, gets_run. cbv beta iota.
    change (settings_connections_sorted w0) with (settings_connections_sorted w).
    by rewrite Hrun1.
  - rewrite He2, He1. by rewrite <- app_assoc.
  - intros c. rewrite Hc2. apply Hcells.
  - intros c Hc. unfold connection. rewrite Hc2, (Hcells c).
    rewrite bool_decide_eq_true_2 by done. cbn [andb].
    change (connection w0 c) with (connection w c).
    case_bool_decide as Hblocked.
    + change (connection_objs w0) with (connection_objs w).
      unfold connection in Hblocked. by destruct (connection_objs w !! c).
    + exact Hblocked.
  - by rewrite Hp2.
  - by right.
  - by rewrite Hd2.
  - by rewrite Ha2.
Qed.

(** [reset_autoconnect_all], for all devices or for one device whose
    compatibility with a configuration is [compatible]. *)
Lemma reset_autoconnect_all_run (d : option nat) (compatible : nat → bool) (w : World) :
  (∀ dev w' c, d = Some dev →
     nm_device_check_connection_compatible E w' dev c = compatible c) →
  (d = None → ∀ c, compatible c = true) →
  ∃ w' log,
    reset_autoconnect_all E d w = Returned tt w'
    ∧ priv w' = priv w
    ∧ only_policy_changed_but_ledger w w'
    ∧ effects w' = effects w ++ [log]
    ∧ (∃ fmt args, log = NMLog LOGL_DEBUG LOGD_DEVICE fmt args)
    ∧ cells_updated (λ c _, compatible c) (reenabled_cell E (monotonic_timestamp_s w))
        (settings_connections_sorted w) w w'.
Proof.
  intros Hsome Hnone.
  set (now := monotonic_timestamp_s w).
  set (log := match d with
              | Some dev =>
                  NMLog LOGL_DEBUG LOGD_DEVICE
                    "re-enabling autoconnect for all connections on %s"
                    [LogStr (dev_iface (device w dev))]
              | None =>
                  NMLog LOGL_DEBUG LOGD_DEVICE
                    "re-enabling autoconnect for all connections" []
              end).
  set (w0 := with_effects (λ l, l ++ [log]) w).
  destruct (ledger_loop now (λ c _, compatible c) (reenabled_cell E now)
              (λ c, let! compatible :=
                      gets (λ w, match d with
                                 | None => true
                                 | Some dev => nm_device_check_connection_compatible E w dev c
                                 end) in
                    when compatible
                      (nm_settings_connection_reset_autoconnect_retries E c >>
                       nm_settings_connection_set_autoconnect_blocked_reason c
                         NM_DEVICE_STATE_REASON_NONE))%handler
              (settings_connections_sorted w)) with (w := w0)
    as (w1 & Hrun1 & Hk1 & Hcells).
  { intros c o _. reflexivity. }
  { intros c wc Hnow. rewrite bind_run, gets_run. cbv beta iota.
    replace (match d with
             | Some dev => nm_device_check_connection_compatible E wc dev c
             | None => true
             end) with (compatible c).
    2:{ destruct d as [dev|]; [by rewrite (Hsome dev) | by rewrite Hnone]. }
    destruct (compatible c).
    - rewrite when_true_run. destruct (reenable_run c wc) as (w' & Hrun & Hk & Hc).
      exists w'. rewrite Hnow in Hc. done.
    - exists wc. rewrite when_false_run. split; [reflexivity|]. split; reflexivity. }
  { reflexivity. }
  apply keeps_outside_ledger_emit in Hk1 as (Hp1 & Hd1 & Ha1 & Ho1 & He1).
  exists w1, log. split_and!; try done.
  - unfold reset_autoconnect_all. rewrite !bind_run, gets_run. cbv beta iota.
    assert (Hlog : match d with
                   | Some dev =>
                       emit (NMLog LOGL_DEBUG LOGD_DEVICE
                               "re-enabling autoconnect for all connections on %s"
                               [LogStr (dev_iface (device w dev))])
                   | None =>
                       emit (NMLog LOGL_DEBUG LOGD_DEVICE
                               "re-enabling autoconnect for all connections" [])
                   end w = Returned tt w0).
    { unfold w0, log. by destruct d. }
    rewrite Hlog. cbv beta iota. rewrite bind_run, gets_run. cbv beta iota.
    exact Hrun1.
  - unfold log. destruct d; by eexists _, _.
Qed.

(** X14.  When the manager goes to sleep or networking is disabled, every
    configuration of the settings store is enabled for autoconnect again:
    its counter is at the default and it has no blocked reason, whatever
    they were, and nothing else changes but one line of the log.  When the
    manager is awake and networking is enabled the observer does
    nothing. *)
Theorem sleeping_changed_reenables_all (sleeping enabled : bool) (w : World) :
  (sleeping = false → enabled = true → sleeping_changed E sleeping enabled w = Returned tt w)
  ∧ (sleeping = true ∨ enabled = false →
     ∃ w',
       sleeping_changed E sleeping enabled w = Returned tt w'
       ∧ cells_updated (λ _ _, true) (reenabled_cell E (monotonic_timestamp_s w))
           (settings_connections_sorted w) w w'
       ∧ (∀ c o, c ∈ settings_connections_sorted w → connection_objs w' !! c = Some o →
            autoconnect_retries o = AUTOCONNECT_RETRIES_DEFAULT E
            ∧ autoconnect_blocked_reason o = NM_DEVICE_STATE_REASON_NONE)
       ∧ priv w' = priv w
       ∧ only_policy_changed_but_ledger w w'
       ∧ effects w' =
           effects w
             ++ [NMLog LOGL_DEBUG LOGD_DEVICE "re-enabling autoconnect for all connections" []]).
Proof.
  split.
  - by intros -> ->.
  - intros Hcase.
    destruct (reset_autoconnect_all_run None (λ _, true) w)
      as (w' & log & Hrun & Hp & Ho & He & _ & Hcells); [done | done |].
    exists w'. split_and!; try done.
    + unfold sleeping_changed.
      replace (sleeping || negb enabled) with true; [exact Hrun|].
      destruct Hcase as [-> | ->]; [done | by rewrite orb_true_r].
    + intros c o Hc Ho'. rewrite (Hcells c) in Ho'.
      rewrite bool_decide_eq_true_2 in Ho' by done. cbn [andb] in Ho'.
      destruct (connection_objs w !! c) as [o0|]; [|done].
      injection Ho' as <-. done.
    + revert Hrun He. unfold reset_autoconnect_all. rewrite !bind_run, gets_run.
      cbv beta iota. rewrite emit_run. cbv beta iota. rewrite bind_run, gets_run.
      cbv beta iota. intros Hrun He.
      destruct (ledger_loop (monotonic_timestamp_s w) (λ _ _, true)
                  (reenabled_cell E (monotonic_timestamp_s w))
                  (λ c, let! compatible := gets (λ _, true) in
                        when compatible
                          (nm_settings_connection_reset_autoconnect_retries E c >>
                           nm_settings_connection_set_autoconnect_blocked_reason c
                             NM_DEVICE_STATE_REASON_NONE))%handler
                  (settings_connections_sorted w)) with
        (w := with_effects
                (λ l, l ++ [NMLog LOGL_DEBUG LOGD_DEVICE
                              "re-enabling autoconnect for all connections" []]) w)
        as (w1 & Hrun1 & Hk1 & _).
      { reflexivity. }
      { intros c wc Hnow. rewrite bind_run, gets_run, when_true_run.
        destruct (reenable_run c wc) as (w2 & Hrun2 & Hk & Hc).
        exists w2. rewrite Hnow in Hc. done. }
      { reflexivity. }
      cbn [settings_connections_sorted with_effects] in Hrun.
      rewrite Hrun1 in Hrun. injection Hrun as <-.
      by apply keeps_outside_ledger_emit in Hk1 as (_ & _ & _ & _ & He1).
Qed.

(** [block_autoconnect_for_device], for a device whose compatibility
    with a configuration is [compatible]. *)
Lemma block_autoconnect_for_device_run (d : nat) (compatible : nat → bool) (w : World) :
  (∀ w' c, nm_device_check_connection_compatible E w' d c = compatible c) →
  ∃ w' added,
    block_autoconnect_for_device E d w = Returned tt w'
    ∧ priv w' = priv w
    ∧ only_policy_changed_but_ledger w w'
    ∧ effects w' = effects w ++ added
    ∧ Forall (λ e, ∃ fmt args, e = NMLog LOGL_DEBUG LOGD_DEVICE fmt args) added
    ∧ cells_updated (λ c _, dev_is_software (device w d) && compatible c)
        (set_blocked_reason NM_DEVICE_STATE_REASON_USER_REQUESTED)
        (settings_connections_sorted w) w w'.
Proof.
  intros Hcompat.
  set (log := NMLog LOGL_DEBUG LOGD_DEVICE "blocking autoconnect for all connections on %s"
                [LogStr (dev_iface (device w d))]).
  set (w0 := with_effects (λ l, l ++ [log]) w).
  assert (Hstart : block_autoconnect_for_device E d w =
            if negb (dev_is_software (device w d)) then Returned tt w0
            else for_each (settings_connections_sorted w)
                   (λ c, let! compatible :=
                           gets (λ w, nm_device_check_connection_compatible E w d c) in
                         when compatible
                           (nm_settings_connection_set_autoconnect_blocked_reason
                              c NM_DEVICE_STATE_REASON_USER_REQUESTED))%handler w0).
  { unfold block_autoconnect_for_device. rewrite !bind_run, gets_run. cbv beta iota.
    rewrite emit_run. cbv beta iota. fold log. fold w0.
    rewrite bind_run, gets_run. cbv beta iota.
    change (device w0 d) with (device w d).
    destruct (dev_is_software (device w d)); cbn [negb]; [|reflexivity].
    by rewrite bind_run, gets_run. }
  destruct (dev_is_software (device w d)) eqn:Hsoft; cbn [negb] in Hstart.
  - destruct (ledger_loop (monotonic_timestamp_s w) (λ c _, compatible c)
                (set_blocked_reason NM_DEVICE_STATE_REASON_USER_REQUESTED)
                (λ c, let! compatible :=
                        gets (λ w, nm_device_check_connection_compatible E w d c) in
                      when compatible
                        (nm_settings_connection_set_autoconnect_blocked_reason
                           c NM_DEVICE_STATE_REASON_USER_REQUESTED))%handler
                (settings_connections_sorted w)) with (w := w0)
      as (w1 & Hrun1 & Hk1 & Hcells).
    { reflexivity. }
    { intros c wc _. rewrite bind_run, gets_run. cbv beta iota. rewrite Hcompat.
      destruct (compatible c).
      - rewrite when_true_run.
        unfold nm_settings_connection_set_autoconnect_blocked_reason. rewrite modify_run.
        eexists. split; [reflexivity|]. split; reflexivity.
      - rewrite when_false_run. exists wc. split; [reflexivity|]. split; reflexivity. }
    { reflexivity. }
    apply keeps_outside_ledger_emit in Hk1 as (Hp1 & Hd1 & Ha1 & Ho1 & He1).
    exists w1, [log]. rewrite Hstart. split_and!; try done.
    repeat constructor. by eexists _, _.
  - exists w0, [log]. rewrite Hstart. split_and!; try done.
    + repeat constructor. by eexists _, _.
    + intros c. by rewrite andb_false_r.
Qed.

(** X15.  A device enters DEACTIVATING.  Unless the user asked for it, no
    configuration changes.  If the user did: while the device still
    autoconnects only the configuration of the device is blocked; once
    autoconnect is off every configuration of the store that is compatible
    with the device is blocked, but only for a software device.  Blocking
    sets the blocked reason USER_REQUESTED and leaves the counter, the
    deadline and the secrets of the configuration as they are; no pending
    check, wait record, timer or default device changes. *)
Theorem device_state_changed_deactivating_blocks
    (d : nat) (old_state : NMDeviceState) (reason : NMDeviceStateReason)
    (compatible : nat → bool) (w : World) :
  (∀ w' c, nm_device_check_connection_compatible E w' d c = compatible c) →
  ∃ w',
    device_state_changed E d NM_DEVICE_STATE_DEACTIVATING old_state reason w = Returned tt w'
    ∧ (∀ c, connection_objs w' !! c =
            if blocked_by_user_request w d reason compatible c
            then set_blocked_reason NM_DEVICE_STATE_REASON_USER_REQUESTED
                   <$> connection_objs w !! c
            else connection_objs w !! c)
    ∧ only_policy_changed_but_ledger w w'
    ∧ pending_activation_checks (priv w') = pending_activation_checks (priv w)
    ∧ pending_secondaries (priv w') = pending_secondaries (priv w)
    ∧ reset_retries_id (priv w') = reset_retries_id (priv w)
    ∧ default_device4 (priv w') = default_device4 (priv w)
    ∧ default_device6 (priv w') = default_device6 (priv w)
    ∧ (∀ e, e ∈ effects w' → e ∈ effects w ∨ is_dns_effect e = false).
Proof.
  intros Hcompat.
  assert (Hbranch : ∃ w1 added,
    when (bool_decide (reason = NM_DEVICE_STATE_REASON_USER_REQUESTED))
      (let! autoconnect := gets (λ w, dev_autoconnect (device w d)) in
       if negb autoconnect then block_autoconnect_for_device E d
       else
         match dev_settings_connection (device w d) with
         | Some c =>
             (let! w := gets (λ w, w) in
              emit (NMLog LOGL_DEBUG LOGD_DEVICE
                      "blocking autoconnect of connection '%s' by user request"
                      [LogStr (Some (nm_settings_connection_get_id w c))])) >>
             nm_settings_connection_set_autoconnect_blocked_reason
               c NM_DEVICE_STATE_REASON_USER_REQUESTED
         | None => ret tt
         end)%handler w = Returned tt w1
    ∧ priv w1 = priv w
    ∧ only_policy_changed_but_ledger w w1
    ∧ effects w1 = effects w ++ added
    ∧ Forall (λ e, ∃ fmt args, e = NMLog LOGL_DEBUG LOGD_DEVICE fmt args) added
    ∧ (∀ c, connection_objs w1 !! c =
            if blocked_by_user_request w d reason compatible c
            then set_blocked_reason NM_DEVICE_STATE_REASON_USER_REQUESTED
                   <$> connection_objs w !! c
            else connection_objs w !! c)).
  { unfold blocked_by_user_request.
    destruct (bool_decide (reason = NM_DEVICE_STATE_REASON_USER_REQUESTED)); cbn [andb].
    2:{ exists w, []. rewrite when_false_run, app_nil_r. split_and!; try done. }
    rewrite when_true_run, bind_run, gets_run. cbv beta iota.
    destruct (dev_autoconnect (device w d)); cbn [negb].
    - destruct (dev_settings_connection (device w d)) as [c0|].
      + hstep. unfold nm_settings_connection_set_autoconnect_blocked_reason. hstep.
        eexists _, [_]. split; [reflexivity|].
        cbn [priv effects connection_objs with_effects with_connection_objs].
        split_and!; try done.
        * repeat constructor. by eexists _, _.
        * intros c. rewrite lookup_alter. case_bool_decide as Hc.
          -- injection Hc as ->. by rewrite decide_True.
          -- rewrite decide_False; [done|]. by intros ->.
      + exists w, []. rewrite ret_run, app_nil_r. split_and!; try done.
    - destruct (block_autoconnect_for_device_run d compatible w Hcompat)
        as (w1 & added & Hrun & Hp & Ho & He & Hlog & Hcells).
      exists w1, added. split; [exact Hrun|]. split_and!; try done.
      intros c. rewrite (Hcells c).
      by destruct (bool_decide _), (dev_is_software _), (compatible c). }
  destruct Hbranch as (w1 & added & Hrun1 & Hp1 & Ho1 & He1 & Hlog & Hcells).
  destruct (check_activating_devices_run E w1)
    as (w' & a4 & a6 & notes & Hrun & Hp & Hopc & He & Hnotes).
  exists w'. split.
  { unfold device_state_changed. rewrite bind_run, gets_run. cbv beta iota.
    rewrite bind_run, gets_run. cbv beta iota.
    rewrite bind_run, Hrun1. cbv beta iota. exact Hrun. }
  destruct Hopc as (Hd & Ha & Hc & Hmd & Hma & Hmas & Hmh & Hsc & Hkh & Hts).
  destruct Ho1 as (Hd1 & Ha1 & Hmd1 & Hma1 & Hmas1 & Hmh1 & Hsc1 & Hkh1 & Hts1).
  rewrite Hp, Hp1. split_and!; try done.
  - intros c. by rewrite Hc.
  - unfold only_policy_changed_but_ledger. split_and!; congruence.
  - intros e. rewrite He, He1, !elem_of_app. intros [[Hin | Hin] | Hin].
    + by left.
    + right. rewrite Forall_forall in Hlog.
      by destruct (Hlog _ Hin) as (fmt & args & ->).
    + right. by destruct (Hnotes _ Hin) as [-> | ->].
Qed.

Lemma with_effects_app (a b : list Effect) (w : World) :
  with_effects (λ l, l ++ b) (with_effects (λ l, l ++ a) w)
  = with_effects (λ l, l ++ (a ++ b)) w.
Proof. unfold with_effects. simpl. by rewrite app_assoc. Qed.

Lemma with_effects_nil (w : World) : with_effects (λ l, l ++ []) w = w.
Proof. destruct w. unfold with_effects. simpl. by rewrite app_nil_r. Qed.

(** Handing a configuration, if there is one, to the DNS manager and
    going on. *)
Lemma dns_add_step (fam : Family) (iface : option string) (cfg : option NMIPConfig)
    (t : NMDnsIPConfigType) (k : World → Outcome unit) (w : World) :
  match
    match cfg with
    | Some c => emit (DnsAddIPConfig fam iface c t)
    | None => ret tt
    end w
  with
  | Returned _ w' => k w'
  | Aborted s => Aborted s
  end = k (with_effects (λ l, l ++ dns_addition fam iface cfg t) w).
Proof.
  destruct cfg; cbn [dns_addition]; [by rewrite emit_run | by rewrite ret_run, with_effects_nil].
Qed.

(** X16.  A device is on its way up.  Entering IP_CONFIG clears the
    blocked reason of the device's configuration and nothing else of it.
    Entering ACTIVATED (with a default-route manager that keeps to what the
    routing update asserts) resets the configuration's counter and drops
    its cached secrets, hands the device's IPv4 and IPv6 configurations to
    the DNS manager with the type DEFAULT and then runs the routing and DNS
    update unforced, all of it between brackets, before the activating
    slots are looked at again: the world [w1] the update starts from, the
    world [w2] it returns and the final world are each the run of the next
    step on the one before.  Neither writes another configuration or any
    device. *)
Theorem device_state_changed_activation_succeeds
    (d : nat) (old_state : NMDeviceState) (reason : NMDeviceStateReason) (w : World) :
  let con := dev_settings_connection (device w d) in
  (∃ w' notes,
     device_state_changed E d NM_DEVICE_STATE_IP_CONFIG old_state reason w = Returned tt w'
     ∧ connection_objs w' =
         alter_cell (set_blocked_reason NM_DEVICE_STATE_REASON_NONE) con (connection_objs w)
     ∧ only_policy_changed_but_ledger w w'
     ∧ effects w' = effects w ++ notes
     ∧ Forall is_activating_notification notes)
  ∧ (route_manager_contract E →
     ∃ w' mid notes w1 w2,
       device_state_changed E d NM_DEVICE_STATE_ACTIVATED old_state reason w = Returned tt w'
       ∧ connection_objs w' =
           alter_cell (activated_cell E (monotonic_timestamp_s w)) con (connection_objs w)
       ∧ device_objs w' = device_objs w
       ∧ effects w' =
           effects w
             ++ bracketed "device_state_changed"
                  (dns_addition AF_INET (Some (dev_ip_iface (device w d)))
                     (dev_ip4_config (device w d)) NM_DNS_IP_CONFIG_TYPE_DEFAULT
                   ++ dns_addition AF_INET6 (Some (dev_ip_iface (device w d)))
                        (dev_ip6_config (device w d)) NM_DNS_IP_CONFIG_TYPE_DEFAULT
                   ++ bracketed "update_routing_and_dns" mid)
             ++ notes
       ∧ Forall is_update_call mid
       ∧ Forall is_activating_notification notes
       ∧ priv w1 = priv w
       ∧ only_policy_changed_but_ledger w w1
       ∧ connection_objs w1 =
           alter_cell (activated_cell E (monotonic_timestamp_s w)) con (connection_objs w)
       ∧ effects w1 =
           effects w
             ++ DnsBeginUpdates "device_state_changed"
                :: dns_addition AF_INET (Some (dev_ip_iface (device w d)))
                     (dev_ip4_config (device w d)) NM_DNS_IP_CONFIG_TYPE_DEFAULT
                ++ dns_addition AF_INET6 (Some (dev_ip_iface (device w d)))
                     (dev_ip6_config (device w d)) NM_DNS_IP_CONFIG_TYPE_DEFAULT
       ∧ update_routing_and_dns E false w1 = Returned tt w2
       ∧ effects w2 = effects w1 ++ bracketed "update_routing_and_dns" mid
       ∧ check_activating_devices E
           (with_effects (λ l, l ++ [DnsEndUpdates "device_state_changed"]) w2)
         = Returned tt w').
Proof.
  intros con. split.
  - set (w1 := match con with
               | Some c =>
                   with_connection_objs
                     (alter (set_blocked_reason NM_DEVICE_STATE_REASON_NONE) c) w
               | None => w
               end).
    destruct (check_activating_devices_run E w1)
      as (w' & a4 & a6 & notes & Hrun & Hp & Hopc & He & Hnotes).
    exists w', notes. split.
    { unfold device_state_changed. rewrite bind_run, gets_run. cbv beta iota.
      rewrite bind_run, gets_run. cbv beta iota. fold con. rewrite bind_run.
      replace (match con with
               | Some c =>
                   nm_settings_connection_set_autoconnect_blocked_reason c
                     NM_DEVICE_STATE_REASON_NONE
               | None => ret tt
               end w) with (Returned tt w1) by (unfold w1; by destruct con).
      exact Hrun. }
    destruct Hopc as (Hd & Ha & Hc & Hmd & Hma & Hmas & Hmh & Hsc & Hkh & Hts).
    rewrite He, Hc. unfold only_policy_changed_but_ledger.
    rewrite Hd, Ha, Hmd, Hma, Hmas, Hmh, Hsc, Hkh, Hts.
    unfold w1, alter_cell. destruct con; split_and!; try done;
      by apply Forall_forall.
  - intros Hcontract.
    set (now := monotonic_timestamp_s w).
    set (w1 := match con with
               | Some c =>
                   with_connection_objs (alter clear_secrets c)
                     (with_connection_objs
                        (alter (set_retries (AUTOCONNECT_RETRIES_DEFAULT E)
                                  (autoconnect_retry_deadline E now
                                     (AUTOCONNECT_RETRIES_DEFAULT E))) c) w)
               | None => w
               end).
    assert (Hledger : match con with
                      | Some c =>
                          nm_settings_connection_reset_autoconnect_retries E c >>
                          nm_connection_clear_secrets c
                      | None => ret tt
                      end%handler w = Returned tt w1).
    { unfold w1. by destruct con. }
    assert (Hdev1 : device_objs w1 = device_objs w ∧ effects w1 = effects w
                    ∧ connection_objs w1 =
                        alter_cell (activated_cell E now) con (connection_objs w)).
    { unfold w1, alter_cell. destruct con; [|done].
      cbn [device_objs effects connection_objs with_connection_objs].
      split_and!; [done | done |]. by rewrite alter_alter_eq. }
    destruct Hdev1 as (Hd1 & He1 & Hc1).
    set (iface := dev_ip_iface (device w d)).
    set (adds4 := dns_addition AF_INET (Some iface) (dev_ip4_config (device w d))
                    NM_DNS_IP_CONFIG_TYPE_DEFAULT).
    set (adds6 := dns_addition AF_INET6 (Some iface) (dev_ip6_config (device w d))
                    NM_DNS_IP_CONFIG_TYPE_DEFAULT).
    set (w2 := with_effects
                 (λ l, l ++ [DnsBeginUpdates "device_state_changed"] ++ adds4 ++ adds6) w1).
    destruct (update_routing_and_dns_run E false w2 Hcontract)
      as (w3 & mid & Hrun3 & He3 & Hcalls & Hk3 & _).
    set (w4 := with_effects (λ l, l ++ [DnsEndUpdates "device_state_changed"]) w3).
    destruct (check_activating_devices_run E w4)
      as (w' & a4 & a6 & notes & Hrun & Hp & Hopc & He & Hnotes).
    assert (Hdevice : device w1 d = device w d) by (unfold device; by rewrite Hd1).
    exists w', mid, notes, w2, w3. split.
    { unfold device_state_changed. rewrite bind_run, gets_run. cbv beta iota.
      rewrite bind_run, gets_run. cbv beta iota. fold con. fold iface.
      rewrite !bind_run, Hledger. cbv beta iota.
      rewrite !bind_run, emit_run. cbv beta iota.
      rewrite !bind_run, gets_run. cbv beta iota.
      rewrite device_with_effects, Hdevice, dns_add_step.
      rewrite !bind_run, gets_run. cbv beta iota.
      rewrite !device_with_effects, Hdevice, dns_add_step.
      rewrite !with_effects_app. fold adds4 adds6 w2.
      rewrite bind_run, Hrun3. cbv beta iota. rewrite emit_run.
      cbv beta iota. exact Hrun. }
    destruct Hopc as (Hd & Ha & Hc & _).
    unfold keeps, outside_routing_and_hostname in Hk3.
    injection Hk3 as Hd3 Hc3 _.
    split_and!.
    + rewrite Hc. cbn [connection_objs w4 with_effects]. rewrite Hc3.
      cbn [connection_objs w2 with_effects]. exact Hc1.
    + rewrite Hd. cbn [device_objs w4 with_effects]. rewrite Hd3.
      cbn [device_objs w2 with_effects]. exact Hd1.
    + rewrite He. cbn [effects w4 with_effects]. rewrite He3.
      cbn [effects w2 with_effects]. rewrite He1. unfold bracketed.
      fold iface adds4 adds6.
      repeat first [rewrite <- app_assoc | progress cbn [app]]. done.
    + exact Hcalls.
    + by apply Forall_forall.
    + unfold w2, w1. by destruct con.
    + unfold w2, w1, only_policy_changed_but_ledger. by destruct con.
    + cbn [connection_objs w2 with_effects]. exact Hc1.
    + cbn [effects w2 with_effects]. rewrite He1. fold iface adds4 adds6. done.
    + exact Hrun3.
    + exact He3.
    + exact Hrun.
Qed.

End Ledger.

(** ** Settings events *)

Section SettingsEvents.
Context (E : Collaborators).

Lemma find_first {A} (p : A → bool) (l : list A) :
  match find p l with
  | Some x => ∃ before after,
      l = before ++ x :: after ∧ p x = true ∧ Forall (λ y, p y = false) before
  | None => Forall (λ y, p y = false) l
  end.
Proof.
  induction l as [|y l IH]; cbn [find]; [constructor|].
  destruct (p y) eqn:Hy.
  - exists [], l. by split_and!.
  - destruct (find p l) as [x|].
    + destruct IH as (before & after & -> & Hx & Hbefore).
      exists (y :: before), after. split_and!; [done | done |]. by constructor.
    + by constructor.
Qed.

(** X17.  A configuration was updated.  The handler always asks for the
    activate-all idle.  When the update came from the user it first has
    the settings applied again on the first device of the manager's list
    that uses the configuration, and on no other device, and resets the
    retry counter of the configuration, leaving its blocked reason; an
    update from elsewhere touches neither a device nor the ledger. *)
Theorem connection_updated_outcome (con : nat) (by_user : bool) (w : World) :
  ∃ w' dev idle,
    connection_updated E con by_user w = Returned tt w'
    ∧ first_device_using w con dev
    ∧ effects w' = effects w ++ (if by_user then reapplied dev else []) ++ idle
    ∧ GIdleAdd "schedule_activate_all_cb" ∈ idle
    ∧ Forall is_activate_all_idle_call idle
    ∧ connection_objs w' =
        (if by_user
         then alter (reset_cell E (monotonic_timestamp_s w)) con (connection_objs w)
         else connection_objs w)
    ∧ autoconnect_blocked_reason (connection w' con)
        = autoconnect_blocked_reason (connection w con)
    ∧ only_policy_changed_but_ledger w w'
    ∧ schedule_activate_all_id (priv w') = true.
Proof.
  set (uses := λ d, bool_decide (dev_settings_connection (device w d) = Some con)).
  set (dev := find uses (manager_devices w)).
  assert (Hdev : first_device_using w con dev).
  { pose proof (find_first uses (manager_devices w)) as Hfirst. fold dev in Hfirst.
    unfold first_device_using. destruct dev as [d|].
    - destruct Hfirst as (before & after & Hl & Hd & Hbefore).
      exists before, after. split_and!; [done | by apply bool_decide_eq_true in Hd |].
      eapply Forall_impl; [exact Hbefore|]. intros d' Hd'.
      by apply bool_decide_eq_false in Hd'.
    - eapply Forall_impl; [exact Hfirst|]. intros d' Hd'.
      by apply bool_decide_eq_false in Hd'. }
  set (w1 := if by_user
             then with_connection_objs
                    (alter (reset_cell E (monotonic_timestamp_s w)) con)
                    (with_effects (λ l, l ++ reapplied dev) w)
             else w).
  assert (Hrun1 : when by_user
       ((let! dev :=
           gets (λ w, find (λ d, bool_decide (dev_settings_connection (device w d) = Some con))
                           (manager_devices w)) in
         match dev with
         | Some d => emit (DeviceReapplySettings d)
         | None => ret tt
         end) >>
        nm_settings_connection_reset_autoconnect_retries E con)%handler w
       = Returned tt w1).
  { unfold w1. destruct by_user; [|done]. rewrite when_true_run, !bind_run, gets_run.
    cbv beta iota. fold uses dev. destruct dev as [d|].
    - rewrite emit_run. cbv beta iota. cbn [reapplied]. done.
    - rewrite ret_run. cbv beta iota. cbn [reapplied]. by rewrite with_effects_nil. }
  destruct (schedule_activate_all_run w1) as (w' & idle & Hrun & Hopc & He & Hp & Hin & Hidle).
  exists w', dev, idle. split.
  { unfold connection_updated. by rewrite bind_run, Hrun1. }
  destruct Hopc as (Hd & Ha & Hc & Hmd & Hma & Hmas & Hmh & Hsc & Hkh & Hts).
  assert (Hconns : connection_objs w' =
        (if by_user
         then alter (reset_cell E (monotonic_timestamp_s w)) con (connection_objs w)
         else connection_objs w)).
  { rewrite Hc. unfold w1. by destruct by_user. }
  split_and!; try done.
  - rewrite He. unfold w1. destruct by_user; cbn [effects with_connection_objs with_effects].
    + by rewrite <- app_assoc.
    + done.
  - by apply Forall_forall.
  - unfold connection. rewrite Hconns. destruct by_user; [|done].
    rewrite lookup_alter_eq. by destruct (connection_objs w !! con).
  - unfold only_policy_changed_but_ledger.
    rewrite Hd, Ha, Hmd, Hma, Hmas, Hmh, Hsc, Hkh, Hts. unfold w1.
    by destruct by_user.
  - by rewrite Hp.
Qed.

End SettingsEvents.

(** ** Device states *)

Section DeviceStates.
Context (E : Collaborators).




End DeviceStates.

(** ** Secondary connections *)

Section Secondaries.
Context (E : Collaborators).

Lemma with_effects_ext (a b : list Effect) (w : World) :
  a = b → with_effects (λ l, l ++ a) w = with_effects (λ l, l ++ b) w.
Proof. by intros ->. Qed.

(** The loop of [activate_secondary_connections] on a device that has an
    activation request, started in [w] with the calls [pre] recorded
    since: when every secondary can be started the sessions are collected
    in order, and otherwise the loop stops at the first one that cannot,
    with its warning. *)
Lemma activate_secondaries_loop_run (con d : nat) (w : World) :
  is_Some (dev_act_request (device w d)) →
  activation_ignores_calls E d →
  ∀ (uuids : list string) (acc : list nat) (pre : list Effect),
    (Forall (λ u, is_Some (secondary_session E w d u)) uuids →
     activate_secondaries_loop E con d uuids acc (with_effects (λ l, l ++ pre) w)
     = Returned (true, acc ++ omap (secondary_session E w d) uuids)
         (with_effects (λ l, l ++ pre ++ concat (activation_calls w con d <$> uuids)) w))
    ∧ (∀ before u after,
         uuids = before ++ u :: after →
         Forall (λ u, is_Some (secondary_session E w d u)) before →
         secondary_session E w d u = None →
         activate_secondaries_loop E con d uuids acc (with_effects (λ l, l ++ pre) w)
         = Returned (false, acc ++ omap (secondary_session E w d) before)
             (with_effects
                (λ l, l ++ pre ++ concat (activation_calls w con d <$> before)
                        ++ failure_calls w con d u) w)).
Proof.
  intros [req Hreq] Hignores.
  induction uuids as [|u0 rest IH]; intros acc pre.
  { split.
    - intros _. cbn [activate_secondaries_loop omap list_omap fmap list_fmap concat].
      by rewrite ret_run, !app_nil_r.
    - intros before u after Heq. by destruct before. }
  cbn [activate_secondaries_loop]. rewrite bind_run, gets_run. cbv beta iota.
  change (nm_settings_get_connection_by_uuid (with_effects _ w) u0)
    with (nm_settings_get_connection_by_uuid w u0).
  assert (Hfirst : ∀ (b : list string) u a,
            u0 :: rest = b ++ u :: a →
            Forall (λ u, is_Some (secondary_session E w d u)) b →
            secondary_session E w d u0 = None → b = [] ∧ u = u0).
  { intros b u a Heq Hb Hu0. destruct b as [|b0 b]; [by injection Heq as <- _|].
    injection Heq as <- _. apply Forall_cons in Hb as [[? Hsome] _]. congruence. }
  destruct (nm_settings_get_connection_by_uuid w u0) as [c0|] eqn:Hfind.
  2:{ assert (Hs : secondary_session E w d u0 = None)
        by (unfold secondary_session, secondary_connection; by rewrite Hfind).
      split.
      - intros Hall. apply Forall_cons in Hall as [[? Hsome] _]. congruence.
      - intros b u a Heq Hb _. destruct (Hfirst b u a Heq Hb Hs) as [-> ->].
        hstep. unfold failure_calls. rewrite Hfind.
        cbn [omap list_omap fmap list_fmap concat app].
        by rewrite with_effects_app, app_nil_r. }
  rewrite connection_with_effects.
  destruct (con_is_vpn (connection w c0)) eqn:Hvpn; cbn [negb].
  2:{ assert (Hs : secondary_session E w d u0 = None)
        by (unfold secondary_session, secondary_connection; by rewrite Hfind, Hvpn).
      split.
      - intros Hall. apply Forall_cons in Hall as [[? Hsome] _]. congruence.
      - intros b u a Heq Hb _. destruct (Hfirst b u a Heq Hb Hs) as [-> ->].
        hstep. unfold failure_calls. rewrite Hfind, Hvpn.
        cbn [omap list_omap fmap list_fmap concat app].
        by rewrite with_effects_app, app_nil_r. }
  assert (Hconn : secondary_connection w u0 = Some c0)
    by (unfold secondary_connection; by rewrite Hfind, Hvpn).
  rewrite !device_with_effects, Hreq.
  rewrite bool_decide_eq_true_2 by by eexists.
  unfold g_assert, nm_manager_activate_connection. hstep.
  rewrite (Hignores w (with_effects _ (with_effects _ w)) c0)
    by (do 2 apply same_but_effects_with_effects; apply same_but_effects_refl).
  rewrite !connection_with_effects, !active_with_effects.
  change (nm_settings_connection_get_id (with_effects _ w) c0)
    with (nm_settings_connection_get_id w c0).
  rewrite !with_effects_app.
  set (started0 :=
         [NMLog LOGL_DEBUG LOGD_DEVICE
            "activating secondary connection '%s (%s)' for base connection '%s (%s)'"
            [LogStr (Some (nm_settings_connection_get_id w c0));
             LogStr (Some u0);
             LogStr (Some (con_id (connection w con)));
             LogStr (Some (con_uuid (connection w con)))];
          ManagerActivateConnection c0 ((λ r, ac_path (active w r)) <$> Some req)
            (Some d) (ac_subject_internal (active w req)) NM_ACTIVATION_TYPE_FULL]).
  assert (Hcalls : activation_calls w con d u0 = started0).
  { unfold activation_calls. by rewrite Hconn, Hreq. }
  assert (Hsession : secondary_session E w d u0
                     = nm_manager_activate_connection_result E w c0 (Some d)).
  { unfold secondary_session. by rewrite Hconn. }
  destruct (nm_manager_activate_connection_result E w c0 (Some d)) as [a|].
  - destruct (IH (acc ++ [a]) (pre ++ started0)) as [IHall IHstop].
    split.
    + intros Hall. apply Forall_cons in Hall as [_ Hall].
      etrans; [exact (IHall Hall)|]. f_equal; [f_equal|].
      * cbn [omap list_omap]. rewrite Hsession. by rewrite <- app_assoc.
      * apply with_effects_ext. cbn [fmap list_fmap concat]. by rewrite Hcalls, <- app_assoc.
    + intros b u a' Heq Hb Hu. destruct b as [|b0 b].
      { injection Heq as <- _. congruence. }
      injection Heq as <- Heq. apply Forall_cons in Hb as [_ Hb].
      etrans; [exact (IHstop b u a' Heq Hb Hu)|]. f_equal; [f_equal|].
      * cbn [omap list_omap]. rewrite Hsession. by rewrite <- app_assoc.
      * apply with_effects_ext. cbn [fmap list_fmap concat]. by rewrite Hcalls, <- !app_assoc.
  - split.
    + intros Hall. apply Forall_cons in Hall as [[? Hsome] _]. congruence.
    + intros b u a' Heq Hb _. destruct (Hfirst b u a' Heq Hb Hsession) as [-> ->].
      hstep. unfold failure_calls. rewrite Hfind, Hvpn, Hcalls.
      cbn [omap list_omap fmap list_fmap concat app].
      rewrite with_effects_app, app_nil_r. f_equal. apply with_effects_ext.
      by rewrite <- app_assoc.
Qed.

Lemma first_failure {A} (P : A → Prop) `{!∀ x, Decision (P x)} (l : list A) :
  Forall P l ∨ ∃ before u after, l = before ++ u :: after ∧ Forall P before ∧ ¬ P u.
Proof.
  induction l as [|x l IH]; [by left|].
  destruct (decide (P x)) as [Hx|Hx].
  - destruct IH as [Hall | (before & u & after & -> & Hbefore & Hu)].
    + left. by constructor.
    + right. exists (x :: before), u, after. split_and!; [done | by constructor | done].
  - right. exists [], x, l. by split_and!.
Qed.

(** X19.  A device enters SECONDARIES with a configuration that names at
    least one secondary, and has an activation request (the default-route
    manager keeps to what the routing update asserts, and the manager's
    answer to an activation request does not depend on the calls recorded
    so far).  Routing and DNS are updated first, unforced.  Then the
    secondaries are started in the order of the list, each by a log line
    and a request to the manager for the configuration its UUID stands
    for, on the device, and all of them or none are waited for.  When the
    manager starts every one, a single wait record for the device is
    appended that holds the sessions the manager returned, in the order of
    the list, and no state is queued.  Otherwise the loop stops at the
    first secondary that is not in the store, is not a VPN or is not
    started, with the warning for it: no wait record is made, the sessions
    started before are left as they are, and FAILED with the reason
    SECONDARY_CONNECTION_FAILED is queued for the device. *)
Theorem device_state_changed_secondaries_started
    (d c : nat) (old_state : NMDeviceState) (reason : NMDeviceStateReason) (w : World) :
  route_manager_contract E →
  activation_ignores_calls E d →
  dev_settings_connection (device w d) = Some c →
  con_secondaries (connection w c) ≠ [] →
  is_Some (dev_act_request (device w d)) →
  let uuids := con_secondaries (connection w c) in
  ∃ w1 w' mid notes,
    update_routing_and_dns E false w = Returned tt w1
    ∧ effects w1 = effects w ++ bracketed "update_routing_and_dns" mid
    ∧ Forall is_update_call mid
    ∧ device_state_changed E d NM_DEVICE_STATE_SECONDARIES old_state reason w = Returned tt w'
    ∧ Forall is_activating_notification notes
    ∧ device_objs w' = device_objs w
    ∧ connection_objs w' = connection_objs w
    ∧ (Forall (λ u, is_Some (secondary_session E w1 d u)) uuids →
       pending_secondaries (priv w') =
         pending_secondaries (priv w)
         ++ [{| psd_device := d;
                psd_secondaries := omap (secondary_session E w1 d) uuids |}]
       ∧ effects w' =
           effects w1 ++ concat (activation_calls w1 c d <$> uuids) ++ notes)
    ∧ (∀ before u after,
         uuids = before ++ u :: after →
         Forall (λ u, is_Some (secondary_session E w1 d u)) before →
         secondary_session E w1 d u = None →
         pending_secondaries (priv w') = pending_secondaries (priv w)
         ∧ effects w' =
             effects w1 ++ concat (activation_calls w1 c d <$> before)
             ++ failure_calls w1 c d u
             ++ [DeviceQueueState d NM_DEVICE_STATE_FAILED
                   NM_DEVICE_STATE_REASON_SECONDARY_CONNECTION_FAILED]
             ++ notes).
Proof.
  intros Hcontract Hignores Hcon Hsecondaries Hreq uuids.
  destruct (update_routing_and_dns_run E false w Hcontract)
    as (w1 & mid & Hrun1 & He1 & Hmid & Hk1 & _).
  unfold keeps, outside_routing_and_hostname in Hk1.
  injection Hk1 as Hd1 Hc1 _ _ _ _ _ _ _ _ _ Hps1 _.
  assert (Hdevice1 : device w1 d = device w d) by (unfold device; by rewrite Hd1).
  assert (Hconn1 : connection w1 c = connection w c) by (unfold connection; by rewrite Hc1).
  assert (Hcell : is_Some (connection_objs w1 !! c)).
  { rewrite Hc1. unfold connection in Hsecondaries.
    destruct (connection_objs w !! c); [by eexists | done]. }
  assert (Hreq1 : is_Some (dev_act_request (device w1 d))) by (by rewrite Hdevice1).
  destruct (activate_secondaries_loop_run c d w1 Hreq1 Hignores uuids [] [])
    as [Hall Hstop].
  rewrite with_effects_nil in Hall, Hstop. cbn [app] in Hall, Hstop.
  (* the loop returns *)
  assert (Hloop : ∃ ok started calls,
    activate_secondaries_loop E c d uuids [] w1
      = Returned (ok, started) (with_effects (λ l, l ++ calls) w1)
    ∧ (ok = true → started ≠ [])).
  { destruct (first_failure (λ u, is_Some (secondary_session E w1 d u)) uuids)
      as [Hevery | (before & u & after & Heq & Hbefore & Hu)].
    - eexists true, _, _. split; [exact (Hall Hevery)|]. intros _.
      unfold uuids in *. destruct (con_secondaries (connection w c)) as [|u0 rest]; [done|].
      apply Forall_cons in Hevery as [[a Ha] _]. cbn [omap list_omap]. by rewrite Ha.
    - eexists false, _, _. split; [|done].
      apply (Hstop before u after Heq Hbefore). by apply eq_None_not_Some. }
  destruct Hloop as (ok & started & calls & Hloop & Hstarted).
  set (wl := with_effects (λ l, l ++ calls) w1) in *.
  set (record := {| psd_device := d; psd_secondaries := started |}).
  set (w4 := if ok
             then with_priv (λ p, set_pending_secondaries
                                    (pending_secondaries p ++ [record]) p) wl
             else wl).
  assert (Hrun4 : activate_secondary_connections E c d w1 = Returned ok w4).
  { unfold activate_secondary_connections, nm_connection_get_setting_connection.
    rewrite bind_run, gets_run. cbv beta iota.
    rewrite (bool_decide_eq_true_2 _ Hcell). unfold g_assert. rewrite bind_run. cbv beta iota.
    rewrite bind_run, gets_run. cbv beta iota.
    rewrite Hconn1. fold uuids. rewrite bind_run, Hloop. cbv beta iota. cbn [fst snd].
    unfold w4. destruct ok; cbn [andb].
    - rewrite bool_decide_eq_false_2 by by apply Hstarted. cbn [negb]. by hstep.
    - by hstep. }
  set (queued := calls_if (negb ok)
                   [DeviceQueueState d NM_DEVICE_STATE_FAILED
                      NM_DEVICE_STATE_REASON_SECONDARY_CONNECTION_FAILED]).
  set (w5 := with_effects (λ l, l ++ queued) w4).
  destruct (check_activating_devices_run E w5)
    as (w' & a4 & a6 & notes & Hrun & Hp & Hopc & He & Hnotes).
  destruct Hopc as (Hd & Ha & Hc & _).
  assert (H4 : effects w4 = effects w1 ++ calls ∧ device_objs w4 = device_objs w1
               ∧ connection_objs w4 = connection_objs w1
               ∧ pending_secondaries (priv w4) =
                   pending_secondaries (priv w1) ++ (if ok then [record] else [])).
  { unfold w4. destruct ok; [|by rewrite app_nil_r].
    cbn [effects device_objs connection_objs priv with_priv wl with_effects].
    split_and!; first [done | by destruct (priv w1)]. }
  destruct H4 as (He4 & Hd4 & Hc4 & Hps4).
  assert (Hpending : pending_secondaries (priv w') =
                     pending_secondaries (priv w) ++ (if ok then [record] else [])).
  { rewrite Hp. cbn [pending_secondaries set_activating_device].
    transitivity (pending_secondaries (priv w5)); [by destruct a4, a6, (priv w5)|].
    cbn [priv w5 with_effects]. by rewrite Hps4, Hps1. }
  assert (Heffects : effects w' = effects w1 ++ calls ++ queued ++ notes).
  { rewrite He. cbn [effects w5 with_effects]. rewrite He4. by rewrite <- !app_assoc. }
  exists w1, w', mid, notes. split; [exact Hrun1|]. split; [exact He1|].
  split; [exact Hmid|]. split.
  { unfold device_state_changed. rewrite bind_run, gets_run. cbv beta iota.
    rewrite bind_run, gets_run. cbv beta iota. rewrite Hcon, bind_run.
    unfold device_state_changed_secondaries. rewrite bind_run, gets_run. cbv beta iota.
    replace (0 <? length (con_secondaries (connection w c)))%nat with true.
    2:{ symmetry. apply Nat.ltb_lt. destruct (con_secondaries (connection w c)); [done|].
        cbn. lia. }
    rewrite bind_run, Hrun1. cbv beta iota. rewrite bind_run, Hrun4. cbv beta iota.
    replace (when (negb ok)
               (nm_device_queue_state d NM_DEVICE_STATE_FAILED
                  NM_DEVICE_STATE_REASON_SECONDARY_CONNECTION_FAILED) w4)
      with (Returned tt w5); [exact Hrun|].
    unfold w5, queued, nm_device_queue_state.
    destruct ok; cbn [negb calls_if].
    - by rewrite when_false_run, with_effects_nil.
    - by rewrite when_true_run, emit_run. }
  split; [by apply Forall_forall|].
  split. { rewrite Hd. cbn [device_objs w5 with_effects]. by rewrite Hd4. }
  split. { rewrite Hc. cbn [connection_objs w5 with_effects]. by rewrite Hc4. }
  split.
  - intros Hevery. pose proof (Hall Hevery) as Hrun'. rewrite Hloop in Hrun'.
    injection Hrun' as -> -> Hworld.
    assert (Hsame : calls = concat (activation_calls w1 c d <$> uuids)).
    { by apply app_inv_head in Hworld. }
    rewrite Hpending, Heffects, Hsame. unfold queued. cbn [negb calls_if app]. done.
  - intros before u after Heq Hbefore Hu.
    pose proof (Hstop before u after Heq Hbefore Hu) as Hrun'. rewrite Hloop in Hrun'.
    injection Hrun' as -> -> Hworld.
    assert (Hsame : calls = concat (activation_calls w1 c d <$> before)
                            ++ failure_calls w1 c d u).
    { by apply app_inv_head in Hworld. }
    rewrite Hpending, Heffects, Hsame. unfold queued. cbn [negb calls_if].
    by rewrite app_nil_r, <- !app_assoc.
Qed.

End Secondaries.

(** ** Slaves of a device *)

Section Slaves.
Context (E : Collaborators).

Lemma reset_run (c : nat) (w : World) :
  nm_settings_connection_reset_autoconnect_retries E c w
  = Returned tt (with_connection_objs
                   (alter (reset_cell E (monotonic_timestamp_s w)) c) w).
Proof.
  unfold nm_settings_connection_reset_autoconnect_retries,
    nm_settings_connection_set_autoconnect_retries. by hstep.
Qed.

(** What a step of a ledger loop does to the cells: [f] on the cell of
    [c] when [sel] selects it, nothing otherwise. *)
Definition ledger_step (sel : nat → ConnectionObj → bool)
    (f : ConnectionObj → ConnectionObj) (c : nat) (w w' : World) : Prop :=
  keeps outside_ledger w w'
  ∧ connection_objs w' =
      if sel c (connection w c) then alter f c (connection_objs w) else connection_objs w.

Lemma ledger_step_lookup sel f c w w' (c' : nat) :
  ledger_step sel f c w w' →
  (connection_objs w' !! c' = None ↔ connection_objs w !! c' = None)
  ∧ monotonic_timestamp_s w' = monotonic_timestamp_s w.
Proof.
  intros [Hk Hc]. split.
  - rewrite Hc. destruct (sel c (connection w c)); [|done]. apply lookup_alter_None.
  - unfold keeps, outside_ledger in Hk. injection Hk as ?. congruence.
Qed.

(** A ledger loop whose body asserts that the configuration it visits
    has its cell: over configurations that all have one it is the loop
    without the assertion. *)
Lemma guarded_ledger_loop (now : Z) (sel : nat → ConnectionObj → bool)
    (f : ConnectionObj → ConnectionObj) (body : nat → Handler unit) (conns : list nat) :
  (∀ c o, sel c (f o) = true → f (f o) = f o) →
  (∀ c w, monotonic_timestamp_s w = now → is_Some (connection_objs w !! c) →
     ∃ w', body c w = Returned tt w' ∧ ledger_step sel f c w w') →
  ∀ w, monotonic_timestamp_s w = now →
    Forall (λ c, is_Some (connection_objs w !! c)) conns →
    ∃ w', for_each conns body w = Returned tt w'
          ∧ keeps outside_ledger w w'
          ∧ cells_updated sel f conns w w'.
Proof.
  intros Hidem Hbody. induction conns as [|c0 conns IH]; intros w Hnow Hcells.
  - exists w. split; [reflexivity|]. split; [reflexivity|]. intros c.
    by rewrite bool_decide_eq_false_2 by apply not_elem_of_nil.
  - apply Forall_cons in Hcells as [Hcell0 Hcells].
    destruct (Hbody c0 w Hnow Hcell0) as (w1 & Hrun1 & Hstep).
    pose proof Hstep as [Hk1 Hc1].
    assert (Hnow1 : monotonic_timestamp_s w1 = now).
    { rewrite <- Hnow. apply (ledger_step_lookup sel f c0 w w1 c0 Hstep). }
    assert (Hcells1 : Forall (λ c, is_Some (connection_objs w1 !! c)) conns).
    { eapply Forall_impl; [exact Hcells|]. intros c Hc. cbv beta in *.
      rewrite <- not_eq_None_Some in *.
      by rewrite (proj1 (ledger_step_lookup sel f c0 w w1 c Hstep)). }
    destruct (IH w1 Hnow1 Hcells1) as (w' & Hrun & Hk & Hc).
    exists w'. split; [cbn [for_each]; by rewrite bind_run, Hrun1|].
    split; [by etrans|].
    intros c. rewrite (Hc c). unfold connection. rewrite Hc1.
    destruct (decide (c = c0)) as [->|Hne].
    + rewrite (bool_decide_eq_true_2 (c0 ∈ c0 :: conns)) by (by left). cbn [andb].
      fold (connection w c0).
      destruct (sel c0 (connection w c0)) eqn:Hsel.
      * rewrite lookup_alter_eq.
        destruct (connection_objs w !! c0) as [o|]; simpl; [|by destruct (_ && _)].
        destruct (bool_decide (c0 ∈ conns) && sel c0 (f o)) eqn:Hagain; [|done].
        apply andb_true_iff in Hagain as [_ Hagain]. by rewrite (Hidem c0 o Hagain).
      * fold (connection w c0). rewrite Hsel. by rewrite andb_false_r.
    + assert (Hlook : (if sel c0 (connection w c0)
                       then alter f c0 (connection_objs w)
                       else connection_objs w) !! c = connection_objs w !! c).
      { destruct (sel c0 _); [by rewrite lookup_alter_ne | done]. }
      rewrite Hlook.
      replace (bool_decide (c ∈ c0 :: conns)) with (bool_decide (c ∈ conns)); [done|].
      apply bool_decide_ext. rewrite elem_of_cons. split; [by right | by intros [?|?]].
Qed.

(** The same loop stops at its assertion as soon as it visits a
    configuration without a cell. *)
Lemma guarded_ledger_loop_aborts (now : Z) (sel : nat → ConnectionObj → bool)
    (f : ConnectionObj → ConnectionObj) (body : nat → Handler unit) (what : string)
    (conns : list nat) :
  (∀ c w, monotonic_timestamp_s w = now → is_Some (connection_objs w !! c) →
     ∃ w', body c w = Returned tt w' ∧ ledger_step sel f c w w') →
  (∀ c w, connection_objs w !! c = None → body c w = Aborted what) →
  ∀ w, monotonic_timestamp_s w = now →
    Exists (λ c, connection_objs w !! c = None) conns →
    for_each conns body w = Aborted what.
Proof.
  intros Hbody Hstops. induction conns as [|c0 conns IH]; intros w Hnow Hmissing.
  - by apply Exists_nil in Hmissing.
  - cbn [for_each]. rewrite bind_run.
    destruct (connection_objs w !! c0) as [o|] eqn:Hcell0.
    + destruct (Hbody c0 w Hnow) as (w1 & Hrun1 & Hstep); [by rewrite Hcell0|].
      rewrite Hrun1. cbv beta iota.
      apply Exists_cons in Hmissing as [Hhead | Htail]; [congruence|].
      apply IH.
      * rewrite <- Hnow. apply (ledger_step_lookup sel f c0 w w1 c0 Hstep).
      * eapply Exists_impl; [exact Htail|]. intros c Hc. cbv beta in *.
        by rewrite (proj1 (ledger_step_lookup sel f c0 w w1 c Hstep)).
    + by rewrite (Hstops c0 w Hcell0).
Qed.

(** X20.  A device enters PREPARE.  The handler stops at its assertion
    for a device without an interface name, and, unless the activation of
    the device came from NetworkManager itself, at the first configuration
    of the store that has no [connection] setting.  Otherwise it returns:
    unless the activation came from NetworkManager itself, the retry
    counter of every configuration of the store that names the device as
    its master (by interface name, or by the UUID of the applied or of the
    settings connection of the activation request) is reset; no other
    configuration changes and no blocked reason does.  The activate-all
    idle is asked for whenever the handler returns. *)
Theorem device_state_changed_prepare_resets_slaves
    (d : nat) (old_state : NMDeviceState) (reason : NMDeviceStateReason) (w : World) :
  let conns := settings_connections_sorted w in
  (dev_iface (device w d) = None →
   device_state_changed E d NM_DEVICE_STATE_PREPARE old_state reason w
   = Aborted "master_device")
  ∧ (is_Some (dev_iface (device w d)) →
     internal_activation w d = false →
     Exists (λ c, nm_connection_get_setting_connection w c = None) conns →
     device_state_changed E d NM_DEVICE_STATE_PREPARE old_state reason w
     = Aborted "s_slave_con")
  ∧ (is_Some (dev_iface (device w d)) →
     internal_activation w d = true
     ∨ Forall (λ c, is_Some (nm_connection_get_setting_connection w c)) conns →
     ∃ w' idle notes,
       device_state_changed E d NM_DEVICE_STATE_PREPARE old_state reason w = Returned tt w'
       ∧ cells_updated (λ _ o, negb (internal_activation w d) && names_master w d o)
           (reset_cell E (monotonic_timestamp_s w)) conns w w'
       ∧ (∀ c, autoconnect_blocked_reason (connection w' c)
               = autoconnect_blocked_reason (connection w c))
       ∧ effects w' = effects w ++ idle ++ notes
       ∧ GIdleAdd "schedule_activate_all_cb" ∈ idle
       ∧ Forall is_activate_all_idle_call idle
       ∧ Forall is_activating_notification notes
       ∧ schedule_activate_all_id (priv w') = true
       ∧ only_policy_changed_but_ledger w w').
Proof.
  intros all.
  set (now := monotonic_timestamp_s w).
  set (req := dev_act_request (device w d)).
  set (master_device := dev_iface (device w d)).
  set (master_uuid_applied := req ≫= λ r, nmc_uuid <$> ac_applied_connection (active w r)).
  set (master_uuid_settings :=
         match req ≫= λ r, ac_settings_connection (active w r) with
         | Some con =>
             let uuid := Some (con_uuid (connection w con)) in
             if g_strcmp0_eq uuid master_uuid_applied then None else uuid
         | None => None
         end).
  set (conns := if negb (internal_activation w d) then all else []).
  set (body := (λ slave,
    let! s_slave_con := gets (λ w, nm_connection_get_setting_connection w slave) in
    g_assert (bool_decide (is_Some s_slave_con)) "s_slave_con" >>
    let! slave_master := gets (λ w, con_master (connection w slave)) in
    match slave_master with
    | None => ret tt
    | Some m =>
        when (g_strcmp0_eq (Some m) master_device
              || g_strcmp0_eq (Some m) master_uuid_applied
              || g_strcmp0_eq (Some m) master_uuid_settings)
             (nm_settings_connection_reset_autoconnect_retries E slave)
    end)%handler).
  (* the handler up to the loop *)
  assert (Hhandler :
    device_state_changed E d NM_DEVICE_STATE_PREPARE old_state reason w =
    (g_assert (bool_decide (is_Some master_device)) "master_device" >>
     for_each conns body >> schedule_activate_all >> check_activating_devices E)%handler w).
  { unfold device_state_changed. rewrite bind_run, gets_run. cbv beta iota.
    rewrite bind_run, gets_run. cbv beta iota. rewrite bind_run.
    unfold activate_slave_connections. rewrite bind_run, gets_run. cbv beta iota.
    fold req master_device master_uuid_applied. fold master_uuid_settings.
    change (match req with
            | Some r => ac_subject_internal (active w r)
            | None => false
            end) with (internal_activation w d).
    change (settings_connections_sorted w) with all. fold conns. fold body.
    rewrite !bind_run. destruct (bool_decide (is_Some master_device)); [|done].
    unfold g_assert. cbv beta iota. rewrite !bind_run.
    destruct (for_each conns body w) as [[] w1|]; [|done]. cbv beta iota.
    by rewrite !bind_run. }
  (* the configurations the loop selects *)
  assert (Hsel : ∀ o, names_master w d o =
            match con_master o with
            | None => false
            | Some m =>
                g_strcmp0_eq (Some m) master_device
                || g_strcmp0_eq (Some m) master_uuid_applied
                || g_strcmp0_eq (Some m) master_uuid_settings
            end).
  { intros o. unfold names_master. destruct (con_master o) as [m|]; [|done].
    fold req. fold master_uuid_applied. fold master_device.
    unfold g_strcmp0_eq, master_uuid_settings.
    destruct (decide (master_device = Some m)) as [Hiface|Hiface].
    { rewrite (bool_decide_eq_true_2 (master_device = Some m)) by done.
      by rewrite (bool_decide_eq_true_2 (Some m = master_device)). }
    rewrite (bool_decide_eq_false_2 (master_device = Some m)) by done.
    rewrite (bool_decide_eq_false_2 (Some m = master_device)) by done.
    cbn [orb].
    destruct (decide (master_uuid_applied = Some m)) as [Happlied|Happlied].
    { rewrite (bool_decide_eq_true_2 (master_uuid_applied = Some m)) by done.
      by rewrite (bool_decide_eq_true_2 (Some m = master_uuid_applied)). }
    rewrite (bool_decide_eq_false_2 (master_uuid_applied = Some m)) by done.
    rewrite (bool_decide_eq_false_2 (Some m = master_uuid_applied)) by done.
    cbn [orb].
    destruct req as [r|]; cbn [mbind option_bind]; [|done].
    destruct (ac_settings_connection (active w r)) as [con|]; cbn [fmap option_fmap option_map];
      [|done].
    unfold g_strcmp0_eq.
    destruct (decide (Some (con_uuid (connection w con)) = master_uuid_applied))
      as [Hsame|Hsame].
    - rewrite (bool_decide_eq_true_2 (_ = master_uuid_applied)) by done.
      rewrite (bool_decide_eq_false_2 (Some _ = Some m)) by congruence.
      by rewrite (bool_decide_eq_false_2 (Some m = None)).
    - rewrite (bool_decide_eq_false_2 (_ = master_uuid_applied)) by done.
      apply bool_decide_ext. split; congruence. }
  (* one step of the loop *)
  assert (Hbody : ∀ c wc, monotonic_timestamp_s wc = now →
            is_Some (connection_objs wc !! c) →
            ∃ w', body c wc = Returned tt w'
                  ∧ ledger_step (λ _ o, names_master w d o) (reset_cell E now) c wc w').
  { intros c wc Hnow Hcell. unfold body, nm_connection_get_setting_connection.
    rewrite bind_run, gets_run. cbv beta iota.
    rewrite (bool_decide_eq_true_2 _ Hcell). unfold g_assert. rewrite bind_run. cbv beta iota.
    rewrite bind_run, gets_run. cbv beta iota.
    unfold ledger_step. rewrite Hsel. destruct (con_master (connection wc c)) as [m|].
    - destruct (_ || _ || _).
      + rewrite when_true_run, reset_run, Hnow. eexists. split; [reflexivity|].
        split; reflexivity.
      + rewrite when_false_run. exists wc. split; [reflexivity|]. split; reflexivity.
    - exists wc. rewrite ret_run. split; [reflexivity|]. split; reflexivity. }
  assert (Hstops : ∀ c wc, connection_objs wc !! c = None → body c wc = Aborted "s_slave_con").
  { intros c wc Hcell. unfold body, nm_connection_get_setting_connection.
    rewrite bind_run, gets_run. cbv beta iota. rewrite Hcell.
    by rewrite bool_decide_eq_false_2 by (by intros [? ?]). }
  rewrite Hhandler. split_and!.
  - intros Hiface. fold master_device in Hiface. rewrite Hiface.
    by rewrite bool_decide_eq_false_2 by (by intros [? ?]).
  - intros Hiface Hexternal Hmissing. fold master_device in Hiface.
    rewrite bind_run, (bool_decide_eq_true_2 _ Hiface). unfold g_assert. cbv beta iota.
    rewrite !bind_run.
    rewrite (guarded_ledger_loop_aborts now (λ _ o, names_master w d o) (reset_cell E now)
               body "s_slave_con" conns Hbody Hstops w eq_refl); [done|].
    unfold conns. by rewrite Hexternal.
  - intros Hiface Hcells. fold master_device in Hiface.
    rewrite bind_run, (bool_decide_eq_true_2 _ Hiface). unfold g_assert. cbv beta iota.
    destruct (guarded_ledger_loop now (λ _ o, names_master w d o) (reset_cell E now)
                body conns) with (w := w) as (w1 & Hrun1 & Hk1 & Hcells1).
    { intros c o _. reflexivity. }
    { exact Hbody. }
    { reflexivity. }
    { unfold conns. destruct Hcells as [-> | Hcells]; [by constructor|].
      by destruct (negb _); [|constructor]. }
    destruct (schedule_activate_all_run w1)
      as (w2 & idle & Hrun2 & Ho2 & He2 & Hp2 & Hin & Hidle).
    destruct (check_activating_devices_run E w2)
      as (w' & a4 & a6 & notes & Hrun & Hp & Hopc & He & Hnotes).
    exists w', idle, notes.
    unfold keeps, outside_ledger in Hk1.
    injection Hk1 as Hp1 Hd1 Ha1 Hmd1 Hma1 Hmas1 Hmh1 Hsc1 Hkh1 Hts1 He1.
    destruct Ho2 as (Hd2 & Ha2 & Hc2 & Hmd2 & Hma2 & Hmas2 & Hmh2 & Hsc2 & Hkh2 & Hts2).
    destruct Hopc as (Hd & Ha & Hc & Hmd & Hma & Hmas & Hmh & Hsc & Hkh & Hts).
    assert (Hcells' : cells_updated
              (λ _ o, negb (internal_activation w d) && names_master w d o)
              (reset_cell E now) all w w').
    { intros c. rewrite Hc, Hc2, (Hcells1 c). unfold conns.
      destruct (internal_activation w d); cbn [negb andb]; [|done].
      rewrite bool_decide_eq_false_2 by apply not_elem_of_nil.
      by rewrite andb_false_r. }
    split.
    { rewrite !bind_run, Hrun1. cbv beta iota. rewrite bind_run, Hrun2. cbv beta iota.
      exact Hrun. }
    split_and!; try done.
    + intros c. unfold connection. rewrite (Hcells' c).
      destruct (_ && _); [|done]. by destruct (connection_objs w !! c).
    + rewrite He, He2, He1. by rewrite <- app_assoc.
    + by apply Forall_forall.
    + by apply Forall_forall.
    + by rewrite Hp, Hp2.
    + unfold only_policy_changed_but_ledger. split_and!; congruence.
Qed.

End Slaves.

(** ** Hostname precedence *)

Section HostnamePrecedence.
Context (E : Collaborators).

(** Without a specific configured hostname the update goes on with the
    best devices, as given or as the default-route manager has them. *)
Lemma update_system_hostname_automatic (best4 best6 : option nat) (w : World) :
  (∀ h, manager_hostname w = Some h → nm_utils_is_specific_hostname E h = false) →
  update_system_hostname E best4 best6 w =
    hostname_from_devices
      (resolved_best_device E AF_INET best4 (after_cancel_lookup w))
      (resolved_best_device E AF_INET6 best6 (after_cancel_lookup w))
      (after_cancel_lookup w).
Proof.
  intros Hconf.
  destruct (after_cancel_lookup_frame w) as ((_ & _ & _ & _ & _ & _ & Hmh & _) & _).
  unfold update_system_hostname. rewrite bind_run, cancel_lookup_run. cbv beta iota.
  rewrite bind_run, gets_run. cbv beta iota. rewrite Hmh.
  assert (Hauto :
    (let! best4 := match best4 with
                   | Some d => ret (Some d)
                   | None => get_best_ip4_device E true
                   end in
     let! best6 := match best6 with
                   | Some d => ret (Some d)
                   | None => get_best_ip6_device E true
                   end in
     hostname_from_devices best4 best6)%handler (after_cancel_lookup w)
    = hostname_from_devices
        (resolved_best_device E AF_INET best4 (after_cancel_lookup w))
        (resolved_best_device E AF_INET6 best6 (after_cancel_lookup w))
        (after_cancel_lookup w)).
  { unfold bind, resolved_best_device. destruct best4, best6; reflexivity. }
  destruct (manager_hostname w) as [h|]; [rewrite (Hconf h eq_refl)|]; exact Hauto.
Qed.

(** X21.  A specific hostname configured in the settings wins.  Whatever
    the best devices are, the update cancels a reverse lookup in flight,
    hands the configured hostname to [_set_hostname] and starts no lookup:
    afterwards no lookup is in flight and no address is left to resolve,
    and the DNS manager was told the hostname exactly when it is a
    change. *)
Theorem update_system_hostname_configured_wins
    (best4 best6 : option nat) (h : string) (w : World) :
  manager_hostname w = Some h →
  nm_utils_is_specific_hostname E h = true →
  ∃ w' added,
    update_system_hostname E best4 best6 w = Returned tt w'
    ∧ priv w' = after_set_hostname (Some h) (priv (after_cancel_lookup w))
    ∧ lookup_cancellable (priv w') = false
    ∧ lookup_addr (priv w') = None
    ∧ (hostname_unchanged (priv w) (Some h) ∨ cur_hostname (priv w') = Some h)
    ∧ effects w' =
        effects w
        ++ calls_if (lookup_cancellable (priv w)) [CancellableCancel]
        ++ calls_if (negb (hostname_unchangedb (priv w) (Some h))) [DnsSetHostname (Some h)]
        ++ added
    ∧ (∀ n, DnsSetHostname n ∉ added)
    ∧ (∀ a, ResolverLookupByAddress a ∉ added)
    ∧ only_policy_changed w w'.
Proof.
  intros Hmh Hspecific.
  set (w0 := after_cancel_lookup w).
  destruct (after_cancel_lookup_frame w) as (Hopc0 & Horig0 & Hcur0 & Hchanged0).
  fold w0 in Hopc0, Horig0, Hcur0, Hchanged0.
  assert (Hb0 : hostname_unchangedb (priv w0) (Some h) = hostname_unchangedb (priv w) (Some h)).
  { unfold hostname_unchangedb. by rewrite Horig0, Hcur0, Hchanged0. }
  assert (Hcancel : lookup_cancellable (priv w0) = false
                    ∧ effects w0 = effects w
                        ++ calls_if (lookup_cancellable (priv w)) [CancellableCancel]).
  { unfold w0, after_cancel_lookup.
    destruct (lookup_cancellable (priv w)) eqn:Hl; cbn [calls_if]; [done|].
    by rewrite app_nil_r. }
  destruct Hcancel as (Hlc0 & He0).
  destruct (set_hostname_run (Some h) "from system configuration" w0)
    as (w' & added & Hrun & Hp & Hopc & He & Hdns & Hlookup & _).
  exists w', added. split.
  { unfold update_system_hostname. rewrite bind_run, cancel_lookup_run. cbv beta iota.
    rewrite bind_run, gets_run. cbv beta iota.
    destruct Hopc0 as (_ & _ & _ & _ & _ & _ & Hmh0 & _). fold w0. rewrite Hmh0, Hmh.
    rewrite Hspecific. exact Hrun. }
  split; [exact Hp|].
  assert (Hfields : lookup_cancellable (priv w') = false ∧ lookup_addr (priv w') = None
                    ∧ (hostname_unchangedb (priv w) (Some h) = false →
                       cur_hostname (priv w') = Some h)).
  { rewrite Hp. unfold after_set_hostname. rewrite Hb0.
    rewrite bool_decide_eq_true_2 by by eexists.
    destruct (hostname_unchangedb (priv w) (Some h)); split_and!; try done. }
  destruct Hfields as (Hlc & Hla & Hcur).
  split_and!; try done.
  - destruct (hostname_unchangedb (priv w) (Some h)) eqn:Hb.
    + left. by apply hostname_unchangedb_spec.
    + right. by apply Hcur.
  - rewrite He, He0, Hb0, <- app_assoc.
    by destruct (hostname_unchangedb (priv w) (Some h)).
  - by apply (only_policy_changed_trans w w0 w').
Qed.

(** X22.  No specific hostname is configured and the best device
    consulted has no DHCP configuration.  Then the hostname the system
    started with comes first: when there is one it is handed to
    [_set_hostname] and no lookup is started.  Without it the reverse
    lookup is started for the first IPv4 address of the best IPv4 device
    or else the first IPv6 address of the best IPv6 device, and the
    hostname is left as it is until the lookup ends; with no address at
    all the hostname is set to NULL. *)
Theorem update_system_hostname_startup_then_lookup
    (fam : Family) (best4 best6 : option nat) (w : World) (d : nat) :
  let w0 := after_cancel_lookup w in
  let r4 := resolved_best_device E AF_INET best4 w0 in
  let r6 := resolved_best_device E AF_INET6 best6 w0 in
  (∀ h, manager_hostname w = Some h → nm_utils_is_specific_hostname E h = false) →
  (fam = AF_INET ∧ r4 = Some d) ∨ (fam = AF_INET6 ∧ r4 = None ∧ r6 = Some d) →
  nm_device_get_dhcp_config fam (device w d) = None →
  ∃ w' added,
    update_system_hostname E best4 best6 w = Returned tt w'
    ∧ effects w' = effects w0 ++ added
    ∧ only_policy_changed w w'
    ∧ match orig_hostname (priv w), reverse_lookup_address w r4 r6 with
      | Some h, _ =>
          priv w' = after_set_hostname (Some h) (priv w0)
          ∧ (∀ a, ResolverLookupByAddress a ∉ added)
      | None, Some a =>
          priv w' = set_lookup_cancellable true (set_lookup_addr (Some a) (priv w0))
          ∧ added = [ResolverLookupByAddress a]
      | None, None =>
          priv w' = after_set_hostname None (priv w0)
          ∧ (∀ a, ResolverLookupByAddress a ∉ added)
      end.
Proof.
  intros w0 r4 r6 Hconf Hbest Hcfg.
  destruct (after_cancel_lookup_frame w) as (Hopc0 & Horig0 & _).
  fold w0 in Hopc0, Horig0.
  assert (Hdev : ∀ d', device w0 d' = device w d').
  { intros d'. unfold device. by destruct Hopc0 as (-> & _). }
  rewrite (update_system_hostname_automatic best4 best6 w Hconf). fold w0 r4 r6.
  assert (Hladder : hostname_from_devices r4 r6 w0
                    = hostname_from_startup_or_lookup r4 r6 w0).
  { destruct Hbest as [(-> & Hr4) | (-> & Hr4 & Hr6)].
    - rewrite Hr4. unfold hostname_from_devices, dhcp_hostname_of.
      rewrite !bind_run, gets_run. cbv beta iota. rewrite Hdev, Hcfg. by hstep.
    - rewrite Hr4, Hr6. unfold hostname_from_devices, dhcp_hostname_of.
      rewrite !bind_run, gets_run. cbv beta iota. rewrite Hdev, Hcfg. by hstep. }
  rewrite Hladder. unfold hostname_from_startup_or_lookup.
  rewrite bind_run, gets_run. cbv beta iota. rewrite Horig0.
  destruct (orig_hostname (priv w)) as [h|].
  { destruct (set_hostname_run (Some h) "from system startup" w0)
      as (w' & added & Hrun & Hp & Hopc & He & _ & Hlookup & _).
    eexists w', _. split; [exact Hrun|]. split; [exact He|].
    split; [by apply (only_policy_changed_trans w w0 w')|].
    split; [exact Hp|]. intros a. rewrite elem_of_app. intros [Hin | Hin].
    - destruct (hostname_unchangedb _ _); [by apply elem_of_nil in Hin|].
      by apply list_elem_of_singleton in Hin.
    - by apply (Hlookup a). }
  rewrite bind_run, gets_run. cbv beta iota. rewrite bind_run, gets_run. cbv beta iota.
  unfold reverse_lookup_address.
  replace (r4 ≫= λ d0, dev_ip4_config (device w0 d0))
    with (r4 ≫= λ d0, dev_ip4_config (device w d0))
    by (destruct r4; cbn; [by rewrite Hdev | done]).
  replace (r6 ≫= λ d0, dev_ip6_config (device w0 d0))
    with (r6 ≫= λ d0, dev_ip6_config (device w d0))
    by (destruct r6; cbn; [by rewrite Hdev | done]).
  destruct ((r4 ≫= λ d0, dev_ip4_config (device w d0)) ≫= λ c, head (ipcfg_addresses c))
    as [addr4|].
  { hstep. eexists _, [_]. split; [reflexivity|].
    cbn [effects priv with_priv with_effects].
    split_and!; first [done | by apply (only_policy_changed_trans w w0 _)]. }
  destruct ((r6 ≫= λ d0, dev_ip6_config (device w d0)) ≫= λ c, head (ipcfg_addresses c))
    as [addr6|]; cbn [fmap option_fmap option_map].
  { hstep. eexists _, [_]. split; [reflexivity|].
    cbn [effects priv with_priv with_effects].
    split_and!; first [done | by apply (only_policy_changed_trans w w0 _)]. }
  destruct (set_hostname_run None "no IP config" w0)
    as (w' & added & Hrun & Hp & Hopc & He & _ & Hlookup & _).
  eexists w', _. split; [exact Hrun|]. split; [exact He|].
  split; [by apply (only_policy_changed_trans w w0 w')|].
  split; [exact Hp|]. intros a. rewrite elem_of_app. intros [Hin | Hin].
  - destruct (hostname_unchangedb _ _); [by apply elem_of_nil in Hin|].
    by apply list_elem_of_singleton in Hin.
  - by apply (Hlookup a).
Qed.

End HostnamePrecedence.
(** ** The statements on the scenarios *)

(** Runs the handler of a goal [∃ w', m = Returned tt w' ∧ _] on its
    concrete world and continues with the world it returns. *)
Ltac run_scenario H :=
  lazymatch goal with
  | |- ∃ w', ?m = Returned _ w' ∧ _ =>
      let w := fresh "w'" in
      destruct m as [[] w|] eqn:H;
      [ exists w; split; [reflexivity|]; vm_compute in H; injection H as <-
      | vm_compute in H; discriminate H ]
  end.

(** The claim as first stated for C1 has the routing update clear the
    family-default flag of every active session when there is no best
    configuration.  On [stale_default_world] the update clears the slot
    and session 1 still carries the IPv4 default flag afterwards. *)
Lemma update_ip4_routing_keeps_default_flag :
  drm_get_best_config routeless AF_INET stale_default_world false = None
  ∧ ∃ w',
      update_ip4_routing routeless false stale_default_world = Returned tt w'
      ∧ default_device4 (priv w') = None
      ∧ 1%nat ∈ manager_active_connections w'
      ∧ nm_active_connection_get_default_for AF_INET stale_default_world 1 = true
      ∧ nm_active_connection_get_default_for AF_INET w' 1 = true.
Proof.
  split; [reflexivity|]. eexists. split; [reflexivity|].
  split_and!; try reflexivity. by left.
Qed.

Lemma update_ip_routing_without_best_config_witness :
  drm_get_best_config routeless AF_INET stale_default_world false = None
  ∧ ∃ w',
      update_ip_routing routeless AF_INET false stale_default_world = Returned tt w'
      ∧ priv w' = set_default_device AF_INET None (priv stale_default_world)
      ∧ default_device AF_INET (priv w') = None
      ∧ effects w' =
          effects stale_default_world
            ++ (if bool_decide (is_Some (default_device AF_INET (priv stale_default_world)))
                then [Notify (PROP_DEFAULT_IP_DEVICE AF_INET)] else [])
      ∧ only_policy_changed stale_default_world w'
      ∧ (∀ a fam', nm_active_connection_get_default_for fam' w' a
                   = nm_active_connection_get_default_for fam' stale_default_world a).
Proof.
  split; [reflexivity|].
  apply (update_ip_routing_without_best_config routeless AF_INET false stale_default_world).
  reflexivity.
Defined.

Lemma at_most_one_default_vpn_world : at_most_one_default AF_INET vpn_world.
Proof.
  intros a b Ha Hb Hfa Hfb. simpl in Ha, Hb.
  elem_cases Ha; elem_cases Hb; try reflexivity; by vm_compute in Hfa, Hfb.
Qed.

Lemma update_default_ac_at_most_one_default_witness :
  at_most_one_default AF_INET vpn_world
  ∧ (∃ w1,
       update_default_ac_after 1 (Some 2%nat)
         (nm_active_connection_set_default_for AF_INET) vpn_world = Returned tt w1
       ∧ at_most_one_default AF_INET w1)
  ∧ (∃ w',
       update_default_ac (Some 2%nat)
         (nm_active_connection_set_default_for AF_INET) vpn_world = Returned tt w'
       ∧ at_most_one_default AF_INET w').
Proof.
  destruct (update_default_ac_at_most_one_default AF_INET (Some 2%nat) vpn_world)
    as (Hmid & _ & Hend).
  split; [exact at_most_one_default_vpn_world|]. split; [|exact Hend].
  destruct (Hmid 1%nat) as (w1 & Hrun & Hkeep & _).
  exists w1. split; [exact Hrun|]. apply Hkeep. exact at_most_one_default_vpn_world.
Defined.

Lemma update_ip_routing_effective_default_witness :
  drm_get_best_config vpn_only AF_INET vpn_world false = Some vpn_config
  ∧ bc_device vpn_config = None
  ∧ ∃ w',
      update_ip_routing vpn_only AF_INET false vpn_world = Returned tt w'
      ∧ (bc_device vpn_config = None → ∀ v, bc_vpn vpn_config = Some v →
           default_device AF_INET (priv w') = ac_device (active vpn_world v)
           ∧ ac_device (active w' v) = ac_device (active vpn_world v))
      ∧ (¬ (false = false ∧ is_Some (bc_device vpn_config)
             ∧ bc_device vpn_config = default_device AF_INET (priv vpn_world)) →
           default_device AF_INET (priv w') =
             match bc_vpn vpn_config with
             | Some v => ac_device (active w' v)
             | None => bc_device vpn_config
             end).
Proof.
  split; [reflexivity|]. split; [reflexivity|].
  apply (update_ip_routing_effective_default vpn_only AF_INET false vpn_world vpn_config).
  - reflexivity.
  - by eexists.
  - right. by eexists.
Defined.

Lemma device_state_changed_failed_retry_ledger_witness :
  ∃ w' o' added,
    device_state_changed routeless 0 NM_DEVICE_STATE_FAILED NM_DEVICE_STATE_CONFIG
      (NM_DEVICE_STATE_REASON_OTHER 4) last_try_world = Returned tt w'
    ∧ effects w' = effects last_try_world ++ added
    ∧ connection_objs w' = <[5%nat := o']> (connection_objs last_try_world)
    ∧ con_secrets o' = []
    ∧ (NM_DEVICE_STATE_REASON_OTHER 4 = NM_DEVICE_STATE_REASON_NO_SECRETS →
       autoconnect_blocked_reason o' = NM_DEVICE_STATE_REASON_NO_SECRETS
       ∧ autoconnect_retries o' = autoconnect_retries (profile 1 0 NM_DEVICE_STATE_REASON_NONE))
    ∧ (NM_DEVICE_STATE_REASON_OTHER 4 ≠ NM_DEVICE_STATE_REASON_NO_SECRETS →
       autoconnect_blocked_reason o'
         = autoconnect_blocked_reason (profile 1 0 NM_DEVICE_STATE_REASON_NONE)
       ∧ autoconnect_retries o' =
           if 0 <? autoconnect_retries (profile 1 0 NM_DEVICE_STATE_REASON_NONE)
           then autoconnect_retries (profile 1 0 NM_DEVICE_STATE_REASON_NONE) - 1
           else autoconnect_retries (profile 1 0 NM_DEVICE_STATE_REASON_NONE))
    ∧ (autoconnect_retries o' = 0 → reset_retries_id (priv last_try_world) = None →
       reset_retries_id (priv w') =
         Some (Z.max 0 (autoconnect_retry_time o' - monotonic_timestamp_s last_try_world))
       ∧ GTimeoutAddSeconds
           (Z.max 0 (autoconnect_retry_time o' - monotonic_timestamp_s last_try_world))
           "reset_connections_retries" ∈ effects w'
       ∧ timer_calls added =
           [(Z.max 0 (autoconnect_retry_time o' - monotonic_timestamp_s last_try_world),
             "reset_connections_retries")])
    ∧ (autoconnect_retries o' ≠ 0 ∨ is_Some (reset_retries_id (priv last_try_world)) →
       reset_retries_id (priv w') = reset_retries_id (priv last_try_world)
       ∧ timer_calls added = []).
Proof.
  apply (device_state_changed_failed_retry_ledger routeless 0 NM_DEVICE_STATE_CONFIG
           (NM_DEVICE_STATE_REASON_OTHER 4) last_try_world 5
           (profile 1 0 NM_DEVICE_STATE_REASON_NONE)).
  - reflexivity.
  - reflexivity.
  - simpl. lia.
  - simpl. lia.
  - simpl. lia.
  - simpl. lia.
  - simpl. lia.
Defined.




Lemma process_secondaries_outcome_witness :
  NoDup (psd_device <$> pending_secondaries (priv waiting_world))
  ∧ ∃ w' added,
      process_secondaries 2 true waiting_world = Returned tt w'
      ∧ effects w' = effects waiting_world ++ added
      ∧ pending_secondaries (priv w') = []
      ∧ device_transitions added
        = [(0%nat, NM_DEVICE_STATE_ACTIVATED, NM_DEVICE_STATE_REASON_NONE)]
      ∧ dev_state (device w' 0) = NM_DEVICE_STATE_ACTIVATED.
Proof.
  assert (Hnd : NoDup (psd_device <$> pending_secondaries (priv waiting_world)))
    by apply NoDup_singleton.
  split; [exact Hnd|].
  destruct (process_secondaries_outcome 2 true waiting_world Hnd)
    as ((w' & added & Hrun & He & _ & Hp & Ht & Hst & _) & _).
  exists w', added. split_and!; [exact Hrun | exact He | by rewrite Hp | exact Ht |].
  apply (Hst {| psd_device := 0%nat; psd_secondaries := [2%nat] |}). by left.
Defined.



(** The claim as first stated for C8 has an empty [host_name] value
    rejected with a warning.  On [dhcp_world ""] the value is empty, no
    warning is logged and the startup hostname is used. *)
Lemma update_system_hostname_empty_dhcp_host_name :
  nm_device_get_dhcp_config AF_INET (device (dhcp_world "") 0)
    = Some {| dhcp_host_name := Some "" |}
  ∧ ∃ w',
      update_system_hostname routeless (Some 0%nat) None (dhcp_world "") = Returned tt w'
      ∧ existsb is_warning (effects w') = false
      ∧ effects w' = []
      ∧ priv w' = priv (dhcp_world "").
Proof.
  split; [reflexivity|]. run_scenario Hrun. split_and!; reflexivity.
Qed.

Lemma update_system_hostname_dhcp_host_name_witness :
  (∃ w',
     update_system_hostname routeless (Some 0%nat) None (dhcp_world "  ") = Returned tt w'
     ∧ effects w' = [dhcp_hostname_warning AF_INET "  "])
  ∧ update_system_hostname routeless (Some 0%nat) None (dhcp_world " guest-7")
    = _set_hostname (Some "guest-7") "from DHCPv4" (dhcp_world " guest-7").
Proof.
  split.
  - destruct (update_system_hostname_dhcp_host_name routeless AF_INET (Some 0%nat) None
                (dhcp_world "  ") 0 {| dhcp_host_name := Some "  " |} "  ")
      as [Hrun _].
    + intros h Hh. discriminate Hh.
    + left. split; reflexivity.
    + reflexivity.
    + reflexivity.
    + rewrite Hrun. vm_compute. eexists. split; reflexivity.
  - destruct (update_system_hostname_dhcp_host_name routeless AF_INET (Some 0%nat) None
                (dhcp_world " guest-7") 0 {| dhcp_host_name := Some " guest-7" |}
                " guest-7")
      as [Hrun _].
    + intros h Hh. discriminate Hh.
    + left. split; reflexivity.
    + reflexivity.
    + reflexivity.
    + exact Hrun.
Defined.

Lemma device_state_changed_secondaries_none_witness :
  con_secondaries (connection plain_world 5) = []
  ∧ ∃ w' a4 a6 notes,
      device_state_changed routeless 0 NM_DEVICE_STATE_SECONDARIES
        NM_DEVICE_STATE_IP_CHECK NM_DEVICE_STATE_REASON_NONE plain_world = Returned tt w'
      ∧ effects w' =
          effects plain_world
            ++ DeviceQueueState 0 NM_DEVICE_STATE_ACTIVATED NM_DEVICE_STATE_REASON_NONE
            :: notes
      ∧ priv w' = set_activating_device AF_INET6 a6
                    (set_activating_device AF_INET a4 (priv plain_world))
      ∧ pending_secondaries (priv w') = pending_secondaries (priv plain_world)
      ∧ only_policy_changed plain_world w'.
Proof.
  split; [reflexivity|].
  destruct (device_state_changed_secondaries_none routeless 0 NM_DEVICE_STATE_IP_CHECK
              NM_DEVICE_STATE_REASON_NONE plain_world)
    as (w' & a4 & a6 & notes & Hrun & He & _ & _ & Hp & Hpend & _ & _ & _ & Hopc).
  - right. exists 5%nat. split; reflexivity.
  - by exists w', a4, a6, notes.
Defined.

Lemma connection_removed_or_hidden_witness :
  con_visible (connection stale_default_world 5) = false
  ∧ (∃ w' chunks,
       connection_removed routeless 5 stale_default_world = Returned tt w'
       ∧ same_but_effects stale_default_world w'
       ∧ effects w' = effects stale_default_world ++ concat chunks
       ∧ Forall2 (deactivation_calls routeless stale_default_world 5) [1%nat] chunks)
  ∧ connection_visibility_changed routeless 5 stale_default_world
    = connection_removed routeless 5 stale_default_world.
Proof.
  split; [reflexivity|].
  destruct (connection_removed_or_hidden routeless 5 stale_default_world)
    as (Hremoved & Hhidden & _).
  split; [exact Hremoved | apply Hhidden; reflexivity].
Defined.

(** ** The remaining observers on the scenarios *)

Lemma route_manager_contract_routeless : route_manager_contract routeless.
Proof. intros fam w bc Hbest. discriminate Hbest. Qed.

Lemma route_manager_contract_vpn_starter : route_manager_contract vpn_starter.
Proof. intros fam w bc Hbest. discriminate Hbest. Qed.

Lemma route_manager_contract_vpn_only : route_manager_contract vpn_only.
Proof.
  intros [] w bc Hbest; [|discriminate Hbest]. injection Hbest as <-.
  split; [right|]; by eexists.
Qed.

Lemma schedule_activate_all_cb_queues_each_device_once_witness :
  no_duplicate_checks plain_world
  ∧ ∃ w',
      schedule_activate_all_cb plain_world = Returned tt w'
      ∧ no_duplicate_checks w'
      ∧ is_Some (find_pending_activation (pending_activation_checks (priv w')) 0).
Proof.
  assert (Hnd : no_duplicate_checks plain_world) by apply NoDup_nil_2.
  split; [exact Hnd|].
  destruct (schedule_activate_all_cb_queues_each_device_once plain_world Hnd)
    as (w' & new & Hrun & _ & Hnd' & _ & _ & Hfound & _).
  exists w'. split_and!; [exact Hrun | exact Hnd' |].
  apply Hfound; [by left | reflexivity].
Defined.

Lemma clear_pending_activate_check_undoes_schedule_witness :
  activation_check_allowed plain_world 0 = true
  ∧ ∃ w1 w2,
      schedule_activate_check 0 plain_world = Returned tt w1
      ∧ clear_pending_activate_check 0 w1 = Returned tt w2
      ∧ priv w2 = priv plain_world
      ∧ only_policy_changed plain_world w2.
Proof.
  split; [reflexivity|].
  destruct (clear_pending_activate_check_undoes_schedule 0 plain_world) as (_ & Hundo).
  destruct Hundo as (w1 & w2 & Hrun1 & _ & _ & Hrun2 & Hp & Hopc & _).
  - apply not_elem_of_nil.
  - reflexivity.
  - apply not_elem_of_nil.
  - by exists w1, w2.
Defined.


Lemma update_ip_routing_notifies_changes_witness :
  update_ip_routing unattributed AF_INET false vpn_world = Aborted "(best || vpn) && best_ac"
  ∧ ∃ w' added,
      update_ip_routing vpn_only AF_INET false vpn_world = Returned tt w'
      ∧ effects w' = effects vpn_world ++ added
      ∧ (∀ p, Notify p ∈ added ↔ get_property w' p ≠ get_property vpn_world p)
      ∧ routing_step AF_INET vpn_world w'.
Proof.
  split.
  - destruct (update_ip_routing_notifies_changes unattributed AF_INET false vpn_world)
      as (Habort & _).
    apply (Habort unattributed_config); [reflexivity|].
    intros (_ & Hac). by destruct Hac.
  - destruct (update_ip_routing_notifies_changes vpn_only AF_INET false vpn_world)
      as (_ & Hreturns).
    apply Hreturns. intros bc Hbest. by apply (route_manager_contract_vpn_only AF_INET vpn_world).
Defined.

Lemma update_routing_and_dns_bracketed_witness :
  route_manager_contract vpn_only
  ∧ ∃ w' mid,
      update_routing_and_dns vpn_only false vpn_world = Returned tt w'
      ∧ effects w' = effects vpn_world ++ bracketed "update_routing_and_dns" mid
      ∧ Forall is_update_call mid
      ∧ outside_routing_and_hostname w' = outside_routing_and_hostname vpn_world.
Proof.
  split; [exact route_manager_contract_vpn_only|].
  destruct (update_routing_and_dns_bracketed vpn_only false vpn_world
              route_manager_contract_vpn_only)
    as (w' & mid & Hrun & He & Hcalls & _ & _ & Hout & _).
  by exists w', mid.
Defined.

Lemma device_ip_config_changed_outcome_witness :
  (∃ w',
     device_ip_config_changed vpn_only one_activating AF_INET 1 None
       (Some {| ipcfg_id := 1; ipcfg_addresses := [3232235777] |}) vpn_world = Returned tt w'
     ∧ effects w' =
         effects vpn_world
         ++ [DnsBeginUpdates "device_ip4_config_changed";
             DnsRemoveIPConfig AF_INET {| ipcfg_id := 1; ipcfg_addresses := [3232235777] |};
             DnsEndUpdates "device_ip4_config_changed"])
  ∧ (∃ w' mid w1 w2 w3 w4,
       device_ip_config_changed vpn_only one_activating AF_INET 0
         (Some {| ipcfg_id := 2; ipcfg_addresses := [3232235778] |})
         (Some {| ipcfg_id := 1; ipcfg_addresses := [3232235777] |}) vpn_world
         = Returned tt w'
       ∧ effects w1 =
           effects vpn_world
           ++ [DnsBeginUpdates "device_ip4_config_changed";
               DnsRemoveIPConfig AF_INET {| ipcfg_id := 1; ipcfg_addresses := [3232235777] |};
               DnsAddIPConfig AF_INET (Some "eth0")
                 {| ipcfg_id := 2; ipcfg_addresses := [3232235778] |}
                 NM_DNS_IP_CONFIG_TYPE_DEFAULT]
       ∧ update_ip_dns vpn_only AF_INET w1 = Returned tt w2
       ∧ update_ip_routing vpn_only AF_INET true w2 = Returned tt w3
       ∧ update_system_hostname vpn_only (default_device4 (priv w3))
           (default_device6 (priv w3)) w3 = Returned tt w4
       ∧ effects w4 = effects w1 ++ mid
       ∧ Forall is_update_call mid
       ∧ w' = with_effects (λ l, l ++ [DnsEndUpdates "device_ip4_config_changed"]) w4).
Proof.
  split.
  - destruct (device_ip_config_changed_outcome vpn_only one_activating AF_INET 1 None
                (Some {| ipcfg_id := 1; ipcfg_addresses := [3232235777] |}) vpn_world)
      as (Hactivating & _).
    destruct Hactivating as (w' & Hrun & _ & _ & He); [reflexivity|].
    by exists w'.
  - destruct (device_ip_config_changed_outcome vpn_only one_activating AF_INET 0
                (Some {| ipcfg_id := 2; ipcfg_addresses := [3232235778] |})
                (Some {| ipcfg_id := 1; ipcfg_addresses := [3232235777] |}) vpn_world)
      as (_ & Hsettled).
    destruct Hsettled
      as (w' & mid & w1 & w2 & w3 & w4 & Hrun & _ & Hcalls & _ & (_ & _ & He1)
          & Hrun2 & Hrun3 & Hrun4 & He4 & Hw');
      [reflexivity | exact route_manager_contract_vpn_only |].
    exists w', mid, w1, w2, w3, w4. by split_and!.
Defined.

Lemma vpn_connection_state_changed_outcome_witness :
  route_manager_contract vpn_only
  ∧ (∃ w2,
       vpn_connection_state_changed vpn_only one_activating 2
         NM_VPN_CONNECTION_STATE_ACTIVATED NM_VPN_CONNECTION_STATE_IP_CONFIG_GET vpn_world
       = Returned tt (with_effects (λ l, l ++ [DnsEndUpdates "vpn_connection_activated"]) w2))
  ∧ vpn_connection_state_changed vpn_only one_activating 2
      NM_VPN_CONNECTION_STATE_FAILED NM_VPN_CONNECTION_STATE_CONNECT vpn_world
    = Returned tt vpn_world.
Proof.
  split; [exact route_manager_contract_vpn_only|]. split.
  - destruct (vpn_connection_state_changed_outcome vpn_only one_activating 2
                NM_VPN_CONNECTION_STATE_ACTIVATED NM_VPN_CONNECTION_STATE_IP_CONFIG_GET
                vpn_world route_manager_contract_vpn_only) as (Hactivated & _).
    destruct (Hactivated eq_refl) as (w1 & w2 & _ & _ & Hrun). by exists w2.
  - destruct (vpn_connection_state_changed_outcome vpn_only one_activating 2
                NM_VPN_CONNECTION_STATE_FAILED NM_VPN_CONNECTION_STATE_CONNECT
                vpn_world route_manager_contract_vpn_only) as (_ & _ & Hother).
    apply Hother; [discriminate|]. right. intros Hin. elem_cases Hin; discriminate.
Defined.

Lemma sleeping_changed_reenables_all_witness :
  ∃ w',
    sleeping_changed routeless true true timer_world = Returned tt w'
    ∧ autoconnect_retries (connection w' 5) = 4
    ∧ autoconnect_blocked_reason (connection w' 5) = NM_DEVICE_STATE_REASON_NONE
    ∧ priv w' = priv timer_world.
Proof.
  destruct (sleeping_changed_reenables_all routeless true true timer_world) as (_ & Hasleep).
  destruct Hasleep as (w' & Hrun & Hcells & Hall & Hp & _); [by left|].
  exists w'. split; [exact Hrun|].
  pose proof (Hcells 5%nat) as Hcell.
  change (connection_objs w' !! 5%nat = Some (reenabled_cell routeless 1000
            (profile 0 900 NM_DEVICE_STATE_REASON_NO_SECRETS))) in Hcell.
  unfold connection. rewrite Hcell. by split_and!.
Defined.

Lemma device_state_changed_deactivating_blocks_witness :
  (∀ w' c, nm_device_check_connection_compatible routeless w' 0 c = true)
  ∧ ∃ w',
      device_state_changed routeless 0 NM_DEVICE_STATE_DEACTIVATING NM_DEVICE_STATE_ACTIVATED
        NM_DEVICE_STATE_REASON_USER_REQUESTED stale_default_world = Returned tt w'
      ∧ connection_objs w' !! 5%nat
        = Some (profile 4 0 NM_DEVICE_STATE_REASON_USER_REQUESTED)
      ∧ only_policy_changed_but_ledger stale_default_world w'.
Proof.
  split; [done|].
  destruct (device_state_changed_deactivating_blocks routeless 0 NM_DEVICE_STATE_ACTIVATED
              NM_DEVICE_STATE_REASON_USER_REQUESTED (λ _, true) stale_default_world)
    as (w' & Hrun & Hcells & Hopc & _); [done|].
  exists w'. split_and!; [exact Hrun | | exact Hopc].
  by rewrite (Hcells 5%nat).
Defined.

Lemma device_state_changed_activation_succeeds_witness :
  route_manager_contract routeless
  ∧ ∃ w' mid notes w1 w2,
      device_state_changed routeless 0 NM_DEVICE_STATE_ACTIVATED NM_DEVICE_STATE_IP_CHECK
        NM_DEVICE_STATE_REASON_NONE last_try_world = Returned tt w'
      ∧ connection_objs w' !! 5%nat
        = Some (clear_secrets (profile 4 0 NM_DEVICE_STATE_REASON_NONE))
      ∧ effects w1 =
          effects last_try_world
          ++ [DnsBeginUpdates "device_state_changed";
              DnsAddIPConfig AF_INET (Some "eth0")
                {| ipcfg_id := 1; ipcfg_addresses := [3232235777] |}
                NM_DNS_IP_CONFIG_TYPE_DEFAULT]
      ∧ update_routing_and_dns routeless false w1 = Returned tt w2
      ∧ effects w2 = effects w1 ++ bracketed "update_routing_and_dns" mid
      ∧ check_activating_devices routeless
          (with_effects (λ l, l ++ [DnsEndUpdates "device_state_changed"]) w2)
        = Returned tt w'
      ∧ effects w' =
          effects last_try_world
          ++ bracketed "device_state_changed"
               (DnsAddIPConfig AF_INET (Some "eth0")
                  {| ipcfg_id := 1; ipcfg_addresses := [3232235777] |}
                  NM_DNS_IP_CONFIG_TYPE_DEFAULT
                :: bracketed "update_routing_and_dns" mid)
          ++ notes.
Proof.
  split; [exact route_manager_contract_routeless|].
  destruct (device_state_changed_activation_succeeds routeless 0 NM_DEVICE_STATE_IP_CHECK
              NM_DEVICE_STATE_REASON_NONE last_try_world) as (_ & Hactivated).
  destruct (Hactivated route_manager_contract_routeless)
    as (w' & mid & notes & w1 & w2 & Hrun & Hc & _ & He & _ & _ & _ & _ & _ & He1
        & Hrun2 & He2 & Hrun').
  exists w', mid, notes, w1, w2.
  split_and!; [exact Hrun | by rewrite Hc | exact He1 | exact Hrun2 | exact He2
              | exact Hrun' | exact He].
Defined.


Lemma activation_ignores_calls_vpn_starter : activation_ignores_calls vpn_starter 0.
Proof. by intros w w2 c _. Qed.

Lemma activation_ignores_calls_routeless : activation_ignores_calls routeless 0.
Proof. by intros w w2 c _. Qed.

Lemma device_state_changed_secondaries_started_witness :
  route_manager_contract vpn_starter
  ∧ activation_ignores_calls vpn_starter 0
  ∧ dev_settings_connection (device secondaries_world 0) = Some 5%nat
  ∧ con_secondaries (connection secondaries_world 5) = ["uuid-vpn"]
  ∧ dev_act_request (device secondaries_world 0) = Some 1%nat
  ∧ (∃ w1 w' notes,
       update_routing_and_dns vpn_starter false secondaries_world = Returned tt w1
       ∧ secondary_session vpn_starter w1 0 "uuid-vpn" = Some 2%nat
       ∧ device_state_changed vpn_starter 0 NM_DEVICE_STATE_SECONDARIES
           NM_DEVICE_STATE_IP_CHECK NM_DEVICE_STATE_REASON_NONE secondaries_world
         = Returned tt w'
       ∧ pending_secondaries (priv w')
         = [{| psd_device := 0%nat; psd_secondaries := [2%nat] |}]
       ∧ effects w' = effects w1 ++ activation_calls w1 5 0 "uuid-vpn" ++ notes
       ∧ Forall is_activating_notification notes)
  ∧ (∃ w1 w' notes,
       update_routing_and_dns routeless false secondaries_world = Returned tt w1
       ∧ secondary_session routeless w1 0 "uuid-vpn" = None
       ∧ device_state_changed routeless 0 NM_DEVICE_STATE_SECONDARIES
           NM_DEVICE_STATE_IP_CHECK NM_DEVICE_STATE_REASON_NONE secondaries_world
         = Returned tt w'
       ∧ pending_secondaries (priv w') = []
       ∧ effects w' =
           effects w1 ++ failure_calls w1 5 0 "uuid-vpn"
           ++ [DeviceQueueState 0 NM_DEVICE_STATE_FAILED
                 NM_DEVICE_STATE_REASON_SECONDARY_CONNECTION_FAILED]
           ++ notes
       ∧ Forall is_activating_notification notes).
Proof.
  split; [exact route_manager_contract_vpn_starter|].
  split; [exact activation_ignores_calls_vpn_starter|].
  split; [reflexivity|]. split; [reflexivity|]. split; [reflexivity|]. split.
  - destruct (device_state_changed_secondaries_started vpn_starter 0 5
                NM_DEVICE_STATE_IP_CHECK NM_DEVICE_STATE_REASON_NONE secondaries_world
                route_manager_contract_vpn_starter activation_ignores_calls_vpn_starter)
      as (w1 & w' & mid & notes & Hrun1 & _ & _ & Hrun & Hnotes & _ & _ & Hevery & _);
      [reflexivity | discriminate | by eexists |].
    assert (Hsession : secondary_session vpn_starter w1 0 "uuid-vpn" = Some 2%nat).
    { vm_compute in Hrun1. by injection Hrun1 as <-. }
    change (con_secondaries (connection secondaries_world 5)) with ["uuid-vpn"] in Hevery.
    destruct Hevery as (Hps & He).
    { constructor; [by rewrite Hsession|]. constructor. }
    cbn [omap list_omap fmap list_fmap concat] in Hps, He.
    rewrite Hsession in Hps. rewrite app_nil_r in He.
    exists w1, w', notes. by split_and!.
  - destruct (device_state_changed_secondaries_started routeless 0 5
                NM_DEVICE_STATE_IP_CHECK NM_DEVICE_STATE_REASON_NONE secondaries_world
                route_manager_contract_routeless activation_ignores_calls_routeless)
      as (w1 & w' & mid & notes & Hrun1 & _ & _ & Hrun & Hnotes & _ & _ & _ & Hstops);
      [reflexivity | discriminate | by eexists |].
    assert (Hsession : secondary_session routeless w1 0 "uuid-vpn" = None).
    { vm_compute in Hrun1. by injection Hrun1 as <-. }
    destruct (Hstops [] "uuid-vpn" [] eq_refl (Forall_nil_2 _) Hsession) as (Hps & He).
    exists w1, w', notes. by split_and!.
Defined.

Lemma update_system_hostname_configured_wins_witness :
  manager_hostname configured_world = Some "server1"
  ∧ nm_utils_is_specific_hostname routeless "server1" = true
  ∧ ∃ w' added,
      update_system_hostname routeless (Some 0%nat) None configured_world = Returned tt w'
      ∧ cur_hostname (priv w') = Some "server1"
      ∧ lookup_cancellable (priv w') = false
      ∧ effects w' =
          effects configured_world
          ++ [CancellableCancel; DnsSetHostname (Some "server1")] ++ added
      ∧ (∀ a, ResolverLookupByAddress a ∉ added).
Proof.
  split; [reflexivity|]. split; [reflexivity|].
  destruct (update_system_hostname_configured_wins routeless (Some 0%nat) None "server1"
              configured_world eq_refl eq_refl)
    as (w' & added & Hrun & _ & Hlc & _ & Hcur & He & _ & Hlookup & _).
  exists w', added. split_and!; [exact Hrun | | exact Hlc | exact He | exact Hlookup].
  destruct Hcur as [[Hsame | (_ & _ & Hsame)] | Hcur]; [discriminate Hsame.. | exact Hcur].
Defined.

Lemma update_system_hostname_startup_then_lookup_witness :
  nm_device_get_dhcp_config AF_INET (device renamed_world 0) = None
  ∧ ∃ w',
      update_system_hostname routeless (Some 0%nat) None renamed_world = Returned tt w'
      ∧ effects w' = effects renamed_world ++ [ResolverLookupByAddress (AF_INET, 3232235777)]
      ∧ lookup_cancellable (priv w') = true
      ∧ cur_hostname (priv w') = Some "foo".
Proof.
  split; [reflexivity|].
  destruct (update_system_hostname_startup_then_lookup routeless AF_INET (Some 0%nat) None
              renamed_world 0)
    as (w' & added & Hrun & He & _ & Hcase);
    [intros h Hh; discriminate Hh | left; by split | reflexivity |].
  change (priv w' = set_lookup_cancellable true
                      (set_lookup_addr (Some (AF_INET, 3232235777)) (priv renamed_world))
          ∧ added = [ResolverLookupByAddress (AF_INET, 3232235777)]) in Hcase.
  destruct Hcase as (Hp & Hadded).
  exists w'. split_and!; [exact Hrun | by rewrite He, Hadded | by rewrite Hp | by rewrite Hp].
Defined.

Lemma device_state_changed_prepare_resets_slaves_witness :
  device_state_changed routeless 0 NM_DEVICE_STATE_PREPARE NM_DEVICE_STATE_DISCONNECTED
    NM_DEVICE_STATE_REASON_NONE nameless_world = Aborted "master_device"
  ∧ device_state_changed routeless 0 NM_DEVICE_STATE_PREPARE NM_DEVICE_STATE_DISCONNECTED
      NM_DEVICE_STATE_REASON_NONE dangling_world = Aborted "s_slave_con"
  ∧ ∃ w',
      device_state_changed routeless 0 NM_DEVICE_STATE_PREPARE NM_DEVICE_STATE_DISCONNECTED
        NM_DEVICE_STATE_REASON_NONE slaves_world = Returned tt w'
      ∧ connection_objs w' !! 7%nat = Some (reset_cell routeless 1000 slave_profile)
      ∧ connection_objs w' !! 5%nat = Some (profile 4 0 NM_DEVICE_STATE_REASON_NONE)
      ∧ autoconnect_blocked_reason (connection w' 7) = NM_DEVICE_STATE_REASON_NO_SECRETS
      ∧ schedule_activate_all_id (priv w') = true.
Proof.
  split_and!.
  - by apply (device_state_changed_prepare_resets_slaves routeless 0
                NM_DEVICE_STATE_DISCONNECTED NM_DEVICE_STATE_REASON_NONE nameless_world).
  - apply (device_state_changed_prepare_resets_slaves routeless 0
             NM_DEVICE_STATE_DISCONNECTED NM_DEVICE_STATE_REASON_NONE dangling_world).
    + by eexists.
    + reflexivity.
    + apply Exists_cons. right. apply Exists_cons. by left.
  - destruct (device_state_changed_prepare_resets_slaves routeless 0
                NM_DEVICE_STATE_DISCONNECTED NM_DEVICE_STATE_REASON_NONE slaves_world)
      as (_ & _ & Hreturns).
    destruct Hreturns as (w' & idle & notes & Hrun & Hcells & Hblocked & _ & _ & _ & _ & Hid & _).
    + by eexists.
    + right. repeat constructor; by eexists.
    + exists w'. split; [exact Hrun|]. split_and!.
      * by rewrite (Hcells 7%nat).
      * by rewrite (Hcells 5%nat).
      * by rewrite (Hblocked 7%nat).
      * exact Hid.
Defined.
